(** * Schema validation and table synchronisation of the data warehouse

    A shallow embedding of
    [posthog/warehouse/data_load/validate_schema.py]: the probe
    [validate_schema] and the orchestrator
    [validate_schema_and_update_table].

    The two functions are sequences of awaited calls to collaborators
    (the job accessor, the credential provider, the catalog store, the
    schema store, the storage engine, the bucket deletion).  Every such call
    either returns a value or raises a Python exception, and may change the
    outside world.  The embedding therefore runs in a small monad that
    threads the world, propagates exceptions, and journals every
    collaborator call together with its outcome.

    The second part of the file embeds, in the same way, the serializer of
    experiments of [ee/clickhouse/views/experiments.py]:
    [validate_parameters], [create] and [update]. *)

From Stdlib Require Import ZArith String Ascii List Lia Bool.
From stdpp Require Import base option list strings gmap.

Local Open Scope string_scope.
Local Open Scope Z_scope.
Local Open Scope list_scope.

(** ** Python values used by the module *)

(** The exceptions the code distinguishes: [ServerException] of
    [clickhouse_driver.errors] with its integer [code], Django's
    [DoesNotExist], and any other subclass of [Exception]. *)
Inductive Exn : Type :=
| ServerException (code : Z)
| DoesNotExist
| OtherError (msg : string).

Inductive Result (A : Type) : Type :=
| Ok (a : A)
| Raise (e : Exn).
Arguments Ok {A} a.
Arguments Raise {A} e.

(** [x or ''] on an optional string: [None] and the empty string are
    falsy. *)
Definition or_empty (x : option string) : string :=
  match x with
  | Some (String c r) => String c r
  | Some EmptyString => ""
  | None => ""
  end.

(** ** Data model *)

Record DataWarehouseCredential : Type := {
  cred_team_id : Z;
  cred_access_key : string;
  cred_access_secret : string
}.

(** A column list: column name and ClickHouse type. *)
Definition Columns : Type := list (string * string).

Record DataWarehouseTable : Type := {
  tbl_pk : option nat;
  tbl_credential : DataWarehouseCredential;
  tbl_name : string;
  tbl_format : string;
  tbl_url_pattern : string;
  tbl_team_id : Z;
  tbl_external_data_source_id : option string;
  tbl_columns : Columns
}.

(** The dictionary built and returned by [validate_schema]: exactly the
    five keys of the source. *)
Record TableParams : Type := {
  p_credential : DataWarehouseCredential;
  p_name : string;
  p_format : string;
  p_url_pattern : string;
  p_team_id : Z
}.

(** The constructor call on the keyword dictionary [params]: an unsaved
    in-memory object. *)
Definition DataWarehouseTable_init (params : TableParams) : DataWarehouseTable :=
  {| tbl_pk := None;
     tbl_credential := p_credential params;
     tbl_name := p_name params;
     tbl_format := p_format params;
     tbl_url_pattern := p_url_pattern params;
     tbl_team_id := p_team_id params;
     tbl_external_data_source_id := None;
     tbl_columns := [] |}.

(** [table.columns = cols] *)
Definition set_columns (t : DataWarehouseTable) (cols : Columns) : DataWarehouseTable :=
  {| tbl_pk := tbl_pk t;
     tbl_credential := tbl_credential t;
     tbl_name := tbl_name t;
     tbl_format := tbl_format t;
     tbl_url_pattern := tbl_url_pattern t;
     tbl_team_id := tbl_team_id t;
     tbl_external_data_source_id := tbl_external_data_source_id t;
     tbl_columns := cols |}.

(** [table.url_pattern = url] *)
Definition set_url_pattern (t : DataWarehouseTable) (url : string) : DataWarehouseTable :=
  {| tbl_pk := tbl_pk t;
     tbl_credential := tbl_credential t;
     tbl_name := tbl_name t;
     tbl_format := tbl_format t;
     tbl_url_pattern := url;
     tbl_team_id := tbl_team_id t;
     tbl_external_data_source_id := tbl_external_data_source_id t;
     tbl_columns := tbl_columns t |}.

(** [job.pipeline]: the external data source. *)
Record ExternalDataSource : Type := {
  src_id : string;
  src_prefix : option string;
  src_source_type : string
}.

Record ExternalDataJob : Type := {
  job_pk : string;
  job_team_id : Z;
  job_pipeline_id : string;
  job_pipeline : ExternalDataSource;
  job_created_at : Z
}.

Record ExternalDataSchema : Type := {
  sch_id : string;
  sch_team_id : Z;
  sch_name : string;
  sch_table : option DataWarehouseTable;
  sch_last_synced_at : option Z
}.

(** [schema_model.table = table; schema_model.last_synced_at = ts] *)
Definition attach_table (s : ExternalDataSchema) (t : DataWarehouseTable) (ts : Z)
  : ExternalDataSchema :=
  {| sch_id := sch_id s;
     sch_team_id := sch_team_id s;
     sch_name := sch_name s;
     sch_table := Some t;
     sch_last_synced_at := Some ts |}.

(** ** The journal of collaborator calls

    One entry per call, with the arguments the code passed and the outcome
    the collaborator gave.  [get_columns] records the keyword argument
    [safe_expose_ch_error] as given ([None] when the call site omits it). *)
Inductive Event : Type :=
| Ev_bind_temporal_worker_logger (team_id : Z) (r : Result unit)
| Ev_get_external_data_job (job_id : string) (r : Result ExternalDataJob)
| Ev_get_latest_run_if_exists (team_id : Z) (pipeline_id : string)
    (r : Result (option ExternalDataJob))
| Ev_get_or_create_datawarehouse_credential (team_id : Z)
    (access_key access_secret : string) (r : Result DataWarehouseCredential)
| Ev_get_columns (table : DataWarehouseTable) (safe_expose_ch_error : option bool)
    (r : Result Columns)
| Ev_get_table_by_schema_id (schema_id : string) (team_id : Z)
    (r : Result (option DataWarehouseTable))
| Ev_asave_datawarehousetable (table : DataWarehouseTable) (r : Result unit)
| Ev_acreate_datawarehousetable (external_data_source_id : string)
    (data : TableParams) (r : Result DataWarehouseTable)
| Ev_aget_schema_by_id (schema_id : string) (team_id : Z)
    (r : Result (option ExternalDataSchema))
| Ev_asave_external_data_schema (schema : ExternalDataSchema) (r : Result unit)
| Ev_delete_data_in_bucket (job : ExternalDataJob) (r : Result unit)
| Ev_logger_exception (msg : string) (exc_info : Exn).

Definition is_delete (ev : Event) : bool :=
  match ev with Ev_delete_data_in_bucket _ _ => true | _ => false end.

Definition is_log (ev : Event) : bool :=
  match ev with Ev_logger_exception _ _ => true | _ => false end.

(** Calls that create or write a catalog Table. *)
Definition is_table_write (ev : Event) : bool :=
  match ev with
  | Ev_asave_datawarehousetable _ _ => true
  | Ev_acreate_datawarehousetable _ _ _ => true
  | _ => false
  end.

Definition is_create (ev : Event) : bool :=
  match ev with Ev_acreate_datawarehousetable _ _ _ => true | _ => false end.

(** Calls of the catalog store and of the schema store. *)
Definition is_store_call (ev : Event) : bool :=
  match ev with
  | Ev_get_table_by_schema_id _ _ _ => true
  | Ev_asave_datawarehousetable _ _ => true
  | Ev_acreate_datawarehousetable _ _ _ => true
  | Ev_aget_schema_by_id _ _ _ => true
  | Ev_asave_external_data_schema _ _ => true
  | _ => false
  end.

Definition is_get_columns (ev : Event) : bool :=
  match ev with Ev_get_columns _ _ _ => true | _ => false end.

Fixpoint count (p : Event -> bool) (tr : list Event) : nat :=
  match tr with
  | [] => 0%nat
  | ev :: tr' => ((if p ev then 1 else 0) + count p tr')%nat
  end.

(** The probes of a journal: name and URL pattern of the tables on which
    [get_columns(safe_expose_ch_error=False)] was called. *)
Fixpoint probe_calls (tr : list Event) : list (string * string) :=
  match tr with
  | [] => []
  | Ev_get_columns t (Some false) _ :: tr' =>
      (tbl_name t, tbl_url_pattern t) :: probe_calls tr'
  | _ :: tr' => probe_calls tr'
  end.

(** ** The orchestrator over an arbitrary environment *)

Section Orchestrator.

(** The outside world: database, object storage, clock, other users. *)
Variable W : Type.

(** The collaborators, imported by the module from
    [posthog.warehouse.models], [posthog.temporal.common.logger] and the
    model classes.  Each one runs against the world and returns or
    raises. *)
Record Env : Type := {
  env_bind_temporal_worker_logger : Z -> W -> Result unit * W;
  env_get_external_data_job : string -> W -> Result ExternalDataJob * W;
  env_get_latest_run_if_exists :
    Z -> string -> W -> Result (option ExternalDataJob) * W;
  env_get_or_create_datawarehouse_credential :
    Z -> string -> string -> W -> Result DataWarehouseCredential * W;
  env_get_columns :
    DataWarehouseTable -> option bool -> W -> Result Columns * W;
  env_get_table_by_schema_id :
    string -> Z -> W -> Result (option DataWarehouseTable) * W;
  env_asave_datawarehousetable : DataWarehouseTable -> W -> Result unit * W;
  env_acreate_datawarehousetable :
    string -> TableParams -> W -> Result DataWarehouseTable * W;
  env_aget_schema_by_id :
    string -> Z -> W -> Result (option ExternalDataSchema) * W;
  env_asave_external_data_schema : ExternalDataSchema -> W -> Result unit * W;
  env_delete_data_in_bucket : ExternalDataJob -> W -> Result unit * W
}.

Variable env : Env.

(** [settings.AIRBYTE_BUCKET_KEY], [settings.AIRBYTE_BUCKET_SECRET]. *)
Variable AIRBYTE_BUCKET_KEY : string.
Variable AIRBYTE_BUCKET_SECRET : string.

(** [str.lower], the method of Python's built-in strings, which lower-cases
    every cased character of Unicode; it is taken as it is, as a function
    on strings. *)
Variable lower : string -> string.

(** [posthog.utils.camel_to_snake_case] and the method
    [ExternalDataJob.url_pattern_by_schema], both pure. *)
Variable camel_to_snake_case : string -> string.
Variable url_pattern_by_schema : ExternalDataJob -> string -> string.

(** *** The monad: world, exception, journal *)

Definition M (A : Type) : Type := W -> Result A * W * list Event.

Definition ret {A : Type} (a : A) : M A := fun w => (Ok a, w, []).

Definition raise {A : Type} (e : Exn) : M A := fun w => (Raise e, w, []).

Definition bind {A B : Type} (m : M A) (k : A -> M B) : M B :=
  fun w =>
    match m w with
    | (Ok a, w1, t1) =>
        match k a w1 with
        | (r, w2, t2) => (r, w2, t1 ++ t2)
        end
    | (Raise e, w1, t1) => (Raise e, w1, t1)
    end.

(** [try: m] with the outcome handed to the [except]/[else] clauses. *)
Definition try {A : Type} (m : M A) : M (Result A) :=
  fun w => match m w with (r, w1, t1) => (Ok r, w1, t1) end.

Definition call {A : Type} (op : W -> Result A * W) (ev : Result A -> Event)
  : M A :=
  fun w => match op w with (r, w1) => (r, w1, [ev r]) end.

Notation "x <- m ;; k" := (bind m (fun x => k))
  (at level 100, m at next level, right associativity).
Notation "m ;;; k" := (bind m (fun _ => k))
  (at level 100, right associativity).

(** [for x in l: body(x)], where [continue] is the body returning early. *)
Fixpoint for_each {A : Type} (body : A -> M unit) (l : list A) : M unit :=
  match l with
  | [] => ret tt
  | x :: l' => body x ;;; for_each body l'
  end.

(** *** Journaled collaborator calls *)

Definition bind_temporal_worker_logger (team_id : Z) : M unit :=
  call (env_bind_temporal_worker_logger env team_id)
       (Ev_bind_temporal_worker_logger team_id).

Definition get_external_data_job (job_id : string) : M ExternalDataJob :=
  call (env_get_external_data_job env job_id) (Ev_get_external_data_job job_id).

Definition get_latest_run_if_exists (team_id : Z) (pipeline_id : string)
  : M (option ExternalDataJob) :=
  call (env_get_latest_run_if_exists env team_id pipeline_id)
       (Ev_get_latest_run_if_exists team_id pipeline_id).

Definition get_or_create_datawarehouse_credential
    (team_id : Z) (access_key access_secret : string)
  : M DataWarehouseCredential :=
  call (env_get_or_create_datawarehouse_credential env team_id access_key access_secret)
       (Ev_get_or_create_datawarehouse_credential team_id access_key access_secret).

Definition get_columns (table : DataWarehouseTable)
    (safe_expose_ch_error : option bool) : M Columns :=
  call (env_get_columns env table safe_expose_ch_error)
       (Ev_get_columns table safe_expose_ch_error).

Definition get_table_by_schema_id (schema_id : string) (team_id : Z)
  : M (option DataWarehouseTable) :=
  call (env_get_table_by_schema_id env schema_id team_id)
       (Ev_get_table_by_schema_id schema_id team_id).

Definition asave_datawarehousetable (table : DataWarehouseTable) : M unit :=
  call (env_asave_datawarehousetable env table) (Ev_asave_datawarehousetable table).

Definition acreate_datawarehousetable (external_data_source_id : string)
    (data : TableParams) : M DataWarehouseTable :=
  call (env_acreate_datawarehousetable env external_data_source_id data)
       (Ev_acreate_datawarehousetable external_data_source_id data).

Definition aget_schema_by_id (schema_id : string) (team_id : Z)
  : M (option ExternalDataSchema) :=
  call (env_aget_schema_by_id env schema_id team_id)
       (Ev_aget_schema_by_id schema_id team_id).

Definition asave_external_data_schema (schema : ExternalDataSchema) : M unit :=
  call (env_asave_external_data_schema env schema)
       (Ev_asave_external_data_schema schema).

Definition delete_data_in_bucket (job : ExternalDataJob) : M unit :=
  call (env_delete_data_in_bucket env job) (Ev_delete_data_in_bucket job).

(** [logger.exception(msg, exc_info=e)]: the structured logger records and
    never throws. *)
Definition logger_exception (msg : string) (exc_info : Exn) : M unit :=
  fun w => (Ok tt, w, [Ev_logger_exception msg exc_info]).

(** *** [validate_schema] (lines 23-43)

    [validate_schema_frame] is the body of the function with its local
    [table] kept next to the returned dictionary; [validate_schema] is
    what the caller receives. *)
Definition validate_schema_frame (credential : DataWarehouseCredential)
    (table_name new_url_pattern : string) (team_id : Z)
  : M (DataWarehouseTable * TableParams) :=
  let params :=
    {| p_credential := credential; p_name := table_name; p_format := "Parquet";
       p_url_pattern := new_url_pattern; p_team_id := team_id |} in
  let table := DataWarehouseTable_init params in
  cols <- get_columns table (Some false) ;;
  let table := set_columns table cols in
  ret (table,
       {| p_credential := credential; p_name := table_name; p_format := "Parquet";
          p_url_pattern := new_url_pattern; p_team_id := team_id |}).

Definition validate_schema (credential : DataWarehouseCredential)
    (table_name new_url_pattern : string) (team_id : Z) : M TableParams :=
  frame <- validate_schema_frame credential table_name new_url_pattern team_id ;;
  ret (snd frame).

(** *** [validate_schema_and_update_table] (lines 46-131) *)

(** Lines 73-74: the candidate table name and the URL pattern. *)
Definition table_name_of (job : ExternalDataJob) (_schema_name : string) : string :=
  lower (or_empty (src_prefix (job_pipeline job))
         +:+ src_source_type (job_pipeline job) +:+ "_" +:+ _schema_name).

Definition new_url_pattern_of (job : ExternalDataJob) (_schema_name : string)
  : string :=
  url_pattern_by_schema job (camel_to_snake_case _schema_name).

(** Lines 96-107: look for the Table of a previous run ("create or
    update", first half).  The [try] covers the lookup and the
    [raise DoesNotExist]; the [else] clause, outside the handler, sets the
    URL pattern and saves. *)
Definition find_existing (last_successful_job : option ExternalDataJob)
    (_schema_id : string) (team_id : Z) (new_url_pattern : string)
  : M (option DataWarehouseTable) :=
  match last_successful_job with
  | Some _ =>
      r <- try (found <- get_table_by_schema_id _schema_id team_id ;;
                match found with
                | Some t => ret t
                | None => raise DoesNotExist
                end) ;;
      match r with
      | Raise _ => ret None
      | Ok t =>
          let t := set_url_pattern t new_url_pattern in
          asave_datawarehousetable t ;;;
          ret (Some t)
      end
  | None => ret None
  end.

(** Lines 96-114: create or update, then the column refresh and save. *)
Definition reconcile (job : ExternalDataJob)
    (last_successful_job : option ExternalDataJob)
    (_schema_id : string) (team_id : Z) (new_url_pattern : string)
    (data : TableParams) : M DataWarehouseTable :=
  table_created <- find_existing last_successful_job _schema_id team_id new_url_pattern ;;
  table_created <-
    match table_created with
    | Some t => ret t
    | None => acreate_datawarehousetable (src_id (job_pipeline job)) data
    end ;;
  cols <- get_columns table_created None ;;
  let table_created := set_columns table_created cols in
  asave_datawarehousetable table_created ;;;
  ret table_created.

(** Lines 116-122: the schema may have been deleted by this point. *)
Definition update_schema_metadata (job : ExternalDataJob) (_schema_id : string)
    (table_created : DataWarehouseTable) : M unit :=
  schema_model <- aget_schema_by_id _schema_id (job_team_id job) ;;
  match schema_model with
  | Some schema_model =>
      asave_external_data_schema
        (attach_table schema_model table_created (job_created_at job))
  | None => ret tt
  end.

Definition no_data_message (job : ExternalDataJob) (_schema_name : string) : string :=
  "Data Warehouse: No data for schema " +:+ _schema_name
    +:+ " for external data job " +:+ job_pk job.

Definition could_not_validate_message (job : ExternalDataJob) : string :=
  "Data Warehouse: Could not validate schema for external data job " +:+ job_pk job.

Definition could_not_delete_message (last_successful_job : ExternalDataJob) : string :=
  "Data Warehouse: Could not delete deprecated data source "
    +:+ job_pk last_successful_job.

(** Lines 69-122: the body of the loop over [schemas]. *)
Definition schema_step (job : ExternalDataJob)
    (last_successful_job : option ExternalDataJob)
    (credential : DataWarehouseCredential) (team_id : Z)
    (_schema : string * string) : M unit :=
  let _schema_id := fst _schema in
  let _schema_name := snd _schema in
  let table_name := table_name_of job _schema_name in
  let new_url_pattern := new_url_pattern_of job _schema_name in
  r <- try (validate_schema credential table_name new_url_pattern team_id) ;;
  match r with
  | Raise (ServerException code) =>
      if code =? 636
      then logger_exception (no_data_message job _schema_name) (ServerException code)
      else ret tt
  | Raise e => logger_exception (could_not_validate_message job) e
  | Ok data =>
      table_created <-
        reconcile job last_successful_job _schema_id team_id new_url_pattern data ;;
      update_schema_metadata job _schema_id table_created
  end.

(** Lines 124-131: delete the data of the previous successful run. *)
Definition reap (last_successful_job : option ExternalDataJob) : M unit :=
  match last_successful_job with
  | Some last =>
      r <- try (delete_data_in_bucket last) ;;
      match r with
      | Ok _ => ret tt
      | Raise e => logger_exception (could_not_delete_message last) e
      end
  | None => ret tt
  end.

(** Lines 58-67: logger, job, previous successful run, credential. *)
Definition setup (run_id : string) (team_id : Z)
  : M (ExternalDataJob * option ExternalDataJob * DataWarehouseCredential) :=
  bind_temporal_worker_logger team_id ;;;
  job <- get_external_data_job run_id ;;
  last_successful_job <-
    get_latest_run_if_exists (job_team_id job) (job_pipeline_id job) ;;
  credential <-
    get_or_create_datawarehouse_credential (job_team_id job)
      AIRBYTE_BUCKET_KEY AIRBYTE_BUCKET_SECRET ;;
  ret (job, last_successful_job, credential).

Definition validate_schema_and_update_table (run_id : string) (team_id : Z)
    (schemas : list (string * string)) : M unit :=
  ctx <- setup run_id team_id ;;
  let '(job, last_successful_job, credential) := ctx in
  for_each (schema_step job last_successful_job credential team_id) schemas ;;;
  reap last_successful_job.

End Orchestrator.

Arguments Env W : clear implicits.
Arguments env_bind_temporal_worker_logger {W} e.
Arguments env_get_external_data_job {W} e.
Arguments env_get_latest_run_if_exists {W} e.
Arguments env_get_or_create_datawarehouse_credential {W} e.
Arguments env_get_columns {W} e.
Arguments env_get_table_by_schema_id {W} e.
Arguments env_asave_datawarehousetable {W} e.
Arguments env_acreate_datawarehousetable {W} e.
Arguments env_aget_schema_by_id {W} e.
Arguments env_asave_external_data_schema {W} e.
Arguments env_delete_data_in_bucket {W} e.
Arguments M W A : clear implicits.
Arguments ret {W A} a.
Arguments raise {W A} e.
Arguments bind {W A B} m k.
Arguments try {W A} m.
Arguments call {W A} op ev.
Arguments for_each {W A} body l.
Arguments bind_temporal_worker_logger {W} env team_id.
Arguments get_external_data_job {W} env job_id.
Arguments get_latest_run_if_exists {W} env team_id pipeline_id.
Arguments get_or_create_datawarehouse_credential {W} env team_id access_key access_secret.
Arguments get_columns {W} env table safe_expose_ch_error.
Arguments get_table_by_schema_id {W} env schema_id team_id.
Arguments asave_datawarehousetable {W} env table.
Arguments acreate_datawarehousetable {W} env external_data_source_id data.
Arguments aget_schema_by_id {W} env schema_id team_id.
Arguments asave_external_data_schema {W} env schema.
Arguments delete_data_in_bucket {W} env job.
Arguments logger_exception {W} msg exc_info.
Arguments validate_schema_frame {W} env credential table_name new_url_pattern team_id.
Arguments validate_schema {W} env credential table_name new_url_pattern team_id.
Arguments find_existing {W} env last_successful_job _schema_id team_id new_url_pattern.
Arguments reconcile {W} env job last_successful_job _schema_id team_id new_url_pattern data.
Arguments update_schema_metadata {W} env job _schema_id table_created.
Arguments schema_step {W} env lower camel_to_snake_case url_pattern_by_schema
  job last_successful_job credential team_id _schema.
Arguments reap {W} env last_successful_job.
Arguments setup {W} env AIRBYTE_BUCKET_KEY AIRBYTE_BUCKET_SECRET run_id team_id.
Arguments validate_schema_and_update_table {W} env AIRBYTE_BUCKET_KEY
  AIRBYTE_BUCKET_SECRET lower camel_to_snake_case url_pattern_by_schema
  run_id team_id schemas.

(** The three components of a run. *)
Definition outcome {W A : Type} (x : Result A * W * list Event) : Result A := fst (fst x).
Definition world {W A : Type} (x : Result A * W * list Event) : W := snd (fst x).
Definition journal {W A : Type} (x : Result A * W * list Event) : list Event := snd x.

(** ** A concrete world: the stores of section 6 of the design *)

Module Store.

(** Modelled from the spec: the collaborators imported from
    [posthog.warehouse.models] (job accessor, credential provider, catalog
    store, schema store) and the methods [get_columns] and
    [delete_data_in_bucket] of the model classes.  The world below follows
    the interfaces the design lists in its section 6 and the storage
    engine's no-data signal. *)
Record World : Type := {
  w_jobs : list (ExternalDataJob * bool);
  w_credentials : list DataWarehouseCredential;
  w_tables : list DataWarehouseTable;
  w_schemas : gmap string ExternalDataSchema;
  w_storage : gmap string (Result Columns);
  w_deleted : list string;
  w_db_up : bool;
  w_bucket_up : bool
}.

Definition with_jobs (w : World) (jobs : list (ExternalDataJob * bool)) : World :=
  {| w_jobs := jobs; w_credentials := w_credentials w; w_tables := w_tables w;
     w_schemas := w_schemas w; w_storage := w_storage w; w_deleted := w_deleted w;
     w_db_up := w_db_up w; w_bucket_up := w_bucket_up w |}.

Definition with_credentials (w : World) (cs : list DataWarehouseCredential) : World :=
  {| w_jobs := w_jobs w; w_credentials := cs; w_tables := w_tables w;
     w_schemas := w_schemas w; w_storage := w_storage w; w_deleted := w_deleted w;
     w_db_up := w_db_up w; w_bucket_up := w_bucket_up w |}.

Definition with_tables (w : World) (ts : list DataWarehouseTable) : World :=
  {| w_jobs := w_jobs w; w_credentials := w_credentials w; w_tables := ts;
     w_schemas := w_schemas w; w_storage := w_storage w; w_deleted := w_deleted w;
     w_db_up := w_db_up w; w_bucket_up := w_bucket_up w |}.

Definition with_schemas (w : World) (ss : gmap string ExternalDataSchema) : World :=
  {| w_jobs := w_jobs w; w_credentials := w_credentials w; w_tables := w_tables w;
     w_schemas := ss; w_storage := w_storage w; w_deleted := w_deleted w;
     w_db_up := w_db_up w; w_bucket_up := w_bucket_up w |}.

Definition with_deleted (w : World) (ds : list string) : World :=
  {| w_jobs := w_jobs w; w_credentials := w_credentials w; w_tables := w_tables w;
     w_schemas := w_schemas w; w_storage := w_storage w; w_deleted := ds;
     w_db_up := w_db_up w; w_bucket_up := w_bucket_up w |}.

Definition with_db_up (w : World) (b : bool) : World :=
  {| w_jobs := w_jobs w; w_credentials := w_credentials w; w_tables := w_tables w;
     w_schemas := w_schemas w; w_storage := w_storage w; w_deleted := w_deleted w;
     w_db_up := b; w_bucket_up := w_bucket_up w |}.

Definition with_bucket_up (w : World) (b : bool) : World :=
  {| w_jobs := w_jobs w; w_credentials := w_credentials w; w_tables := w_tables w;
     w_schemas := w_schemas w; w_storage := w_storage w; w_deleted := w_deleted w;
     w_db_up := w_db_up w; w_bucket_up := b |}.

Definition db_down : Exn := OtherError "database unavailable".
Definition bucket_down : Exn := OtherError "bucket unavailable".

(** Modelled from the spec: the job accessor, "given a run identifier,
    returns the Job"; a missing record fails the lookup. *)
Fixpoint lookup_job (job_id : string) (jobs : list (ExternalDataJob * bool))
  : option ExternalDataJob :=
  match jobs with
  | [] => None
  | (j, _) :: rest =>
      if String.eqb (job_pk j) job_id then Some j else lookup_job job_id rest
  end.

(** Modelled from the spec: "the most recent prior successful Job, or
    none"; jobs are listed in creation order and the flag says whether the
    run completed successfully. *)
Fixpoint latest_run (team_id : Z) (pipeline_id : string)
    (jobs : list (ExternalDataJob * bool)) : option ExternalDataJob :=
  match jobs with
  | [] => None
  | (j, completed) :: rest =>
      match latest_run team_id pipeline_id rest with
      | Some j' => Some j'
      | None =>
          if completed && (job_team_id j =? team_id)
             && String.eqb (job_pipeline_id j) pipeline_id
          then Some j else None
      end
  end.

Definition st_get_external_data_job (job_id : string) (w : World)
  : Result ExternalDataJob * World :=
  match lookup_job job_id (w_jobs w) with
  | Some j => (Ok j, w)
  | None => (Raise DoesNotExist, w)
  end.

Definition st_get_latest_run_if_exists (team_id : Z) (pipeline_id : string)
    (w : World) : Result (option ExternalDataJob) * World :=
  (Ok (latest_run team_id pipeline_id (w_jobs w)), w).

(** Modelled from the spec: the credential provider "returns or creates a
    Credential" for the team. *)
Definition st_get_or_create_datawarehouse_credential (team_id : Z)
    (access_key access_secret : string) (w : World)
  : Result DataWarehouseCredential * World :=
  match List.find (fun c => cred_team_id c =? team_id) (w_credentials w) with
  | Some c => (Ok c, w)
  | None =>
      let c := {| cred_team_id := team_id; cred_access_key := access_key;
                  cred_access_secret := access_secret |} in
      (Ok c, with_credentials w (w_credentials w ++ [c]))
  end.

(** Modelled from the spec: reading the columns at a URL pattern; a path
    without data gives the storage engine's no-data signal, code 636. *)
Definition st_get_columns (table : DataWarehouseTable)
    (safe_expose_ch_error : option bool) (w : World) : Result Columns * World :=
  match w_storage w !! tbl_url_pattern table with
  | Some r => (r, w)
  | None => (Raise (ServerException 636), w)
  end.

(** Modelled from the spec: [getById(schema_id, team_id)], scoped to the
    team. *)
Definition find_schema (schema_id : string) (team_id : Z) (w : World)
  : option ExternalDataSchema :=
  match w_schemas w !! schema_id with
  | Some s => if sch_team_id s =? team_id then Some s else None
  | None => None
  end.

Definition st_aget_schema_by_id (schema_id : string) (team_id : Z) (w : World)
  : Result (option ExternalDataSchema) * World :=
  (Ok (find_schema schema_id team_id w), w).

(** Modelled from the spec: [getBySchemaId(schema_id, team_id)], "the
    Table already linked to this schema's identifier, scoped to the team":
    the current row of the Table the schema record refers to. *)
Definition st_get_table_by_schema_id (schema_id : string) (team_id : Z)
    (w : World) : Result (option DataWarehouseTable) * World :=
  match find_schema schema_id team_id w with
  | Some s =>
      match sch_table s with
      | Some t =>
          match tbl_pk t with
          | Some k => (Ok (w_tables w !! k), w)
          | None => (Ok None, w)
          end
      | None => (Ok None, w)
      end
  | None => (Raise DoesNotExist, w)
  end.

(** Modelled from the spec: [create(...) -> Table]; the row gets the next
    primary key and no columns yet. *)
Definition new_row (k : nat) (external_data_source_id : string)
    (data : TableParams) : DataWarehouseTable :=
  {| tbl_pk := Some k;
     tbl_credential := p_credential data;
     tbl_name := p_name data;
     tbl_format := p_format data;
     tbl_url_pattern := p_url_pattern data;
     tbl_team_id := p_team_id data;
     tbl_external_data_source_id := Some external_data_source_id;
     tbl_columns := [] |}.

Definition st_acreate_datawarehousetable (external_data_source_id : string)
    (data : TableParams) (w : World) : Result DataWarehouseTable * World :=
  if w_db_up w then
    let t := new_row (length (w_tables w)) external_data_source_id data in
    (Ok t, with_tables w (w_tables w ++ [t]))
  else (Raise db_down, w).

(** Modelled from the spec: [save(table) -> void]; the row with the
    table's primary key is overwritten, an object without one is
    inserted. *)
Definition st_asave_datawarehousetable (table : DataWarehouseTable) (w : World)
  : Result unit * World :=
  if w_db_up w then
    match tbl_pk table with
    | Some k => (Ok tt, with_tables w (<[k := table]> (w_tables w)))
    | None => (Ok tt, with_tables w (w_tables w ++ [table]))
    end
  else (Raise db_down, w).

Definition st_asave_external_data_schema (schema : ExternalDataSchema) (w : World)
  : Result unit * World :=
  if w_db_up w then
    (Ok tt, with_schemas w (<[sch_id schema := schema]> (w_schemas w)))
  else (Raise db_down, w).

(** Modelled from the spec: [deleteDataInBucket(job) -> void], may fail. *)
Definition st_delete_data_in_bucket (job : ExternalDataJob) (w : World)
  : Result unit * World :=
  if w_bucket_up w then (Ok tt, with_deleted w (w_deleted w ++ [job_pk job]))
  else (Raise bucket_down, w).

Definition st_bind_temporal_worker_logger (team_id : Z) (w : World)
  : Result unit * World := (Ok tt, w).

Definition env : Env World :=
  {| env_bind_temporal_worker_logger := st_bind_temporal_worker_logger;
     env_get_external_data_job := st_get_external_data_job;
     env_get_latest_run_if_exists := st_get_latest_run_if_exists;
     env_get_or_create_datawarehouse_credential :=
       st_get_or_create_datawarehouse_credential;
     env_get_columns := st_get_columns;
     env_get_table_by_schema_id := st_get_table_by_schema_id;
     env_asave_datawarehousetable := st_asave_datawarehousetable;
     env_acreate_datawarehousetable := st_acreate_datawarehousetable;
     env_aget_schema_by_id := st_aget_schema_by_id;
     env_asave_external_data_schema := st_asave_external_data_schema;
     env_delete_data_in_bucket := st_delete_data_in_bucket |}.

End Store.


(** ** Vocabulary of the statements *)

(** The exception a journaled call lets through to the caller of
    [validate_schema_and_update_table]: the calls made outside every [try]
    block.  The probe is [get_columns(safe_expose_ch_error=False)]; the
    column refresh is the call without keyword. *)
Definition propagates (ev : Event) : option Exn :=
  match ev with
  | Ev_bind_temporal_worker_logger _ (Raise e) => Some e
  | Ev_get_external_data_job _ (Raise e) => Some e
  | Ev_get_latest_run_if_exists _ _ (Raise e) => Some e
  | Ev_get_or_create_datawarehouse_credential _ _ _ (Raise e) => Some e
  | Ev_get_columns _ None (Raise e) => Some e
  | Ev_asave_datawarehousetable _ (Raise e) => Some e
  | Ev_acreate_datawarehousetable _ _ (Raise e) => Some e
  | Ev_aget_schema_by_id _ _ (Raise e) => Some e
  | Ev_asave_external_data_schema _ (Raise e) => Some e
  | _ => None
  end.

(** A run is [accounted] when its exception, if any, is the one of its last
    journaled call, made outside every [try]; and when it returns, no such
    call has raised. *)
Definition accounted {W A : Type} (x : Result A * W * list Event) : Prop :=
  match outcome x with
  | Raise e => exists pre ev, journal x = pre ++ [ev] /\ propagates ev = Some e
  | Ok _ => Forall (fun ev => propagates ev = None) (journal x)
  end.

(** "No existing Table was found": no previous successful run, or the
    lookup returned nothing, or the lookup raised. *)
Definition no_existing_table (last_successful_job : option ExternalDataJob)
    (lookup : Result (option DataWarehouseTable)) : bool :=
  match last_successful_job, lookup with
  | Some _, Ok (Some _) => false
  | _, _ => true
  end.

(** The dictionary [validate_schema] builds. *)
Definition descriptor (credential : DataWarehouseCredential)
    (table_name new_url_pattern : string) (team_id : Z) : TableParams :=
  {| p_credential := credential; p_name := table_name; p_format := "Parquet";
     p_url_pattern := new_url_pattern; p_team_id := team_id |}.

(** The journal left by the deletion of the previous run's data. *)
Definition reap_journal (last_successful_job : option ExternalDataJob)
    (tr : list Event) : Prop :=
  match last_successful_job with
  | None => tr = []
  | Some last =>
      tr = [Ev_delete_data_in_bucket last (Ok tt)] \/
      exists e, tr = [Ev_delete_data_in_bucket last (Raise e);
                      Ev_logger_exception (could_not_delete_message last) e]
  end.

(** Lines 98-104, the lookup alone: with a previous successful run, the
    outcome of [get_table_by_schema_id], the world it leaves and its
    journal entry; without one, nothing is looked up. *)
Definition existing_lookup {W : Type} (env : Env W)
    (last_successful_job : option ExternalDataJob) (_schema_id : string)
    (team_id : Z) (w : W)
  : Result (option DataWarehouseTable) * W * list Event :=
  match last_successful_job with
  | None => (Ok None, w, [])
  | Some _ =>
      (fst (env_get_table_by_schema_id env _schema_id team_id w),
       snd (env_get_table_by_schema_id env _schema_id team_id w),
       [Ev_get_table_by_schema_id _schema_id team_id
          (fst (env_get_table_by_schema_id env _schema_id team_id w))])
  end.

(** Lines 113-114: the columns are read on the Table, stored on it, and
    the Table is saved. *)
Definition refresh {W : Type} (env : Env W) (table_created : DataWarehouseTable)
  : M W DataWarehouseTable :=
  bind (get_columns env table_created None) (fun cols =>
  bind (asave_datawarehousetable env (set_columns table_created cols)) (fun _ =>
  ret (set_columns table_created cols))).

(** Lines 127-131: the log entry that follows a deletion with outcome
    [r]. *)
Definition deletion_log (last_successful_job : ExternalDataJob) (r : Result unit)
  : list Event :=
  match r with
  | Ok _ => []
  | Raise e =>
      [Ev_logger_exception
         ("Data Warehouse: Could not delete deprecated data source "
            +:+ job_pk last_successful_job) e]
  end.

(** Prefix a journal to a run. *)
Definition after {W A : Type} (tr : list Event) (x : Result A * W * list Event)
  : Result A * W * list Event :=
  (outcome x, world x, tr ++ journal x).

(** The in-memory object on which the probe of a schema reads columns. *)
Definition probe_table (lower camel_to_snake_case : string -> string)
    (url_pattern_by_schema : ExternalDataJob -> string -> string)
    (credential : DataWarehouseCredential) (job : ExternalDataJob) (team_id : Z)
    (_schema_name : string) : DataWarehouseTable :=
  DataWarehouseTable_init
    (descriptor credential (table_name_of lower job _schema_name)
       (new_url_pattern_of camel_to_snake_case url_pattern_by_schema job _schema_name)
       team_id).

(** What the loop body does after a probe that returned: lines 96-122. *)
Definition after_probe {W : Type} (env : Env W)
    (lower camel_to_snake_case : string -> string)
    (url_pattern_by_schema : ExternalDataJob -> string -> string)
    (job : ExternalDataJob) (last_successful_job : option ExternalDataJob)
    (credential : DataWarehouseCredential) (team_id : Z)
    (_schema_id _schema_name : string) : M W unit :=
  bind (reconcile env job last_successful_job _schema_id team_id
          (new_url_pattern_of camel_to_snake_case url_pattern_by_schema job _schema_name)
          (descriptor credential (table_name_of lower job _schema_name)
             (new_url_pattern_of camel_to_snake_case url_pattern_by_schema
                job _schema_name) team_id))
       (update_schema_metadata env job _schema_id).

(** The log entries of a probe that raised [e]: lines 81-94. *)
Definition probe_failure_log (job : ExternalDataJob) (_schema_name : string)
    (e : Exn) : list Event :=
  match e with
  | ServerException code =>
      if code =? 636
      then [Ev_logger_exception (no_data_message job _schema_name) e]
      else []
  | _ => [Ev_logger_exception (could_not_validate_message job) e]
  end.

(** "The column list read during the probe is stored on the in-memory
    descriptor that the reconciler will reuse", on a journal: the table on
    which the reconciler works carries the columns the probe has read when
    the reconciler refreshes them. *)
Definition probe_columns_reused (tr : list Event) : Prop :=
  forall t cols, In (Ev_get_columns t (Some false) (Ok cols)) tr ->
  forall t' r, In (Ev_get_columns t' None r) tr -> tbl_columns t' = cols.

(** The table name and URL pattern the probe of a schema is expected to
    receive, written out. *)
Definition expected_probe (lower camel_to_snake_case : string -> string)
    (url_pattern_by_schema : ExternalDataJob -> string -> string)
    (job : ExternalDataJob) (_schema : string * string) : string * string :=
  (lower (or_empty (src_prefix (job_pipeline job))
          +:+ src_source_type (job_pipeline job) +:+ "_" +:+ snd _schema),
   url_pattern_by_schema job (camel_to_snake_case (snd _schema))).

(** ** Two runs over the concrete stores, in closed form *)

Module TwoRuns.
Import Store.

(** Every Table of the catalog is stored under its primary key. *)
Definition well_keyed (rows : list DataWarehouseTable) : Prop :=
  forall k row, rows !! k = Some row -> tbl_pk row = Some k.

(** The record of the schema [id] exists for the team and refers to the
    Table with primary key [k] of the catalog [rows]; the Table it carries
    has the URL pattern [u]. *)
Definition schema_table (team_id : Z) (ss : gmap string ExternalDataSchema)
    (rows : list DataWarehouseTable) (id : string) (k : nat) (u : string) : Prop :=
  exists s t,
    ss !! id = Some s /\ sch_id s = id /\ sch_team_id s = team_id /\
    sch_table s = Some t /\ tbl_pk t = Some k /\ tbl_url_pattern t = u /\
    (k < length rows)%nat.

(** The rows of [rows] are still in [rows'], under the same primary keys
    and names. *)
Definition kept (rows rows' : list DataWarehouseTable) : Prop :=
  forall k row, rows !! k = Some row ->
    exists row', rows' !! k = Some row' /\ tbl_pk row' = tbl_pk row /\
                 tbl_name row' = tbl_name row.

Section Rows.
Variable lower : string -> string.
Variable camel_to_snake_case : string -> string.
Variable url_pattern_by_schema : ExternalDataJob -> string -> string.

(** The columns found at a URL pattern of the storage. *)
Definition read_columns (st : gmap string (Result Columns)) (u : string)
  : Columns :=
  match st !! u with
  | Some (Ok cols) => cols
  | _ => []
  end.

(** The credential the provider hands out for a team. *)
Definition credential_for (team_id : Z) (access_key access_secret : string)
    (w : World) : DataWarehouseCredential :=
  match fst (st_get_or_create_datawarehouse_credential team_id access_key
               access_secret w) with
  | Ok c => c
  | Raise _ =>
      {| cred_team_id := team_id; cred_access_key := access_key;
         cred_access_secret := access_secret |}
  end.

(** The row a run without predecessor creates for a schema, at primary
    key [k]. *)
Definition created_row (job : ExternalDataJob) (cred : DataWarehouseCredential)
    (team_id : Z) (st : gmap string (Result Columns)) (k : nat)
    (_schema_name : string) : DataWarehouseTable :=
  let u := new_url_pattern_of camel_to_snake_case url_pattern_by_schema
             job _schema_name in
  {| tbl_pk := Some k;
     tbl_credential := cred;
     tbl_name := table_name_of lower job _schema_name;
     tbl_format := "Parquet";
     tbl_url_pattern := u;
     tbl_team_id := team_id;
     tbl_external_data_source_id := Some (src_id (job_pipeline job));
     tbl_columns := read_columns st u |}.

Fixpoint created_rows (job : ExternalDataJob) (cred : DataWarehouseCredential)
    (team_id : Z) (st : gmap string (Result Columns)) (k : nat)
    (l : list (string * string)) : list DataWarehouseTable :=
  match l with
  | [] => []
  | (_, nm) :: l' =>
      created_row job cred team_id st k nm
        :: created_rows job cred team_id st (S k) l'
  end.

(** The row of a schema after a later run: the same row with the URL
    pattern of that run's job and the columns found there. *)
Definition updated_row (job : ExternalDataJob)
    (st : gmap string (Result Columns))
    (row : DataWarehouseTable) (_schema_name : string) : DataWarehouseTable :=
  let u := new_url_pattern_of camel_to_snake_case url_pattern_by_schema
             job _schema_name in
  set_columns (set_url_pattern row u) (read_columns st u).

Fixpoint updated_rows (job : ExternalDataJob)
    (st : gmap string (Result Columns))
    (l : list (string * string)) (rows : list DataWarehouseTable)
  : list DataWarehouseTable :=
  match l, rows with
  | (_, nm) :: l', row :: rows' =>
      updated_row job st row nm :: updated_rows job st l' rows'
  | _, _ => []
  end.

(** The schema records of [l] exist for the team and refer to the
    Tables with primary keys [k], [k+1], ... in the order of [l]. *)
Fixpoint linked (team_id : Z) (ss : gmap string ExternalDataSchema) (k : nat)
    (l : list (string * string)) : Prop :=
  match l with
  | [] => True
  | (id, _) :: l' =>
      (exists s t, ss !! id = Some s /\ sch_id s = id /\ sch_team_id s = team_id /\
                   sch_table s = Some t /\ tbl_pk t = Some k) /\
      linked team_id ss (S k) l'
  end.

(** Row [i] of [rows] has primary key [k + i]. *)
Fixpoint keyed (k : nat) (rows : list DataWarehouseTable) : Prop :=
  match rows with
  | [] => True
  | row :: rows' => tbl_pk row = Some k /\ keyed (S k) rows'
  end.

(** What a run needs of the world for the schemas [l]: the schema
    records exist for the team under their identifiers, and the storage
    has columns at the URL pattern of each. *)
Definition recorded (team_id : Z) (ss : gmap string ExternalDataSchema)
    (l : list (string * string)) : Prop :=
  forall id nm, In (id, nm) l ->
    exists s, ss !! id = Some s /\ sch_id s = id /\ sch_team_id s = team_id.

Definition readable (job : ExternalDataJob) (st : gmap string (Result Columns))
    (l : list (string * string)) : Prop :=
  forall id nm, In (id, nm) l ->
    exists cols,
      st !! new_url_pattern_of camel_to_snake_case url_pattern_by_schema job nm
        = Some (Ok cols).
End Rows.
End TwoRuns.

(** ** A worked scenario *)

Module Scenario.
Import Store.

(** The names of the examples are ASCII text, on which [str.lower] maps
    the letters A-Z to a-z and leaves every other character as it is. *)
Definition ascii_lower (c : ascii) : ascii :=
  let n := N_of_ascii c in
  if ((65 <=? n) && (n <=? 90))%N then ascii_of_N (n + 32) else c.

Fixpoint lower_ascii (s : string) : string :=
  match s with
  | EmptyString => EmptyString
  | String c r => String (ascii_lower c) (lower_ascii r)
  end.

(** Instances of the two pure helpers for the examples: an underscore
    before every capital letter but the first, then lower case; and a
    URL pattern under the folder of the job. *)
Definition is_upper (c : ascii) : bool :=
  let n := N_of_ascii c in ((65 <=? n) && (n <=? 90))%N.

Fixpoint underscore_capitals (s : string) : string :=
  match s with
  | EmptyString => EmptyString
  | String c r =>
      if is_upper c then String "_" (String c (underscore_capitals r))
      else String c (underscore_capitals r)
  end.

Definition snake_case (s : string) : string :=
  match s with
  | EmptyString => EmptyString
  | String c r => lower_ascii (String c (underscore_capitals r))
  end.

Definition url_of (job : ExternalDataJob) (schema : string) : string :=
  "https://bucket/dlt/" +:+ job_pk job +:+ "/" +:+ schema +:+ "/*.parquet".

Definition key : string := "key".
Definition secret : string := "secret".

Definition stripe : ExternalDataSource :=
  {| src_id := "src-1"; src_prefix := Some "Acme_"; src_source_type := "Stripe" |}.

Definition job1 : ExternalDataJob :=
  {| job_pk := "job-1"; job_team_id := 7; job_pipeline_id := "src-1";
     job_pipeline := stripe; job_created_at := 1000 |}.

Definition job2 : ExternalDataJob :=
  {| job_pk := "job-2"; job_team_id := 7; job_pipeline_id := "src-1";
     job_pipeline := stripe; job_created_at := 2000 |}.

Definition schemas : list (string * string) :=
  [("s1", "Users"); ("s2", "OrderItems")].

Definition blank_schema (id nm : string) : ExternalDataSchema :=
  {| sch_id := id; sch_team_id := 7; sch_name := nm; sch_table := None;
     sch_last_synced_at := None |}.

Definition users_columns : Columns := [("id", "Int64"); ("email", "String")].
Definition items_columns : Columns := [("order_id", "Int64"); ("sku", "String")].

(** The object storage: both jobs have written "users" and
    "order_items"; reading "payments" of the first job exceeds the memory
    limit of the engine (code 241), reading its "refunds" is refused;
    nothing else was written. *)
Definition storage : gmap string (Result Columns) :=
  <[url_of job1 "users" := Ok users_columns]>
  (<[url_of job1 "order_items" := Ok items_columns]>
  (<[url_of job1 "payments" := Raise (ServerException 241)]>
  (<[url_of job1 "refunds" := Raise (OtherError "permission denied")]>
  (<[url_of job2 "users" := Ok users_columns]>
  (<[url_of job2 "order_items" := Ok items_columns]> ∅))))).

(** Before the first run: the job and the two schema records exist, no
    Table yet, no earlier run. *)
Definition world0 : World :=
  {| w_jobs := [(job1, false)];
     w_credentials := [];
     w_tables := [];
     w_schemas := <["s1" := blank_schema "s1" "Users"]>
                  (<["s2" := blank_schema "s2" "OrderItems"]> ∅);
     w_storage := storage;
     w_deleted := [];
     w_db_up := true;
     w_bucket_up := true |}.

Definition run (run_id : string) (l : list (string * string)) (w : World)
  : Result unit * World * list Event :=
  validate_schema_and_update_table Store.env key secret lower_ascii snake_case url_of
    run_id 7 l w.

(** The loop body and the probed object of the scenario. *)
Definition step : ExternalDataJob -> option ExternalDataJob ->
    DataWarehouseCredential -> Z -> string * string -> M World unit :=
  schema_step Store.env lower_ascii snake_case url_of.

Definition ptable : DataWarehouseCredential -> ExternalDataJob -> Z -> string
    -> DataWarehouseTable :=
  probe_table lower_ascii snake_case url_of.

(** The world after the first run, with that run marked successful and
    the second job recorded. *)
Definition world1 : World :=
  with_jobs (world (run "job-1" schemas world0)) [(job1, true); (job2, false)].

(** The credential of team 7 and the row the first run leaves for
    "Users". *)
Definition cred7 : DataWarehouseCredential :=
  {| cred_team_id := 7; cred_access_key := key; cred_access_secret := secret |}.

Definition users_row : DataWarehouseTable :=
  {| tbl_pk := Some 0%nat;
     tbl_credential := cred7;
     tbl_name := "acme_stripe_users";
     tbl_format := "Parquet";
     tbl_url_pattern := "https://bucket/dlt/job-1/users/*.parquet";
     tbl_team_id := 7;
     tbl_external_data_source_id := Some "src-1";
     tbl_columns := users_columns |}.

(** The same worlds with the catalog database, or the bucket, out of
    reach. *)
Definition world0_db_down : World := with_db_up world0 false.
Definition world1_bucket_down : World := with_bucket_up world1 false.
Definition world1_db_down : World := with_db_up world1 false.

(** A run on behalf of another team than 7, and the world handed to a
    second run: the first job marked successful, the second recorded. *)
Definition run_as (team_id : Z) (run_id : string) (l : list (string * string))
    (w : World) : Result unit * World * list Event :=
  validate_schema_and_update_table Store.env key secret lower_ascii snake_case url_of
    run_id team_id l w.

Definition then_second (w : World) : World :=
  with_jobs w [(job1, true); (job2, false)].

(** Variations of the first world: the record of schema "s1" deleted; no
    data in the storage. *)
Definition world0_unrecorded : World :=
  with_schemas world0 (delete "s1" (w_schemas world0)).

Definition world0_no_data : World :=
  {| w_jobs := w_jobs world0; w_credentials := w_credentials world0;
     w_tables := w_tables world0; w_schemas := w_schemas world0;
     w_storage := ∅; w_deleted := w_deleted world0;
     w_db_up := w_db_up world0; w_bucket_up := w_bucket_up world0 |}.

(** The schema "Users" listed twice. *)
Definition users_twice : list (string * string) := [("s1", "Users"); ("s1", "Users")].

End Scenario.

(** ** Further vocabulary: counting the calls of a run *)

(** The probes of a journal, and those that returned. *)
Definition is_probe (ev : Event) : bool :=
  match ev with Ev_get_columns _ (Some false) _ => true | _ => false end.

Definition is_ok_probe (ev : Event) : bool :=
  match ev with Ev_get_columns _ (Some false) (Ok _) => true | _ => false end.

Definition is_failed_probe (ev : Event) : bool :=
  match ev with Ev_get_columns _ (Some false) (Raise _) => true | _ => false end.

Definition is_failed_delete (ev : Event) : bool :=
  match ev with Ev_delete_data_in_bucket _ (Raise _) => true | _ => false end.

(** Lookups of an existing Table. *)
Definition is_lookup (ev : Event) : bool :=
  match ev with Ev_get_table_by_schema_id _ _ _ => true | _ => false end.

(** What every creation of a Table in a run of [job] for [team_id] with
    [credential] looks like: linked to the source of the job, in Parquet
    format, for the team of the call, with the credential of the run. *)
Definition create_as_expected (job : ExternalDataJob)
    (credential : DataWarehouseCredential) (team_id : Z) (ev : Event) : Prop :=
  match ev with
  | Ev_acreate_datawarehousetable sid data _ =>
      sid = src_id (job_pipeline job) /\ p_format data = "Parquet" /\
      p_team_id data = team_id /\ p_credential data = credential
  | _ => True
  end.

(** The team a store call is scoped to: the Table lookup takes the
    [team_id] argument of the call, the schema fetch and the credential
    take the team of the job. *)
Definition scoped_as_expected (job : ExternalDataJob) (team_id : Z) (ev : Event)
  : Prop :=
  match ev with
  | Ev_get_table_by_schema_id _ tm _ => tm = team_id
  | Ev_aget_schema_by_id _ tm _ => tm = job_team_id job
  | Ev_get_or_create_datawarehouse_credential tm _ _ _ => tm = job_team_id job
  | Ev_get_latest_run_if_exists tm pid _ =>
      tm = job_team_id job /\ pid = job_pipeline_id job
  | _ => True
  end.


(** The deletions of a journal are on [last_successful_job]. *)
Definition delete_as_expected (last_successful_job : option ExternalDataJob)
    (ev : Event) : Prop :=
  match ev with
  | Ev_delete_data_in_bucket j _ => last_successful_job = Some j
  | _ => True
  end.

(** * The Experiment serializer

    A shallow embedding of [ExperimentSerializer] of
    [ee/clickhouse/views/experiments.py]: [validate_parameters], [create]
    and [update].  The values are those of a decoded JSON document (numbers
    restricted to integers); the model classes and the serializers of the
    framework are collaborators, journaled as for the warehouse. *)

Module Experiments.

(** ** Python values *)

Local Unset Elimination Schemes.
Inductive Json : Type :=
| JNone
| JBool (b : bool)
| JInt (z : Z)
| JStr (s : string)
| JList (l : list Json)
| JDict (d : list (string * Json)).
Local Set Elimination Schemes.

(** The values of [validated_data]: JSON values (strings and [None]
    included), datetimes, and the user of the request. *)
Inductive Val : Type :=
| VJson (j : Json)
| VDatetime (t : Z)
| VUser (id : Z).

Inductive PyExn : Type :=
| ValidationError (detail : string)
| KeyError (key : string)
| TypeError
| AttributeError
| DoesNotExist.

Inductive Res (A : Type) : Type :=
| Good (a : A)
| Bad (e : PyExn).
Arguments Good {A} a.
Arguments Bad {A} e.

Definition res_bind {A B : Type} (r : Res A) (k : A -> Res B) : Res B :=
  match r with
  | Good a => k a
  | Bad e => Bad e
  end.

(** [[f(x) for x in l]], left to right, stopping at the first exception. *)
Fixpoint res_map {A B : Type} (f : A -> Res B) (l : list A) : Res (list B) :=
  match l with
  | [] => Good []
  | x :: l' =>
      res_bind (f x) (fun y => res_bind (res_map f l') (fun ys => Good (y :: ys)))
  end.

(** [[x for x in l if p(x)]] *)
Fixpoint res_filter {A : Type} (p : A -> Res bool) (l : list A) : Res (list A) :=
  match l with
  | [] => Good []
  | x :: l' =>
      res_bind (p x) (fun b =>
      res_bind (res_filter p l') (fun ys => Good (if b then x :: ys else ys)))
  end.

(** The first binding of a key in a dictionary. *)
Fixpoint dict_lookup (k : string) (d : list (string * Json)) : option Json :=
  match d with
  | [] => None
  | (k', v) :: d' => if String.eqb k' k then Some v else dict_lookup k d'
  end.

(** Truthiness: [None], [False], [0], the empty string, list and
    dictionary are falsy. *)
Definition truthy (j : Json) : bool :=
  match j with
  | JNone => false
  | JBool b => b
  | JInt z => negb (z =? 0)
  | JStr s => negb (String.eqb s "")
  | JList l => match l with [] => false | _ => true end
  | JDict d => match d with [] => false | _ => true end
  end.

Definition truthy_val (v : Val) : bool :=
  match v with
  | VJson j => truthy j
  | VDatetime _ => true
  | VUser _ => true
  end.

(** [a == b]: booleans compare as the integers 0 and 1, dictionaries
    regardless of the order of their keys. *)
Fixpoint py_eq (a b : Json) : bool :=
  match a, b with
  | JNone, JNone => true
  | JBool x, JBool y => Bool.eqb x y
  | JBool x, JInt y => (if x then 1 else 0) =? y
  | JInt x, JBool y => x =? (if y then 1 else 0)
  | JInt x, JInt y => x =? y
  | JStr x, JStr y => String.eqb x y
  | JList x, JList y =>
      (fix go (x y : list Json) : bool :=
         match x, y with
         | [], [] => true
         | a' :: x', b' :: y' => py_eq a' b' && go x' y'
         | _, _ => false
         end) x y
  | JDict x, JDict y =>
      Nat.eqb (length x) (length y) &&
      (fix all (x : list (string * Json)) : bool :=
         match x with
         | [] => true
         | (k, v) :: x' =>
             match dict_lookup k y with
             | Some v' => py_eq v v'
             | None => false
             end && all x'
         end) x
  | _, _ => false
  end.

(** [j.get(key, default)]: only dictionaries have the method. *)
Definition get_method (j : Json) (key : string) (default : Json) : Res Json :=
  match j with
  | JDict d =>
      Good (match dict_lookup key d with Some v => v | None => default end)
  | _ => Bad AttributeError
  end.

(** [len(j)] *)
Definition py_len (j : Json) : Res nat :=
  match j with
  | JList l => Good (length l)
  | JDict d => Good (length d)
  | JStr s => Good (String.length s)
  | _ => Bad TypeError
  end.

Fixpoint chars (s : string) : list Json :=
  match s with
  | EmptyString => []
  | String c r => JStr (String c EmptyString) :: chars r
  end.

(** [for x in j]: the elements of a list, the keys of a dictionary, the
    characters of a string. *)
Definition py_iter (j : Json) : Res (list Json) :=
  match j with
  | JList l => Good l
  | JDict d => Good (map (fun kv => JStr (fst kv)) d)
  | JStr s => Good (chars s)
  | _ => Bad TypeError
  end.

(** [j[key]] for a string [key]. *)
Definition getitem (j : Json) (key : string) : Res Json :=
  match j with
  | JDict d =>
      match dict_lookup key d with
      | Some v => Good v
      | None => Bad (KeyError key)
      end
  | _ => Bad TypeError
  end.

Fixpoint is_substring (needle s : string) : bool :=
  String.prefix needle s ||
  match s with
  | EmptyString => false
  | String _ r => is_substring needle r
  end.

(** [key in j] for a string [key]: a key of a dictionary, an element of a
    list, a substring of a string. *)
Definition contains (key : string) (j : Json) : Res bool :=
  match j with
  | JDict d => Good (match dict_lookup key d with Some _ => true | None => false end)
  | JList l => Good (existsb (py_eq (JStr key)) l)
  | JStr s => Good (is_substring key s)
  | _ => Bad TypeError
  end.

(** The same operations on a value of [validated_data]. *)
Definition val_get_method (v : Val) (key : string) (default : Json) : Res Json :=
  match v with
  | VJson j => get_method j key default
  | _ => Bad AttributeError
  end.

Definition val_getitem (v : Val) (key : string) : Res Json :=
  match v with
  | VJson j => getitem j key
  | _ => Bad TypeError
  end.

Definition val_contains (key : string) (v : Val) : Res bool :=
  match v with
  | VJson j => contains key j
  | _ => Bad TypeError
  end.

(** [validated_data[key]] *)
Definition data_getitem (validated_data : gmap string Val) (key : string) : Res Val :=
  match validated_data !! key with
  | Some v => Good v
  | None => Bad (KeyError key)
  end.

(** [sorted(keys)] on strings. *)
Fixpoint insert_sorted (k : string) (l : list string) : list string :=
  match l with
  | [] => [k]
  | k' :: l' => if String.leb k k' then k :: l else k' :: insert_sorted k l'
  end.

Definition sorted (l : list string) : list string :=
  fold_right insert_sorted [] l.

(** ** [validate_parameters] (lines 50-62) *)

Definition too_many_variants : PyExn :=
  ValidationError "Feature flag variants must be less than 5".

Definition no_control_variant : PyExn :=
  ValidationError "Feature flag variants must contain a control variant".

Definition validate_parameters (value : Json) : Res Json :=
  if negb (truthy value) then Good value
  else
    res_bind (get_method value "feature_flag_variants" (JList [])) (fun variants =>
    res_bind (py_len variants) (fun n =>
    if (4 <? n)%nat then Bad too_many_variants
    else if (0 <? n)%nat then
      res_bind (py_iter variants) (fun elems =>
      res_bind (res_map (fun variant => getitem variant "key") elems) (fun keys =>
      if negb (existsb (py_eq (JStr "control")) keys)
      then Bad no_control_variant
      else Good value))
    else Good value)).

(** ** The model objects and the collaborators *)

Record FeatureFlag : Type := {
  ff_key : string;
  ff_variants : list Json;
  ff_active : bool
}.

(** [feature_flag.active = b] *)
Definition set_active (f : FeatureFlag) (b : bool) : FeatureFlag :=
  {| ff_key := ff_key f; ff_variants := ff_variants f; ff_active := b |}.

Record Experiment : Type := {
  exp_pk : Z;
  exp_is_draft : bool;
  exp_feature_flag : FeatureFlag
}.

Definition with_feature_flag (e : Experiment) (f : FeatureFlag) : Experiment :=
  {| exp_pk := exp_pk e; exp_is_draft := exp_is_draft e; exp_feature_flag := f |}.

Record Team : Type := { team_pk : Z }.

(** [self.context]: the request (its user) and the team id. *)
Record Context : Type := {
  ctx_request_user : Z;
  ctx_team_id : Z
}.

(** The [data] handed to [FeatureFlagSerializer]. *)
Record FlagData : Type := {
  fd_key : Val;
  fd_name : string;
  fd_filters : Json;
  fd_active : bool
}.

Inductive Call : Type :=
| C_Team_objects_get (id : Z) (r : Res Team)
| C_flag_is_valid (data : FlagData) (context : Context) (r : Res unit)
| C_flag_serializer_save (data : FlagData) (context : Context) (r : Res FeatureFlag)
| C_Experiment_objects_create (team : Team) (feature_flag : FeatureFlag)
    (kwargs : gmap string Val) (r : Res Experiment)
| C_feature_flag_save (feature_flag : FeatureFlag) (r : Res unit)
| C_super_update (instance : Experiment) (validated_data : gmap string Val)
    (r : Res Experiment).

Definition is_writing (c : Call) : bool :=
  match c with
  | C_flag_serializer_save _ _ _ => true
  | C_Experiment_objects_create _ _ _ _ => true
  | C_feature_flag_save _ _ => true
  | C_super_update _ _ _ => true
  | _ => false
  end.

Section Serializer.

Variable W : Type.

Record Env : Type := {
  env_Team_objects_get : Z -> W -> Res Team * W;
  env_flag_is_valid : FlagData -> Context -> W -> Res unit * W;
  env_flag_serializer_save : FlagData -> Context -> W -> Res FeatureFlag * W;
  env_Experiment_objects_create :
    Team -> FeatureFlag -> gmap string Val -> W -> Res Experiment * W;
  env_feature_flag_save : FeatureFlag -> W -> Res unit * W;
  env_super_update : Experiment -> gmap string Val -> W -> Res Experiment * W
}.

Variable env : Env.

(** [str(v)] for a value that is not a string, as an f-string formats
    it. *)
Variable py_str : Val -> string.

Definition format_value (v : Val) : string :=
  match v with
  | VJson (JStr s) => s
  | _ => py_str v
  end.

Definition EM (A : Type) : Type := W -> Res A * W * list Call.

Definition eret {A : Type} (a : A) : EM A := fun w => (Good a, w, []).

Definition eraise {A : Type} (e : PyExn) : EM A := fun w => (Bad e, w, []).

Definition ebind {A B : Type} (m : EM A) (k : A -> EM B) : EM B :=
  fun w =>
    match m w with
    | (Good a, w1, t1) =>
        match k a w1 with
        | (r, w2, t2) => (r, w2, t1 ++ t2)
        end
    | (Bad e, w1, t1) => (Bad e, w1, t1)
    end.

(** A pure computation that returns or raises. *)
Definition lift {A : Type} (r : Res A) : EM A := fun w => (r, w, []).

Definition ecall {A : Type} (op : W -> Res A * W) (c : Res A -> Call) : EM A :=
  fun w => match op w with (r, w1) => (r, w1, [c r]) end.

Notation "x <- m ;; k" := (ebind m (fun x => k))
  (at level 100, m at next level, right associativity).
Notation "m ;;; k" := (ebind m (fun _ => k))
  (at level 100, right associativity).

Fixpoint efor_each {A : Type} (body : A -> EM unit) (l : list A) : EM unit :=
  match l with
  | [] => eret tt
  | x :: l' => body x ;;; efor_each body l'
  end.

(** ** [create] (lines 64-107) *)

Definition filters_required : PyExn :=
  ValidationError "Filters are required to create an Experiment".

Definition default_variants : Json :=
  JList [JDict [("key", JStr "control"); ("name", JStr "Control Group");
                ("rollout_percentage", JInt 50)];
         JDict [("key", JStr "test"); ("name", JStr "Test Variant");
                ("rollout_percentage", JInt 50)]].

(** [validated_data.get("filters")] is falsy. *)
Definition no_filters (validated_data : gmap string Val) : bool :=
  match validated_data !! "filters" with
  | Some v => negb (truthy_val v)
  | None => true
  end.

(** ["start_date" not in validated_data or validated_data["start_date"] is
    None] *)
Definition is_draft_data (validated_data : gmap string Val) : bool :=
  match validated_data !! "start_date" with
  | None => true
  | Some (VJson JNone) => true
  | Some _ => false
  end.

Definition flag_filters (properties variants : Json) : Json :=
  JDict [("groups",
          JList [JDict [("properties", properties); ("rollout_percentage", JNone)]]);
         ("multivariate",
          JDict [("variants", if truthy variants then variants else default_variants)])].

Definition create (validated_data : gmap string Val) (context : Context)
  : EM Experiment :=
  if no_filters validated_data then eraise filters_required
  else
    parameters <- lift (data_getitem validated_data "parameters") ;;
    variants <-
      lift (if truthy_val parameters
            then val_get_method parameters "feature_flag_variants" (JList [])
            else Good (JList [])) ;;
    let validated_data :=
      <["created_by" := VUser (ctx_request_user context)]> validated_data in
    team <-
      ecall (env_Team_objects_get env (ctx_team_id context))
            (C_Team_objects_get (ctx_team_id context)) ;;
    feature_flag_key <- lift (data_getitem validated_data "get_feature_flag_key") ;;
    let validated_data := delete "get_feature_flag_key" validated_data in
    let is_draft := is_draft_data validated_data in
    filters_value <- lift (data_getitem validated_data "filters") ;;
    properties <- lift (val_get_method filters_value "properties" (JList [])) ;;
    let filters := flag_filters properties variants in
    name <- lift (data_getitem validated_data "name") ;;
    let data :=
      {| fd_key := feature_flag_key;
         fd_name := "Feature Flag for Experiment " +:+ format_value name;
         fd_filters := filters;
         fd_active := negb is_draft |} in
    ecall (env_flag_is_valid env data context) (C_flag_is_valid data context) ;;;
    feature_flag <-
      ecall (env_flag_serializer_save env data context)
            (C_flag_serializer_save data context) ;;
    if bool_decide (is_Some (validated_data !! "team"))
       || bool_decide (is_Some (validated_data !! "feature_flag"))
    then eraise TypeError
    else
      ecall (env_Experiment_objects_create env team feature_flag validated_data)
            (C_Experiment_objects_create team feature_flag validated_data).

(** ** [update] (lines 109-152) *)

Definition expected_keys : gset string :=
  {["name"; "description"; "start_date"; "end_date"; "filters"; "parameters"]}.

(** [feature_flag.key == validated_data.get("get_feature_flag_key")] *)
Definition same_flag_key (feature_flag : FeatureFlag)
    (validated_data : gmap string Val) : bool :=
  match validated_data !! "get_feature_flag_key" with
  | Some (VJson (JStr k)) => String.eqb (ff_key feature_flag) k
  | _ => false
  end.

Definition extra_keys_of (feature_flag : FeatureFlag)
    (validated_data : gmap string Val) : gset string :=
  let extra_keys := dom validated_data ∖ expected_keys in
  if same_flag_key feature_flag validated_data
  then extra_keys ∖ {["get_feature_flag_key"]}
  else extra_keys.

Definition cannot_update_keys (extra_keys : gset string) : PyExn :=
  ValidationError ("Can't update keys: "
                   +:+ String.concat ", " (sorted (elements extra_keys))
                   +:+ " on Experiment").

Definition cannot_update_variants : PyExn :=
  ValidationError "Can't update feature_flag_variants on Experiment".

Definition cannot_change_start_date : PyExn :=
  ValidationError "Can't change experiment start date after experiment has begun".

(** The condition of the list comprehension of lines 131-136, with the
    short-circuit of [and]. *)
Definition same_variant (variant ff_variant : Json) : Res bool :=
  res_bind (getitem ff_variant "key") (fun k1 =>
  res_bind (getitem variant "key") (fun k2 =>
  if py_eq k1 k2 then
    res_bind (getitem ff_variant "rollout_percentage") (fun r1 =>
    res_bind (getitem variant "rollout_percentage") (fun r2 =>
    Good (py_eq r1 r2)))
  else Good false)).

(** Lines 128-140: every given variant matches exactly one variant of the
    flag. *)
Fixpoint check_variants (feature_flag : FeatureFlag) (given : list Json) : Res unit :=
  match given with
  | [] => Good tt
  | variant :: given' =>
      res_bind (res_filter (same_variant variant) (ff_variants feature_flag))
        (fun matching =>
           if negb (Nat.eqb (length matching) 1) then Bad cannot_update_variants
           else check_variants feature_flag given')
  end.

(** Lines 123-140. *)
Definition validate_variants (feature_flag : FeatureFlag)
    (validated_data : gmap string Val) : Res unit :=
  let parameters :=
    match validated_data !! "parameters" with
    | Some v => v
    | None => VJson (JDict [])
    end in
  res_bind (val_contains "feature_flag_variants" parameters) (fun present =>
  if present then
    res_bind (data_getitem validated_data "parameters") (fun p =>
    res_bind (val_getitem p "feature_flag_variants") (fun given =>
    res_bind (py_len given) (fun n =>
    if negb (Nat.eqb n (length (ff_variants feature_flag)))
    then Bad cannot_update_variants
    else
      res_bind (py_iter given) (fun elems =>
      check_variants feature_flag elems))))
  else Good tt).

Definition update (instance : Experiment) (validated_data : gmap string Val)
  : EM Experiment :=
  let has_start_date := bool_decide (is_Some (validated_data !! "start_date")) in
  let feature_flag := exp_feature_flag instance in
  let extra_keys := extra_keys_of feature_flag validated_data in
  if negb (bool_decide (extra_keys = ∅)) then eraise (cannot_update_keys extra_keys)
  else
    lift (validate_variants feature_flag validated_data) ;;;
    if exp_is_draft instance && has_start_date then
      let feature_flag := set_active feature_flag true in
      let instance := with_feature_flag instance feature_flag in
      ecall (env_feature_flag_save env feature_flag) (C_feature_flag_save feature_flag) ;;;
      ecall (env_super_update env instance validated_data)
            (C_super_update instance validated_data)
    else if has_start_date then eraise cannot_change_start_date
    else
      ecall (env_super_update env instance validated_data)
            (C_super_update instance validated_data).

End Serializer.

Arguments Env W : clear implicits.
Arguments env_Team_objects_get {W} e.
Arguments env_flag_is_valid {W} e.
Arguments env_flag_serializer_save {W} e.
Arguments env_Experiment_objects_create {W} e.
Arguments env_feature_flag_save {W} e.
Arguments env_super_update {W} e.
Arguments EM W A : clear implicits.
Arguments eret {W A} a.
Arguments eraise {W A} e.
Arguments ebind {W A B} m k.
Arguments lift {W A} r.
Arguments ecall {W A} op c.
Arguments create {W} env py_str validated_data context.
Arguments update {W} env instance validated_data.

(** The three components of a run of the serializer. *)
Definition result {W A : Type} (x : Res A * W * list Call) : Res A := fst (fst x).
Definition final {W A : Type} (x : Res A * W * list Call) : W := snd (fst x).
Definition calls {W A : Type} (x : Res A * W * list Call) : list Call := snd x.

(** The shapes of the journal of [update]: nothing, the framework's update
    alone, or the save of the activated flag followed, when it returns, by
    the framework's update on the instance with that flag. *)
Definition update_shape (instance : Experiment) (validated_data : gmap string Val)
    (x : Res Experiment * list Call) : Prop :=
  let has_start_date := is_Some (validated_data !! "start_date") in
  let activated := set_active (exp_feature_flag instance) true in
  match snd x with
  | [] => exists e, fst x = Bad e
  | [C_super_update i v r] =>
      ~ has_start_date /\ i = instance /\ v = validated_data /\ fst x = r
  | [C_feature_flag_save f (Bad e)] =>
      exp_is_draft instance = true /\ has_start_date /\ f = activated /\
      fst x = Bad e
  | [C_feature_flag_save f (Good _); C_super_update i v r] =>
      exp_is_draft instance = true /\ has_start_date /\ f = activated /\
      i = with_feature_flag instance activated /\ v = validated_data /\ fst x = r
  | _ => False
  end.

(** A given variant has exactly one counterpart among the variants of the
    flag, with the same key and the same rollout percentage. *)
Definition has_one_counterpart (feature_flag : FeatureFlag) (variant : Json) : Prop :=
  exists matching,
    res_filter (same_variant variant) (ff_variants feature_flag) = Good matching /\
    length matching = 1%nat.

End Experiments.

(** ** Examples for the Experiment serializer *)

Module ExperimentScenario.
Import Experiments.

Definition variant (key : string) (rollout_percentage : Z) : Json :=
  JDict [("key", JStr key); ("rollout_percentage", JInt rollout_percentage)].

(** The variants in the filters a flag is saved with. *)
Definition variants_of (filters : Json) : list Json :=
  match res_bind (getitem filters "multivariate") (fun m => getitem m "variants") with
  | Good (JList l) => l
  | _ => []
  end.

(** Collaborators for the examples.  The state counts the rows written;
    team 2 is the only team; a flag is valid when its key is a string; a
    new row gets the count of rows as primary key. *)
Definition env : Env nat :=
  {| env_Team_objects_get := fun id w =>
       (if id =? 2 then Good {| team_pk := 2 |} else Bad DoesNotExist, w);
     env_flag_is_valid := fun data _ w =>
       (match fd_key data with
        | VJson (JStr _) => Good tt
        | _ => Bad (ValidationError "Not a valid string.")
        end, w);
     env_flag_serializer_save := fun data _ w =>
       (match fd_key data with
        | VJson (JStr k) =>
            Good {| ff_key := k; ff_variants := variants_of (fd_filters data);
                    ff_active := fd_active data |}
        | _ => Bad TypeError
        end, S w);
     env_Experiment_objects_create := fun _ feature_flag kwargs w =>
       (Good {| exp_pk := Z.of_nat (S w); exp_is_draft := is_draft_data kwargs;
                exp_feature_flag := feature_flag |}, S w);
     env_feature_flag_save := fun _ w => (Good tt, S w);
     env_super_update := fun instance validated_data w =>
       (Good {| exp_pk := exp_pk instance;
                exp_is_draft := exp_is_draft instance && is_draft_data validated_data;
                exp_feature_flag := exp_feature_flag instance |}, S w) |}.

(** [str] of the values the examples could format; the names of the
    examples are strings. *)
Definition py_str (v : Val) : string :=
  match v with
  | VJson JNone => "None"
  | VJson (JBool true) => "True"
  | VJson (JBool false) => "False"
  | _ => "object"
  end.

Definition request : Context := {| ctx_request_user := 1; ctx_team_id := 2 |}.

Definition three_variants : list Json :=
  [variant "control" 34; variant "test_1" 33; variant "test_2" 33].

Definition pricing_filters : Json :=
  JDict [("events", JList [JDict [("id", JStr "pageview")]]);
         ("properties", JList [JDict [("key", JStr "plan")]])].

(** The data of a new draft experiment with three variants. *)
Definition new_experiment : gmap string Val :=
  <["name" := VJson (JStr "Pricing page")]>
  (<["get_feature_flag_key" := VJson (JStr "pricing-page")]>
  (<["filters" := VJson pricing_filters]>
  (<["parameters" :=
       VJson (JDict [("feature_flag_variants", JList three_variants)])]> ∅))).

(** What [create] hands to the flag serializer and to the manager of
    Experiment for [new_experiment], and what they return. *)
Definition pricing_flag_data : FlagData :=
  {| fd_key := VJson (JStr "pricing-page");
     fd_name := "Feature Flag for Experiment Pricing page";
     fd_filters :=
       JDict [("groups",
               JList [JDict [("properties", JList [JDict [("key", JStr "plan")]]);
                             ("rollout_percentage", JNone)]]);
              ("multivariate", JDict [("variants", JList three_variants)])];
     fd_active := false |}.

Definition pricing_flag : FeatureFlag :=
  {| ff_key := "pricing-page"; ff_variants := three_variants; ff_active := false |}.

Definition pricing_kwargs : gmap string Val :=
  <["name" := VJson (JStr "Pricing page")]>
  (<["created_by" := VUser 1]>
  (<["filters" := VJson pricing_filters]>
  (<["parameters" :=
       VJson (JDict [("feature_flag_variants", JList three_variants)])]> ∅))).

Definition pricing_draft : Experiment :=
  {| exp_pk := 2; exp_is_draft := true; exp_feature_flag := pricing_flag |}.

(** The same data with [None] as flag key. *)
Definition unkeyed_experiment : gmap string Val :=
  <["get_feature_flag_key" := VJson JNone]> new_experiment.

Definition unkeyed_flag_data : FlagData :=
  {| fd_key := VJson JNone;
     fd_name := fd_name pricing_flag_data;
     fd_filters := fd_filters pricing_flag_data;
     fd_active := false |}.

(** The experiment once started. *)
Definition pricing_running : Experiment :=
  {| exp_pk := 2; exp_is_draft := false;
     exp_feature_flag := set_active pricing_flag true |}.

(** Data for [update]: a start date; the three variants in another order;
    a key that cannot be updated; a new name. *)
Definition start_data : gmap string Val := {["start_date" := VDatetime 1630000000]}.

Definition reordered_variants : list Json :=
  [variant "test_2" 33; variant "control" 34; variant "test_1" 33].

Definition reordered_data : gmap string Val :=
  {["parameters" :=
      VJson (JDict [("feature_flag_variants", JList reordered_variants)])]}.

Definition author_data : gmap string Val := {["created_by" := VUser 5]}.

Definition rename_data : gmap string Val := {["name" := VJson (JStr "Pricing")]}.

(** Parameters with five variants, and with two variants without
    control. *)
Definition five_variants : list Json :=
  [variant "control" 20; variant "a" 20; variant "b" 20; variant "c" 20;
   variant "d" 20].

Definition two_tests : list Json := [variant "test_1" 50; variant "test_2" 50].

End ExperimentScenario.

(** ** Proof automation: running the collaborator calls one by one *)

Ltac run_call :=
  match goal with
  | |- context [env_bind_temporal_worker_logger ?e ?a ?w] =>
      destruct (env_bind_temporal_worker_logger e a w) as [[[]|?exn] ?w] eqn:?
  | |- context [env_get_external_data_job ?e ?a ?w] =>
      destruct (env_get_external_data_job e a w) as [[?job|?exn] ?w] eqn:?
  | |- context [env_get_latest_run_if_exists ?e ?a ?b ?w] =>
      destruct (env_get_latest_run_if_exists e a b w) as [[?last|?exn] ?w] eqn:?
  | |- context [env_get_or_create_datawarehouse_credential ?e ?a ?b ?c ?w] =>
      destruct (env_get_or_create_datawarehouse_credential e a b c w)
        as [[?cred|?exn] ?w] eqn:?
  | |- context [env_get_columns ?e ?t ?k ?w] =>
      destruct (env_get_columns e t k w) as [[?cols|?exn] ?w] eqn:?
  | |- context [env_get_table_by_schema_id ?e ?a ?b ?w] =>
      destruct (env_get_table_by_schema_id e a b w) as [[[?tbl|]|?exn] ?w] eqn:?
  | |- context [env_asave_datawarehousetable ?e ?t ?w] =>
      destruct (env_asave_datawarehousetable e t w) as [[[]|?exn] ?w] eqn:?
  | |- context [env_acreate_datawarehousetable ?e ?a ?b ?w] =>
      destruct (env_acreate_datawarehousetable e a b w) as [[?tbl|?exn] ?w] eqn:?
  | |- context [env_aget_schema_by_id ?e ?a ?b ?w] =>
      destruct (env_aget_schema_by_id e a b w) as [[[?sm|]|?exn] ?w] eqn:?
  | |- context [env_asave_external_data_schema ?e ?s ?w] =>
      destruct (env_asave_external_data_schema e s w) as [[[]|?exn] ?w] eqn:?
  | |- context [env_delete_data_in_bucket ?e ?j ?w] =>
      destruct (env_delete_data_in_bucket e j w) as [[[]|?exn] ?w] eqn:?
  end; simpl.

Ltac unfold_calls :=
  unfold bind_temporal_worker_logger, get_external_data_job, get_latest_run_if_exists,
    get_or_create_datawarehouse_credential, get_columns, get_table_by_schema_id,
    asave_datawarehousetable, acreate_datawarehousetable, aget_schema_by_id,
    asave_external_data_schema, delete_data_in_bucket;
  unfold bind, try, call, raise, ret, logger_exception; cbv beta iota.

Ltac unfold_step :=
  unfold schema_step, after_probe, validate_schema, validate_schema_frame,
    reconcile, find_existing, update_schema_metadata, reap, setup,
    probe_table, descriptor in *;
  cbn [fst snd].

(** The cases of a probe that raised. *)
Ltac probe_cases :=
  repeat match goal with
  | |- context [match ?e with
                | ServerException _ => _
                | DoesNotExist => _
                | OtherError _ => _
                end] => destruct e as [?code| |?msg]; cbn
  | |- context [if (?c =? 636) then _ else _] => destruct (c =? 636); cbn
  end.

(** The journal of one iteration of the loop, case by case. *)
Ltac run_step :=
  unfold journal, outcome; unfold_step; unfold_calls; repeat run_call; probe_cases.

(** Running the collaborator calls of the Experiment serializer. *)
Ltac run_ecall :=
  match goal with
  | |- context [Experiments.env_Team_objects_get ?e ?a ?w] =>
      destruct (Experiments.env_Team_objects_get e a w) as [[?team|?exn] ?w] eqn:?
  | |- context [Experiments.env_flag_is_valid ?e ?a ?b ?w] =>
      destruct (Experiments.env_flag_is_valid e a b w) as [[[]|?exn] ?w] eqn:?
  | |- context [Experiments.env_flag_serializer_save ?e ?a ?b ?w] =>
      destruct (Experiments.env_flag_serializer_save e a b w) as [[?flag|?exn] ?w] eqn:?
  | |- context [Experiments.env_Experiment_objects_create ?e ?a ?b ?c ?w] =>
      destruct (Experiments.env_Experiment_objects_create e a b c w)
        as [[?exp|?exn] ?w] eqn:?
  | |- context [Experiments.env_feature_flag_save ?e ?a ?w] =>
      destruct (Experiments.env_feature_flag_save e a w) as [[[]|?exn] ?w] eqn:?
  | |- context [Experiments.env_super_update ?e ?a ?b ?w] =>
      destruct (Experiments.env_super_update e a b w) as [[?exp|?exn] ?w] eqn:?
  end; cbn [fst snd app].

Ltac unfold_ecalls :=
  unfold Experiments.ebind, Experiments.lift, Experiments.ecall, Experiments.eret,
    Experiments.eraise; cbv beta iota.

(** The runs of [create], case by case; [kept] rewrites the reading of the
    start date in the data handed on. *)
Ltac run_create kept :=
  unfold Experiments.calls, Experiments.result, Experiments.create;
  match goal with
  | |- context [Experiments.no_filters ?vd] =>
      destruct (Experiments.no_filters vd) eqn:?Hf
  end;
  [ cbn [fst snd Experiments.eraise]
  | unfold_ecalls; unfold Experiments.data_getitem;
    rewrite ?kept;
    rewrite ?lookup_insert_ne by discriminate;
    rewrite ?lookup_delete_ne by discriminate;
    rewrite ?lookup_insert_ne by discriminate;
    repeat match goal with
    | |- context [?vd !! ?k] =>
        is_var vd; destruct (vd !! k) eqn:?Hk; cbn [fst snd app]
    | |- context [if Experiments.truthy_val ?p then _ else _] =>
        destruct (Experiments.truthy_val p) eqn:?Ht
    | |- context [Experiments.val_get_method ?p ?k ?d] =>
        destruct (Experiments.val_get_method p k d) eqn:?Hg; cbn [fst snd app]
    | |- context [bool_decide ?P] =>
        destruct (bool_decide P) eqn:?Hb; cbn [orb fst snd app]
    | _ => run_ecall
    end ].

(** The members of a journal, one by one. *)
Ltac journal_members :=
  repeat match goal with
  | H : _ \/ _ |- _ => destruct H as [H|H]; try discriminate
  | H : False |- _ => destruct H
  end.

Ltac accounted_now :=
  unfold accounted, outcome, journal; simpl;
  first [ solve [repeat constructor]
        | solve [eexists [], _; split; reflexivity]
        | solve [eexists [_], _; split; reflexivity]
        | solve [eexists [_; _], _; split; reflexivity]
        | solve [eexists [_; _; _], _; split; reflexivity] ].

(** * Properties *)

Section MonadFacts.
Context {W : Type}.

Lemma bind_ok {A B : Type} (m : M W A) (k : A -> M W B) w a w1 t1 :
  m w = (Ok a, w1, t1) -> bind m k w = after t1 (k a w1).
Proof.
  intros H. unfold bind, after, outcome, world, journal. rewrite H.
  destruct (k a w1) as [[r w2] t2]. reflexivity.
Qed.

Lemma bind_raise {A B : Type} (m : M W A) (k : A -> M W B) w e w1 t1 :
  m w = (Raise e, w1, t1) -> bind m k w = (Raise e, w1, t1).
Proof. intros H. unfold bind. rewrite H. reflexivity. Qed.

Lemma accounted_bind {A B : Type} (m : M W A) (k : A -> M W B) w :
  accounted (m w) -> (forall a w1, accounted (k a w1)) -> accounted (bind m k w).
Proof.
  intros Hm Hk. destruct (m w) as [[[a|e] w1] t1] eqn:E.
  - rewrite (bind_ok _ _ _ _ _ _ E). specialize (Hk a w1).
    unfold accounted, after, outcome, world, journal in *. simpl in *.
    destruct (k a w1) as [[[b|e] w2] t2]; simpl in *.
    + apply Forall_app; split; assumption.
    + destruct Hk as (pre & ev & -> & Hev).
      exists (t1 ++ pre), ev. split; [by rewrite app_assoc | assumption].
  - rewrite (bind_raise _ _ _ _ _ _ E). exact Hm.
Qed.

Lemma accounted_ret {A : Type} (a : A) (w : W) : accounted (ret a w).
Proof. unfold accounted, ret; simpl. constructor. Qed.

Lemma accounted_for_each {A : Type} (body : A -> M W unit) l :
  (forall x w, accounted (body x w)) -> forall w, accounted (for_each body l w).
Proof.
  intros Hb. induction l as [|x l IH]; intros w; simpl.
  - apply accounted_ret.
  - apply accounted_bind; [apply Hb | intros _ w1; apply IH].
Qed.

Lemma for_each_cons {A : Type} (body : A -> M W unit) x l w w1 t1 :
  body x w = (Ok tt, w1, t1) ->
  for_each body (x :: l) w = after t1 (for_each body l w1).
Proof.
  intros H. simpl. exact (bind_ok (body x) (fun _ => for_each body l) w tt w1 t1 H).
Qed.

Lemma for_each_cons_raise {A : Type} (body : A -> M W unit) x l w e w1 t1 :
  body x w = (Raise e, w1, t1) ->
  for_each body (x :: l) w = (Raise e, w1, t1).
Proof.
  intros H. simpl. exact (bind_raise (body x) (fun _ => for_each body l) w e w1 t1 H).
Qed.
End MonadFacts.

Lemma count_app p (t1 t2 : list Event) :
  count p (t1 ++ t2) = (count p t1 + count p t2)%nat.
Proof. induction t1 as [|ev t1 IH]; simpl; [reflexivity | rewrite IH; lia]. Qed.

Lemma probe_calls_app (t1 t2 : list Event) :
  probe_calls (t1 ++ t2) = probe_calls t1 ++ probe_calls t2.
Proof.
  induction t1 as [|ev t1 IH]; simpl; [reflexivity|].
  destruct ev as [| | | |t [[]|] r| | | | | | |]; simpl; rewrite IH; reflexivity.
Qed.


Section Facts.
Context {W : Type} (env : Env W).
Context (KEY SECRET : string).
Context (lower camel : string -> string) (url : ExternalDataJob -> string -> string).

(** *** Equations of the probe and of the loop body *)

Lemma validate_schema_frame_run cred tn u team w :
  validate_schema_frame env cred tn u team w =
  match env_get_columns env (DataWarehouseTable_init (descriptor cred tn u team))
          (Some false) w with
  | (Ok cols, w1) =>
      (Ok (set_columns (DataWarehouseTable_init (descriptor cred tn u team)) cols,
           descriptor cred tn u team), w1,
       [Ev_get_columns (DataWarehouseTable_init (descriptor cred tn u team))
          (Some false) (Ok cols)])
  | (Raise e, w1) =>
      (Raise e, w1,
       [Ev_get_columns (DataWarehouseTable_init (descriptor cred tn u team))
          (Some false) (Raise e)])
  end.
Proof.
  unfold validate_schema_frame, descriptor. unfold_calls.
  destruct (env_get_columns env _ (Some false) w) as [[cols|e] w1]; reflexivity.
Qed.

Lemma validate_schema_run cred tn u team w :
  validate_schema env cred tn u team w =
  match env_get_columns env (DataWarehouseTable_init (descriptor cred tn u team))
          (Some false) w with
  | (Ok cols, w1) =>
      (Ok (descriptor cred tn u team), w1,
       [Ev_get_columns (DataWarehouseTable_init (descriptor cred tn u team))
          (Some false) (Ok cols)])
  | (Raise e, w1) =>
      (Raise e, w1,
       [Ev_get_columns (DataWarehouseTable_init (descriptor cred tn u team))
          (Some false) (Raise e)])
  end.
Proof.
  unfold validate_schema. unfold bind at 1. rewrite validate_schema_frame_run.
  destruct (env_get_columns env _ (Some false) w) as [[cols|e] w1]; reflexivity.
Qed.

Lemma schema_step_probe_ok job last cred team id nm w cols w1 :
  env_get_columns env (probe_table lower camel url cred job team nm) (Some false) w = (Ok cols, w1) ->
  schema_step env lower camel url job last cred team (id, nm) w =
  after [Ev_get_columns (probe_table lower camel url cred job team nm) (Some false) (Ok cols)]
        (after_probe env lower camel url job last cred team id nm w1).
Proof.
  intros H. unfold schema_step, after_probe. cbn [fst snd].
  unfold bind at 1. unfold try at 1. rewrite validate_schema_run.
  unfold probe_table in H. rewrite H.
  unfold after, outcome, world, journal, probe_table.
  match goal with
  | |- context [bind ?m ?k ?s] => destruct (bind m k s) as [[r w2] t2]
  end.
  reflexivity.
Qed.

Lemma schema_step_probe_raise job last cred team id nm w e w1 :
  env_get_columns env (probe_table lower camel url cred job team nm) (Some false) w = (Raise e, w1) ->
  schema_step env lower camel url job last cred team (id, nm) w =
  (Ok tt, w1,
   Ev_get_columns (probe_table lower camel url cred job team nm) (Some false) (Raise e)
     :: probe_failure_log job nm e).
Proof.
  intros H. unfold schema_step. cbn [fst snd].
  unfold bind at 1. unfold try at 1. rewrite validate_schema_run.
  unfold probe_table in H. rewrite H.
  destruct e as [code| |msg]; cbn; [destruct (code =? 636)|..]; reflexivity.
Qed.

(** *** Which exceptions leave the call *)

Lemma accounted_after {A : Type} tr (x : Result A * W * list Event) :
  Forall (fun ev => propagates ev = None) tr -> accounted x -> accounted (after tr x).
Proof.
  intros Htr Hx. destruct x as [[[a|e] w1] t1];
    unfold accounted, after, outcome, world, journal in *; simpl in *.
  - apply Forall_app; split; assumption.
  - destruct Hx as (pre & ev & -> & Hev). exists (tr ++ pre), ev.
    split; [by rewrite app_assoc | assumption].
Qed.

Lemma accounted_find_existing last id team u w :
  accounted (find_existing env last id team u w).
Proof.
  destruct last as [lj|]; simpl; [|apply accounted_ret].
  unfold_calls. repeat run_call; accounted_now.
Qed.

Lemma accounted_reconcile job last id team u data w :
  accounted (reconcile env job last id team u data w).
Proof.
  unfold reconcile. apply accounted_bind; [apply accounted_find_existing|].
  intros [t|] w1; unfold_calls; repeat run_call; accounted_now.
Qed.

Lemma accounted_update_schema_metadata job id t w :
  accounted (update_schema_metadata env job id t w).
Proof.
  unfold update_schema_metadata. unfold_calls. repeat run_call; accounted_now.
Qed.

Lemma accounted_schema_step job last cred team sch w :
  accounted (schema_step env lower camel url job last cred team sch w).
Proof.
  destruct sch as [id nm].
  destruct (env_get_columns env (probe_table lower camel url cred job team nm) (Some false) w)
    as [[cols|e] w1] eqn:E.
  - rewrite (schema_step_probe_ok _ _ _ _ _ _ _ _ _ E).
    apply accounted_after; [repeat constructor|].
    apply accounted_bind; [apply accounted_reconcile|].
    intros t w2. apply accounted_update_schema_metadata.
  - rewrite (schema_step_probe_raise _ _ _ _ _ _ _ _ _ E).
    unfold accounted, outcome, journal; simpl.
    constructor; [reflexivity|].
    destruct e as [code| |msg]; simpl; [destruct (code =? 636)|..];
      repeat constructor.
Qed.

Lemma accounted_reap last w : accounted (reap env last w).
Proof.
  destruct last as [lj|]; simpl; [|apply accounted_ret].
  unfold_calls. run_call; accounted_now.
Qed.

Lemma accounted_setup run_id team w :
  accounted (setup env KEY SECRET run_id team w).
Proof. unfold setup. unfold_calls. repeat run_call; accounted_now. Qed.

(** C1, as amended.  For every environment and every input: when
    [validate_schema_and_update_table] raises, it raises the exception of
    its last collaborator call, and that call is one made outside every
    [try] block: the logger binding, the job record, the latest-run
    lookup, the credential, a catalog create or save, the column refresh,
    or the fetch or save of the schema record.  When it returns, none of
    those calls has raised; the only exceptions in the journal are those
    of probes, of lookups of an existing Table and of the bucket
    deletion, which are absorbed. *)
Theorem failures_accounted run_id team schemas w :
  accounted (validate_schema_and_update_table env KEY SECRET lower camel url run_id team schemas w).
Proof.
  unfold validate_schema_and_update_table.
  apply accounted_bind; [apply accounted_setup|].
  intros [[job last] cred] w1.
  apply accounted_bind.
  - apply accounted_for_each. intros sch w2. apply accounted_schema_step.
  - intros _ w2. apply accounted_reap.
Qed.

(** *** A probe that raises *)

(** C2, as amended.  When the probe of a schema raises, whatever the
    exception: the loop body returns normally, no catalog or schema store
    call is made for the schema, and the loop goes on with the next
    schema.  The no-data error (ServerException with code 636) is logged
    with the schema name and the job id; an exception that is not a
    ServerException is logged with the job id only. *)
Theorem probe_failure_skips_schema job last cred team id nm rest w e w1 :
  env_get_columns env (probe_table lower camel url cred job team nm) (Some false) w = (Raise e, w1) ->
  let x := schema_step env lower camel url job last cred team (id, nm) w in
  let probe := Ev_get_columns (probe_table lower camel url cred job team nm) (Some false) (Raise e) in
  outcome x = Ok tt /\ world x = w1 /\
  count is_store_call (journal x) = 0%nat /\
  count is_get_columns (journal x) = 1%nat /\
  (e = ServerException 636 ->
   journal x =
     [probe;
      Ev_logger_exception
        ("Data Warehouse: No data for schema " +:+ nm
           +:+ " for external data job " +:+ job_pk job) e]) /\
  ((forall code, e <> ServerException code) ->
   journal x =
     [probe;
      Ev_logger_exception
        ("Data Warehouse: Could not validate schema for external data job "
           +:+ job_pk job) e]) /\
  for_each (schema_step env lower camel url job last cred team) ((id, nm) :: rest) w =
    after (journal x) (for_each (schema_step env lower camel url job last cred team) rest w1).
Proof.
  intros H x probe. subst x probe.
  rewrite (schema_step_probe_raise _ _ _ _ _ _ _ _ _ H).
  unfold outcome, world, journal; cbn [fst snd].
  repeat split.
  - destruct e as [code| |msg]; simpl; [destruct (code =? 636)|..]; reflexivity.
  - destruct e as [code| |msg]; simpl; [destruct (code =? 636)|..]; reflexivity.
  - intros ->. reflexivity.
  - intros Hne. destruct e as [code| |msg]; [|reflexivity..].
    exfalso. exact (Hne code eq_refl).
  - apply for_each_cons. apply (schema_step_probe_raise _ _ _ _ _ _ _ _ _ H).
Qed.

(** *** Create or update *)

Lemma find_existing_run last id team u w :
  find_existing env last id team u w =
  match last with
  | None => (Ok None, w, [])
  | Some _ =>
      match env_get_table_by_schema_id env id team w with
      | (Ok (Some t), w1) =>
          match env_asave_datawarehousetable env (set_url_pattern t u) w1 with
          | (Ok _, w2) =>
              (Ok (Some (set_url_pattern t u)), w2,
               [Ev_get_table_by_schema_id id team (Ok (Some t));
                Ev_asave_datawarehousetable (set_url_pattern t u) (Ok tt)])
          | (Raise e, w2) =>
              (Raise e, w2,
               [Ev_get_table_by_schema_id id team (Ok (Some t));
                Ev_asave_datawarehousetable (set_url_pattern t u) (Raise e)])
          end
      | (Ok None, w1) => (Ok None, w1, [Ev_get_table_by_schema_id id team (Ok None)])
      | (Raise e, w1) => (Ok None, w1, [Ev_get_table_by_schema_id id team (Raise e)])
      end
  end.
Proof.
  destruct last as [lj|]; [|reflexivity].
  unfold find_existing. unfold_calls. repeat run_call; reflexivity.
Qed.

(** C4.  For a schema whose probe returned, the loop body calls
    [acreate_datawarehousetable] exactly once when no existing Table was
    found (no previous successful run, or the lookup by schema id
    returned nothing, or the lookup raised) and never otherwise.  When it
    does, the call follows the lookup, if any, with no Table written
    before it; it carries the id of the pipeline's external data source
    and the descriptor of the probe; its outcome and the world it leaves
    are those of the catalog store: the Table row the store returns is
    the one whose columns are then refreshed and saved and which is
    attached to the schema record, and an exception of the store leaves
    the loop body.  A failed lookup is followed by the creation, not by an
    error. *)
Theorem create_iff_no_existing_table job last cred team id nm w cols w1 :
  env_get_columns env (probe_table lower camel url cred job team nm) (Some false) w
    = (Ok cols, w1) ->
  let data := descriptor cred (table_name_of lower job nm)
                (new_url_pattern_of camel url job nm) team in
  let probe :=
    Ev_get_columns (probe_table lower camel url cred job team nm) (Some false)
      (Ok cols) in
  let looked := existing_lookup env last id team w1 in
  let created :=
    env_acreate_datawarehousetable env (src_id (job_pipeline job)) data
      (world looked) in
  let x := schema_step env lower camel url job last cred team (id, nm) w in
  count is_create (journal x)
    = (if no_existing_table last (outcome looked) then 1 else 0)%nat /\
  (no_existing_table last (outcome looked) = true ->
   count is_table_write (journal looked) = 0%nat /\
   x = after (probe :: journal looked
                ++ [Ev_acreate_datawarehousetable (src_id (job_pipeline job)) data
                      (fst created)])
         match fst created with
         | Ok table_created =>
             bind (refresh env table_created) (update_schema_metadata env job id)
               (snd created)
         | Raise e => (Raise e, snd created, [])
         end).
Proof.
  intros H data probe looked created x. subst data probe looked created x.
  rewrite (schema_step_probe_ok _ _ _ _ _ _ _ _ _ H).
  unfold after_probe, reconcile, find_existing, update_schema_metadata, refresh,
    existing_lookup, after, outcome, world, journal, descriptor.
  cbn [fst snd].
  destruct last as [lj|]; cbn [fst snd no_existing_table].
  - unfold_calls.
    destruct (env_get_table_by_schema_id env id team w1) as [[[t|]|e] w2] eqn:E;
      cbn [fst snd no_existing_table].
    + split; [|discriminate]. repeat run_call; reflexivity.
    + split; [|intros _; split; [reflexivity|]]; repeat run_call; reflexivity.
    + split; [|intros _; split; [reflexivity|]]; repeat run_call; reflexivity.
  - unfold_calls.
    split; [|intros _; split; [reflexivity|]]; repeat run_call; reflexivity.
Qed.


(** *** The schema record *)

Lemma schema_step_reconciled job last cred team id nm w cols w1 tc w2 tr2 :
  env_get_columns env (probe_table lower camel url cred job team nm) (Some false) w = (Ok cols, w1) ->
  reconcile env job last id team (new_url_pattern_of camel url job nm)
    (descriptor cred (table_name_of lower job nm) (new_url_pattern_of camel url job nm) team) w1
    = (Ok tc, w2, tr2) ->
  schema_step env lower camel url job last cred team (id, nm) w =
  after (Ev_get_columns (probe_table lower camel url cred job team nm) (Some false) (Ok cols) :: tr2)
        (update_schema_metadata env job id tc w2).
Proof.
  intros H R. rewrite (schema_step_probe_ok _ _ _ _ _ _ _ _ _ H).
  unfold after_probe. rewrite (bind_ok _ _ _ _ _ _ R).
  unfold after, outcome, world, journal. cbn [fst snd].
  rewrite app_assoc. reflexivity.
Qed.

Lemma update_schema_metadata_run job id tc w :
  update_schema_metadata env job id tc w =
  match env_aget_schema_by_id env id (job_team_id job) w with
  | (Ok (Some sm), w1) =>
      (fst (env_asave_external_data_schema env
              (attach_table sm tc (job_created_at job)) w1),
       snd (env_asave_external_data_schema env
              (attach_table sm tc (job_created_at job)) w1),
       [Ev_aget_schema_by_id id (job_team_id job) (Ok (Some sm));
        Ev_asave_external_data_schema (attach_table sm tc (job_created_at job))
          (fst (env_asave_external_data_schema env
                  (attach_table sm tc (job_created_at job)) w1))])
  | (Ok None, w1) => (Ok tt, w1, [Ev_aget_schema_by_id id (job_team_id job) (Ok None)])
  | (Raise e, w1) =>
      (Raise e, w1, [Ev_aget_schema_by_id id (job_team_id job) (Raise e)])
  end.
Proof.
  unfold update_schema_metadata. unfold_calls.
  destruct (env_aget_schema_by_id env id (job_team_id job) w) as [[[sm|]|e] w1];
    try reflexivity.
  destruct (env_asave_external_data_schema env _ w1) as [r w2]. reflexivity.
Qed.

(** C6.  For a schema whose probe returned and whose Table was
    reconciled, the schema record is fetched again by its identifier and
    the job's team.  When it is found, the reconciled Table is attached
    to it, its last-synced-at is set to the job's creation time and the
    record is saved; that save is the last call for the schema.  When it
    is not found, the loop body returns without error and without any
    call that writes a schema record. *)
Theorem schema_metadata_updated_or_skipped job last cred team id nm w cols w1 tc w2 tr2 :
  env_get_columns env (probe_table lower camel url cred job team nm) (Some false) w = (Ok cols, w1) ->
  reconcile env job last id team (new_url_pattern_of camel url job nm)
    (descriptor cred (table_name_of lower job nm) (new_url_pattern_of camel url job nm) team) w1
    = (Ok tc, w2, tr2) ->
  let x := schema_step env lower camel url job last cred team (id, nm) w in
  let pre :=
    Ev_get_columns (probe_table lower camel url cred job team nm) (Some false) (Ok cols)
      :: tr2 in
  match env_aget_schema_by_id env id (job_team_id job) w2 with
  | (Ok (Some schema_model), w3) =>
      let saved := attach_table schema_model tc (job_created_at job) in
      sch_table saved = Some tc /\
      sch_last_synced_at saved = Some (job_created_at job) /\
      sch_id saved = sch_id schema_model /\
      sch_team_id saved = sch_team_id schema_model /\
      sch_name saved = sch_name schema_model /\
      x = (fst (env_asave_external_data_schema env saved w3),
           snd (env_asave_external_data_schema env saved w3),
           pre ++ [Ev_aget_schema_by_id id (job_team_id job) (Ok (Some schema_model));
                   Ev_asave_external_data_schema saved
                     (fst (env_asave_external_data_schema env saved w3))])
  | (Ok None, w3) =>
      x = (Ok tt, w3, pre ++ [Ev_aget_schema_by_id id (job_team_id job) (Ok None)])
  | (Raise e, w3) =>
      x = (Raise e, w3, pre ++ [Ev_aget_schema_by_id id (job_team_id job) (Raise e)])
  end.
Proof.
  intros H R x pre. subst x pre.
  rewrite (schema_step_reconciled _ _ _ _ _ _ _ _ _ _ _ _ H R).
  rewrite update_schema_metadata_run.
  destruct (env_aget_schema_by_id env id (job_team_id job) w2) as [[[sm|]|e] w3];
    [repeat split|..]; reflexivity.
Qed.

(** *** The shape of a whole run *)

Lemma main_run run_id team schemas w job last cred w1 tr1 :
  setup env KEY SECRET run_id team w = (Ok (job, last, cred), w1, tr1) ->
  validate_schema_and_update_table env KEY SECRET lower camel url run_id team schemas w =
  after tr1 (bind (for_each (schema_step env lower camel url job last cred team) schemas)
                  (fun _ => reap env last) w1).
Proof.
  intros H. unfold validate_schema_and_update_table.
  exact (bind_ok (setup env KEY SECRET run_id team) _ w _ w1 tr1 H).
Qed.

Lemma main_run_loop_ok run_id team schemas w job last cred w1 tr1 w2 tr2 :
  setup env KEY SECRET run_id team w = (Ok (job, last, cred), w1, tr1) ->
  for_each (schema_step env lower camel url job last cred team) schemas w1 = (Ok tt, w2, tr2) ->
  validate_schema_and_update_table env KEY SECRET lower camel url run_id team schemas w
    = after (tr1 ++ tr2) (reap env last w2).
Proof.
  intros H L. rewrite (main_run _ _ _ _ _ _ _ _ _ H).
  rewrite (bind_ok (for_each (schema_step env lower camel url job last cred team) schemas)
             (fun _ => reap env last) w1 tt w2 tr2 L).
  unfold after, outcome, world, journal. cbn [fst snd].
  rewrite app_assoc. reflexivity.
Qed.

Lemma setup_journal run_id team w job last cred w1 tr1 :
  setup env KEY SECRET run_id team w = (Ok (job, last, cred), w1, tr1) ->
  tr1 = [Ev_bind_temporal_worker_logger team (Ok tt);
         Ev_get_external_data_job run_id (Ok job);
         Ev_get_latest_run_if_exists (job_team_id job) (job_pipeline_id job) (Ok last);
         Ev_get_or_create_datawarehouse_credential (job_team_id job) KEY SECRET
           (Ok cred)].
Proof.
  unfold setup. unfold_calls. repeat run_call; intros [=]; subst; reflexivity.
Qed.

Lemma reap_run last w :
  outcome (reap env last w) = Ok tt /\ reap_journal last (journal (reap env last w)).
Proof.
  destruct last as [lj|]; [|split; reflexivity].
  unfold reap, outcome, journal, reap_journal. unfold_calls.
  run_call; (split; [reflexivity|]); [left | right; eexists]; reflexivity.
Qed.

Lemma reap_journal_deletes last tr :
  reap_journal last tr ->
  count is_delete tr = match last with Some _ => 1%nat | None => 0%nat end.
Proof.
  destruct last as [lj|]; simpl.
  - intros [-> | [e ->]]; reflexivity.
  - intros ->. reflexivity.
Qed.

Lemma reap_journal_quiet last tr :
  reap_journal last tr ->
  probe_calls tr = [] /\ count is_get_columns tr = 0%nat /\
  count is_store_call tr = 0%nat.
Proof.
  destruct last as [lj|]; simpl.
  - intros [-> | [e ->]]; repeat split.
  - intros ->. repeat split.
Qed.

Lemma count_for_each_zero {A : Type} p (body : A -> M W unit) :
  (forall x w, count p (journal (body x w)) = 0%nat) ->
  forall l w, count p (journal (for_each body l w)) = 0%nat.
Proof.
  intros Hb. induction l as [|x l IH]; intros w; [reflexivity|].
  specialize (Hb x w). destruct (body x w) as [[[[]|e] w1] t1] eqn:E.
  - rewrite (for_each_cons _ _ _ _ _ _ E). unfold after, journal in *.
    cbn [snd] in *. rewrite count_app, Hb. apply IH.
  - rewrite (for_each_cons_raise _ _ _ _ _ _ _ E). exact Hb.
Qed.

Lemma step_never_deletes job last cred team sch w :
  count is_delete (journal (schema_step env lower camel url job last cred team sch w)) = 0%nat.
Proof.
  destruct sch as [id nm].
  destruct (env_get_columns env (probe_table lower camel url cred job team nm) (Some false) w)
    as [[cols|e] w1] eqn:E.
  - rewrite (schema_step_probe_ok _ _ _ _ _ _ _ _ _ E).
    unfold after, journal. cbn [snd]. unfold_step.
    destruct last as [lj|]; unfold_calls; repeat run_call; reflexivity.
  - rewrite (schema_step_probe_raise _ _ _ _ _ _ _ _ _ E).
    destruct e as [code| |msg]; simpl; [destruct (code =? 636)|..]; reflexivity.
Qed.

(** C7, as amended.  In a run whose setup returned, nothing is deleted
    while the schemas are processed.  When the loop over the schemas
    returns, which it does whatever the probes did as long as no call
    made outside the [try] blocks raised: with a previous successful run,
    [delete_data_in_bucket] is called on it, once, in the world the loop
    left, and the call returns without error whatever the deletion did,
    an exception of the deletion being logged; without one, nothing is
    deleted.  When an exception leaves the loop, the call raises it and
    nothing is deleted.  So the deletion routine is invoked exactly once
    if and only if a previous successful run exists and the loop returned. *)
Theorem reap_once_after_all_schemas run_id team schemas w job last cred w1 tr1 :
  setup env KEY SECRET run_id team w = (Ok (job, last, cred), w1, tr1) ->
  let x := validate_schema_and_update_table env KEY SECRET lower camel url
             run_id team schemas w in
  let loop := for_each (schema_step env lower camel url job last cred team) schemas w1 in
  count is_delete (tr1 ++ journal loop) = 0%nat /\
  match outcome loop, last with
  | Raise e, _ => x = (Raise e, world loop, tr1 ++ journal loop)
  | Ok _, None => x = (Ok tt, world loop, tr1 ++ journal loop)
  | Ok _, Some last_successful_job =>
      let deleted :=
        env_delete_data_in_bucket env last_successful_job (world loop) in
      x = (Ok tt, snd deleted,
           tr1 ++ journal loop
             ++ Ev_delete_data_in_bucket last_successful_job (fst deleted)
             :: deletion_log last_successful_job (fst deleted))
  end /\
  (count is_delete (journal x) = 1%nat
   <-> last <> None /\ outcome loop = Ok tt) /\
  (Forall (fun ev => propagates ev = None) (journal loop) -> outcome loop = Ok tt).
Proof.
  intros H x loop.
  assert (Hp : Forall (fun ev => propagates ev = None) (journal loop) ->
               outcome loop = Ok tt).
  { intros Hall.
    pose proof (accounted_for_each
                  (schema_step env lower camel url job last cred team) schemas
                  (accounted_schema_step job last cred team)
                  w1) as Ha.
    fold loop in Ha. unfold accounted in Ha.
    destruct (outcome loop) as [[]|e]; [reflexivity|].
    destruct Ha as (pre & ev & Hj & Hev). rewrite Hj in Hall.
    apply Forall_app in Hall as [_ Hl]. apply Forall_cons in Hl as [Hl _].
    congruence. }
  cut (count is_delete (tr1 ++ journal loop) = 0%nat /\
       match outcome loop, last with
       | Raise e, _ => x = (Raise e, world loop, tr1 ++ journal loop)
       | Ok _, None => x = (Ok tt, world loop, tr1 ++ journal loop)
       | Ok _, Some last_successful_job =>
           let deleted :=
             env_delete_data_in_bucket env last_successful_job (world loop) in
           x = (Ok tt, snd deleted,
                tr1 ++ journal loop
                  ++ Ev_delete_data_in_bucket last_successful_job (fst deleted)
                  :: deletion_log last_successful_job (fst deleted))
       end /\
       (count is_delete (journal x) = 1%nat
        <-> last <> None /\ outcome loop = Ok tt)).
  { intros (A & B & C). split; [exact A|]. split; [exact B|].
    split; [exact C | exact Hp]. }
  clear Hp.
  assert (Hz : count is_delete (tr1 ++ journal loop) = 0%nat).
  { rewrite count_app. rewrite (setup_journal _ _ _ _ _ _ _ _ H).
    subst loop.
    rewrite (count_for_each_zero is_delete
               (schema_step env lower camel url job last cred team)
               (step_never_deletes job last cred team) schemas w1).
    reflexivity. }
  split; [exact Hz|].
  assert (Hx : x = after tr1 (bind (fun _ => loop) (fun _ => reap env last) w1)).
  { subst x loop. apply (main_run _ _ _ _ _ _ _ _ _ H). }
  unfold bind, after, outcome, world, journal in *. cbn [fst snd] in *.
  destruct loop as [[[[]|e] w2] t2]; cbn [fst snd] in *.
  - destruct last as [lj|].
    + unfold reap, deletion_log in *. revert Hx. unfold_calls.
      destruct (env_delete_data_in_bucket env lj w2) as [[[]|e] w3]; cbn [fst snd];
        intros ->; cbn [fst snd]; (split; [reflexivity|]);
        rewrite app_assoc, count_app, Hz; cbn;
        (split; [intros _; split; [discriminate | reflexivity] | reflexivity]).
    + cbn in Hx. rewrite app_nil_r in Hx. rewrite Hx. split; [reflexivity|]. cbn [snd].
      rewrite Hz. split; [discriminate | intros [Hn _]; congruence].
  - rewrite Hx. split; [destruct last; reflexivity|]. cbn [snd].
    rewrite Hz. split; [discriminate | intros [_ Hn]; discriminate].
Qed.

(** *** The probe *)

(** C8, as amended.  When reading the columns returns, [validate_schema]
    returns the descriptor with the five fields credential, name, format
    "Parquet", url_pattern and team_id, and nothing else.  The column list
    read is stored on the local, unsaved table object of the probe only:
    it is not part of what is returned, and what the loop body does next
    is determined by the descriptor and the world, not by the columns
    read. *)
Theorem probe_returns_descriptor_only job last cred team id nm w cols w1 :
  env_get_columns env (probe_table lower camel url cred job team nm) (Some false) w = (Ok cols, w1) ->
  let tn := table_name_of lower job nm in
  let u := new_url_pattern_of camel url job nm in
  let data := {| p_credential := cred; p_name := tn; p_format := "Parquet";
                 p_url_pattern := u; p_team_id := team |} in
  let probe := Ev_get_columns (DataWarehouseTable_init data) (Some false) (Ok cols) in
  validate_schema env cred tn u team w = (Ok data, w1, [probe]) /\
  validate_schema_frame env cred tn u team w
    = (Ok (set_columns (DataWarehouseTable_init data) cols, data), w1, [probe]) /\
  tbl_columns (set_columns (DataWarehouseTable_init data) cols) = cols /\
  schema_step env lower camel url job last cred team (id, nm) w
    = after [probe] (after_probe env lower camel url job last cred team id nm w1).
Proof.
  intros H tn u data probe. subst tn u data probe.
  rewrite validate_schema_run, validate_schema_frame_run.
  pose proof H as H'. unfold probe_table in H'. rewrite H'.
  repeat split. exact (schema_step_probe_ok _ _ _ _ _ _ _ _ _ H).
Qed.

Lemma step_probes_once job last cred team sch w :
  probe_calls (journal (schema_step env lower camel url job last cred team sch w))
    = [expected_probe lower camel url job sch].
Proof.
  destruct sch as [id nm].
  destruct (env_get_columns env (probe_table lower camel url cred job team nm) (Some false) w)
    as [[cols|e] w1] eqn:E.
  - rewrite (schema_step_probe_ok _ _ _ _ _ _ _ _ _ E).
    unfold after, journal. cbn [snd]. unfold_step.
    destruct last as [lj|]; unfold_calls; repeat run_call; reflexivity.
  - rewrite (schema_step_probe_raise _ _ _ _ _ _ _ _ _ E).
    destruct e as [code| |msg]; simpl; [destruct (code =? 636)|..]; reflexivity.
Qed.

Lemma loop_probes job last cred team l w :
  exists n,
    probe_calls (journal (for_each (schema_step env lower camel url job last cred team) l w))
      = take n (map (expected_probe lower camel url job) l) /\
    (outcome (for_each (schema_step env lower camel url job last cred team) l w) = Ok tt ->
     n = length l).
Proof.
  revert w. induction l as [|sch l IH]; intros w.
  - exists 0%nat. split; reflexivity.
  - pose proof (step_probes_once job last cred team sch w) as Hp.
    destruct (schema_step env lower camel url job last cred team sch w) as [[[[]|e] w1] t1] eqn:E.
    + rewrite (for_each_cons _ _ _ _ _ _ E).
      destruct (IH w1) as (n & Hn & Hlen). exists (S n).
      unfold after, outcome, journal in *. cbn [fst snd] in *.
      rewrite probe_calls_app, Hp, Hn. split; [reflexivity|].
      intros Hok. simpl. f_equal. apply Hlen, Hok.
    + rewrite (for_each_cons_raise _ _ _ _ _ _ _ E). exists 1%nat.
      unfold outcome, journal in *. cbn [fst snd] in *. split.
      * rewrite Hp. simpl. rewrite take_0. reflexivity.
      * discriminate.
Qed.

(** C9.  In a run whose setup returned, the probes are made in the order
    of the input list, and the probe of a schema is called on the table
    name lower(prefix-or-empty + source_type + "_" + schema name) and on
    the URL pattern job.url_pattern_by_schema(camel_to_snake_case(schema
    name)); when the call returns, every schema of the list has been
    probed so. *)
Theorem probes_use_prefixed_lowercase_name run_id team schemas w job last cred w1 tr1 :
  setup env KEY SECRET run_id team w = (Ok (job, last, cred), w1, tr1) ->
  let x := validate_schema_and_update_table env KEY SECRET lower camel url run_id team schemas w in
  let expected :=
    map (fun sch : string * string =>
           (lower (or_empty (src_prefix (job_pipeline job))
                   +:+ src_source_type (job_pipeline job) +:+ "_" +:+ snd sch),
            url job (camel (snd sch)))) schemas in
  exists n,
    probe_calls (journal x) = take n expected /\
    (outcome x = Ok tt -> n = length schemas).
Proof.
  intros H x expected. subst x expected.
  rewrite (main_run _ _ _ _ _ _ _ _ _ H).
  rewrite (setup_journal _ _ _ _ _ _ _ _ H).
  destruct (loop_probes job last cred team schemas w1) as (n & Hn & Hlen).
  exists n.
  destruct (for_each (schema_step env lower camel url job last cred team) schemas w1)
    as [[[[]|e] w2] t2] eqn:L.
  - rewrite (bind_ok (for_each (schema_step env lower camel url job last cred team) schemas)
               (fun _ => reap env last) w1 tt w2 t2 L).
    destruct (reap_run last w2) as [Ho Hj].
    destruct (reap_journal_quiet _ _ Hj) as (Hq & _ & _).
    destruct (reap env last w2) as [[r3 w3] t3].
    unfold after, outcome, world, journal in *. cbn [fst snd] in *.
    split; [|intros _; apply Hlen; reflexivity].
    rewrite !probe_calls_app, Hn, Hq. cbn [probe_calls app].
    rewrite app_nil_r. reflexivity.
  - rewrite (bind_raise (for_each (schema_step env lower camel url job last cred team) schemas)
               (fun _ => reap env last) w1 e w2 t2 L).
    unfold after, outcome, world, journal in *. cbn [fst snd] in *.
    split; [|discriminate].
    rewrite probe_calls_app, Hn. reflexivity.
Qed.

(** C10, as amended.  With an empty list of schemas and a setup that
    returned: the journal is the four setup calls (logger, job record,
    latest-run lookup, credential get-or-create) followed, when there is a
    previous successful run, by the call of [delete_data_in_bucket] on it
    in the world the setup left, and by a log entry when that call raised;
    no column read and no catalog or schema store call is made; the call
    returns without error. *)
Theorem empty_schemas_still_reaps run_id team w job last cred w1 tr1 :
  setup env KEY SECRET run_id team w = (Ok (job, last, cred), w1, tr1) ->
  let x := validate_schema_and_update_table env KEY SECRET lower camel url
             run_id team [] w in
  let setup_calls :=
    [Ev_bind_temporal_worker_logger team (Ok tt);
     Ev_get_external_data_job run_id (Ok job);
     Ev_get_latest_run_if_exists (job_team_id job) (job_pipeline_id job) (Ok last);
     Ev_get_or_create_datawarehouse_credential (job_team_id job) KEY SECRET
       (Ok cred)] in
  match last with
  | None => x = (Ok tt, w1, setup_calls)
  | Some last_successful_job =>
      let deleted := env_delete_data_in_bucket env last_successful_job w1 in
      x = (Ok tt, snd deleted,
           setup_calls
             ++ Ev_delete_data_in_bucket last_successful_job (fst deleted)
             :: deletion_log last_successful_job (fst deleted))
  end /\
  outcome x = Ok tt /\
  count is_get_columns (journal x) = 0%nat /\
  count is_store_call (journal x) = 0%nat /\
  (count is_delete (journal x) = 1%nat <-> last <> None).
Proof.
  intros H x setup_calls.
  assert (L : for_each (schema_step env lower camel url job last cred team) [] w1
              = (Ok tt, w1, [])) by reflexivity.
  assert (Hx : x = after (tr1 ++ []) (reap env last w1)).
  { subst x. apply (main_run_loop_ok
                      _ _ _ _ _ _ _ _ _ _ _ H L). }
  rewrite app_nil_r, (setup_journal _ _ _ _ _ _ _ _ H) in Hx.
  fold setup_calls in Hx.
  unfold after, outcome, world, journal in *. cbn [fst snd] in *.
  destruct last as [lj|].
  - unfold reap, deletion_log in *. revert Hx. unfold_calls.
    destruct (env_delete_data_in_bucket env lj w1) as [[[]|e] w3]; cbn [fst snd];
      intros ->; cbn [fst snd]; repeat split; try discriminate; reflexivity.
  - cbn in Hx. rewrite Hx. cbn. repeat split; try discriminate; congruence.
Qed.

End Facts.

(** ** Two runs over the concrete stores *)

Section StoreFacts.
Import Store TwoRuns.
Context (KEY SECRET : string).
Context (lower camel : string -> string) (url : ExternalDataJob -> string -> string).

Lemma store_probe cred job team nm w cols :
  w_storage w !! new_url_pattern_of camel url job nm = Some (Ok cols) ->
  env_get_columns Store.env (probe_table lower camel url cred job team nm) (Some false) w
    = (Ok cols, w).
Proof. intros H. cbn. unfold st_get_columns. cbn. rewrite H. reflexivity. Qed.

Lemma store_step_create job cred team id nm w s cols :
  w_db_up w = true ->
  w_schemas w !! id = Some s -> sch_id s = id -> sch_team_id s = job_team_id job ->
  w_storage w !! new_url_pattern_of camel url job nm = Some (Ok cols) ->
  exists w' tr,
    schema_step Store.env lower camel url job None cred team (id, nm) w = (Ok tt, w', tr) /\
    w_tables w' =
      w_tables w
        ++ [created_row lower camel url job cred team (w_storage w) (length (w_tables w)) nm] /\
    w_schemas w' =
      <[id := attach_table s
                (created_row lower camel url job cred team (w_storage w)
                   (length (w_tables w)) nm)
                (job_created_at job)]> (w_schemas w) /\
    w_storage w' = w_storage w /\ w_db_up w' = true.
Proof.
  intros Hdb Hs Hid Hteam Hst.
  rewrite (schema_step_probe_ok Store.env lower camel url job None cred team id nm w cols w
             (store_probe cred job team nm w cols Hst)).
  unfold after, outcome, world, journal.
  unfold_step. unfold_calls. cbn.
  unfold st_acreate_datawarehousetable. rewrite Hdb. cbn.
  unfold st_get_columns. cbn. rewrite Hst. cbn.
  unfold st_asave_datawarehousetable. cbn. rewrite Hdb. cbn.
  unfold st_aget_schema_by_id, find_schema. cbn. rewrite Hs, Hteam, Z.eqb_refl. cbn.
  unfold st_asave_external_data_schema. cbn. rewrite Hdb. cbn.
  eexists _, _. split; [reflexivity|]. cbn.
  unfold created_row, read_columns. rewrite Hst, Hid.
  repeat split; try assumption.
  rewrite insert_app_r_alt by lia. rewrite Nat.sub_diag. reflexivity.
Qed.

Lemma store_step_update job lj cred team id nm w s t k row cols :
  w_db_up w = true ->
  w_schemas w !! id = Some s -> sch_id s = id ->
  sch_team_id s = team -> team = job_team_id job ->
  sch_table s = Some t -> tbl_pk t = Some k ->
  w_tables w !! k = Some row -> tbl_pk row = Some k ->
  w_storage w !! new_url_pattern_of camel url job nm = Some (Ok cols) ->
  exists w' tr,
    schema_step Store.env lower camel url job (Some lj) cred team (id, nm) w = (Ok tt, w', tr) /\
    w_tables w' = <[k := updated_row camel url job (w_storage w) row nm]> (w_tables w) /\
    w_schemas w' =
      <[id := attach_table s (updated_row camel url job (w_storage w) row nm)
                (job_created_at job)]> (w_schemas w) /\
    w_storage w' = w_storage w /\ w_db_up w' = true /\
    count is_create tr = 0%nat.
Proof.
  intros Hdb Hs Hid Hteam Hjob Ht Hk Hrow Hpk Hst.
  rewrite (schema_step_probe_ok Store.env lower camel url job (Some lj) cred team id nm w
             cols w (store_probe cred job team nm w cols Hst)).
  unfold after, outcome, world, journal.
  unfold_step. unfold_calls. cbn.
  unfold st_get_table_by_schema_id, find_schema. cbn.
  rewrite Hs, Hteam, Z.eqb_refl, Ht, Hk, Hrow. cbn.
  unfold st_asave_datawarehousetable. cbn. rewrite Hdb, Hpk. cbn.
  unfold st_get_columns. cbn. rewrite Hst. cbn. rewrite Hdb, Hpk. cbn.
  unfold st_aget_schema_by_id, find_schema. cbn.
  rewrite Hs, Hteam, <- Hjob, Z.eqb_refl. cbn.
  unfold st_asave_external_data_schema. cbn. rewrite Hdb. cbn.
  eexists _, _. split; [reflexivity|]. cbn.
  unfold updated_row, read_columns. rewrite Hst, Hid.
  repeat split; try assumption.
  apply list_insert_insert_eq.
Qed.

Lemma linked_insert_fresh team ss k l id x :
  ~ In id (map fst l) ->
  linked team ss k l -> linked team (<[id := x]> ss) k l.
Proof.
  revert k. induction l as [|[id' nm'] l IH]; intros k Hni; [trivial|].
  cbn in *. intros [(s & t & Hs & Hrest) Hl]. split.
  - exists s, t. split; [|exact Hrest].
    rewrite lookup_insert_ne; [exact Hs | intros ->; apply Hni; left; reflexivity].
  - apply IH; [intros Hin; apply Hni; right; exact Hin | exact Hl].
Qed.


Lemma keyed_created_rows job cred team st k l :
  keyed k (created_rows lower camel url job cred team st k l).
Proof.
  revert k. induction l as [|[id nm] l IH]; intros k; cbn; [trivial|].
  split; [reflexivity | apply IH].
Qed.

Lemma length_created_rows job cred team st k l :
  length (created_rows lower camel url job cred team st k l) = length l.
Proof.
  revert k. induction l as [|[id nm] l IH]; intros k; cbn; [reflexivity|].
  f_equal. apply IH.
Qed.

Lemma length_updated_rows job st l rows :
  length rows = length l ->
  length (updated_rows camel url job st l rows) = length l.
Proof.
  revert rows. induction l as [|[id nm] l IH]; intros [|row rows]; cbn;
    try discriminate; try reflexivity.
  intros [= H]. f_equal. apply IH, H.
Qed.

Lemma store_loop_create job cred team l :
  team = job_team_id job ->
  NoDup (map fst l) ->
  forall w,
    w_db_up w = true ->
    recorded team (w_schemas w) l ->
    readable camel url job (w_storage w) l ->
    exists w' tr,
      for_each (schema_step Store.env lower camel url job None cred team) l w = (Ok tt, w', tr) /\
      w_tables w' =
        w_tables w
          ++ created_rows lower camel url job cred team (w_storage w)
               (length (w_tables w)) l /\
      linked team (w_schemas w') (length (w_tables w)) l /\
      (forall id, ~ In id (map fst l) -> w_schemas w' !! id = w_schemas w !! id) /\
      w_storage w' = w_storage w /\ w_db_up w' = true.
Proof.
  intros Hteam. induction l as [|[id nm] l IH]; intros Hnd w Hdb Hrec Hread.
  - exists w, []. cbn. rewrite app_nil_r. repeat split; trivial.
  - cbn [map fst] in Hnd. apply NoDup_cons in Hnd as [Hni Hnd].
    rewrite list_elem_of_In in Hni.
    destruct (Hrec id nm (or_introl eq_refl)) as (s & Hs & Hid & Hst).
    destruct (Hread id nm (or_introl eq_refl)) as (cols & Hcols).
    destruct (store_step_create job cred team id nm w s cols Hdb Hs Hid
                (eq_trans Hst Hteam) Hcols)
      as (w1 & t1 & E1 & Ht1 & Hs1 & Hst1 & Hdb1).
    destruct (IH Hnd w1 Hdb1) as (w' & t2 & E2 & Ht2 & Hl2 & Hf2 & Hst2 & Hdb2).
    { intros id' nm' Hin. destruct (Hrec id' nm' (or_intror Hin)) as (s' & Hs' & R).
      exists s'. split; [|exact R]. rewrite Hs1.
      rewrite lookup_insert_ne; [exact Hs'|].
      intros ->. apply Hni. apply (in_map fst _ _ Hin). }
    { intros id' nm' Hin. rewrite Hst1. apply (Hread id' nm' (or_intror Hin)). }
    exists w', (t1 ++ t2).
    rewrite (for_each_cons _ _ _ _ _ _ E1), E2.
    split; [reflexivity|].
    rewrite Ht2, Ht1, Hst1, Hst2, length_app, Nat.add_1_r, <- app_assoc.
    split; [reflexivity|]. cbn [linked map fst]. repeat split; trivial.
    + eexists _, _. rewrite Hf2 by exact Hni. rewrite Hs1, lookup_insert_eq.
      split; [reflexivity|]. cbn. repeat split; trivial.
    + rewrite Ht1, length_app, Nat.add_1_r in Hl2. exact Hl2.
    + intros id0 Hni0. rewrite Hf2, Hs1.
      * apply lookup_insert_ne. intros ->. apply Hni0. left; reflexivity.
      * intros Hin. apply Hni0. right; exact Hin.
Qed.

Lemma store_loop_update job lj cred team l :
  team = job_team_id job ->
  NoDup (map fst l) ->
  forall w pre rows post,
    w_db_up w = true ->
    w_tables w = pre ++ rows ++ post ->
    length rows = length l ->
    keyed (length pre) rows ->
    linked team (w_schemas w) (length pre) l ->
    readable camel url job (w_storage w) l ->
    exists w' tr,
      for_each (schema_step Store.env lower camel url job (Some lj) cred team) l w
        = (Ok tt, w', tr) /\
      w_tables w' = pre ++ updated_rows camel url job (w_storage w) l rows ++ post /\
      w_storage w' = w_storage w /\ w_db_up w' = true /\
      count is_create tr = 0%nat.
Proof.
  intros Hteam. induction l as [|[id nm] l IH];
    intros Hnd w pre rows post Hdb Ht Hlen Hkey Hl Hread.
  - destruct rows; [|discriminate]. exists w, []. cbn. repeat split; trivial.
  - destruct rows as [|row rows]; [discriminate|].
    cbn [map fst] in Hnd. apply NoDup_cons in Hnd as [Hni Hnd].
    rewrite list_elem_of_In in Hni.
    cbn in Hlen, Hkey, Hl. injection Hlen as Hlen.
    destruct Hkey as [Hpk Hkey].
    destruct Hl as [(s & t & Hs & Hid & Hst & Htab & Hk) Hl].
    destruct (Hread id nm (or_introl eq_refl)) as (cols & Hcols).
    assert (Hrow : w_tables w !! length pre = Some row).
    { rewrite Ht. cbn. apply list_lookup_middle. reflexivity. }
    destruct (store_step_update job lj cred team id nm w s t (length pre) row cols
                Hdb Hs Hid Hst Hteam Htab Hk Hrow Hpk Hcols)
      as (w1 & t1 & E1 & Ht1 & Hs1 & Hst1 & Hdb1 & Hc1).
    assert (Ht1' : w_tables w1 =
              (pre ++ [updated_row camel url job (w_storage w) row nm])
                ++ rows ++ post).
    { rewrite Ht1, Ht. cbn. rewrite insert_app_r_alt by lia.
      rewrite Nat.sub_diag, <- app_assoc. reflexivity. }
    destruct (IH Hnd w1 _ rows post Hdb1 Ht1' Hlen)
      as (w' & t2 & E2 & Ht2 & Hst2 & Hdb2 & Hc2).
    { rewrite length_app, Nat.add_1_r. exact Hkey. }
    { rewrite length_app, Nat.add_1_r, Hs1.
      apply linked_insert_fresh; assumption. }
    { intros id' nm' Hin. rewrite Hst1. apply (Hread id' nm' (or_intror Hin)). }
    exists w', (t1 ++ t2).
    rewrite (for_each_cons _ _ _ _ _ _ E1), E2.
    split; [reflexivity|].
    rewrite Ht2, Hst1, Hst2, <- app_assoc, count_app, Hc1, Hc2.
    repeat split; trivial.
Qed.

Lemma store_setup run_id team w job :
  lookup_job run_id (w_jobs w) = Some job ->
  exists w1 tr1,
    setup Store.env KEY SECRET run_id team w =
      (Ok (job,
           latest_run (job_team_id job) (job_pipeline_id job) (w_jobs w),
           credential_for (job_team_id job) KEY SECRET w), w1, tr1) /\
    w_tables w1 = w_tables w /\ w_schemas w1 = w_schemas w /\
    w_storage w1 = w_storage w /\ w_db_up w1 = w_db_up w.
Proof.
  intros H. unfold setup. unfold_calls. cbn.
  unfold st_get_external_data_job. rewrite H. cbn.
  unfold credential_for, st_get_or_create_datawarehouse_credential.
  destruct (List.find _ (w_credentials w)) as [c|]; cbn;
    eexists _, _; (split; [reflexivity|]); repeat split.
Qed.

Lemma store_reap last w :
  exists w3 tr3,
    reap Store.env last w = (Ok tt, w3, tr3) /\
    w_tables w3 = w_tables w /\ count is_create tr3 = 0%nat.
Proof.
  destruct last as [lj|]; [|exists w, []; repeat split].
  unfold reap. unfold_calls. cbn. unfold st_delete_data_in_bucket.
  destruct (w_bucket_up w); cbn; eexists _, _; (split; [reflexivity|]); repeat split.
Qed.

Lemma created_rows_urls job cred team st k l :
  map tbl_url_pattern (created_rows lower camel url job cred team st k l)
    = map (fun sch : string * string => url job (camel (snd sch))) l.
Proof.
  revert k. induction l as [|[id nm] l IH]; intros k; cbn; [reflexivity|].
  rewrite IH. reflexivity.
Qed.

Lemma updated_rows_fields job st l rows :
  length rows = length l ->
  map tbl_url_pattern (updated_rows camel url job st l rows)
    = map (fun sch : string * string => url job (camel (snd sch))) l /\
  map tbl_pk (updated_rows camel url job st l rows) = map tbl_pk rows /\
  map tbl_name (updated_rows camel url job st l rows) = map tbl_name rows.
Proof.
  revert rows. induction l as [|[id nm] l IH]; intros [|row rows]; cbn;
    try discriminate; [repeat split|].
  intros [= H]. destruct (IH rows H) as (IH1 & IH2 & IH3).
  rewrite IH1, IH2, IH3. repeat split.
Qed.

(** The two runs in closed form when the first has no predecessor: the
    first creates one Table per schema, the second writes each of them in
    place. *)
Lemma two_runs_closed_form
    run1 run2 job1 job2 jobs' team schemas w0 :
  NoDup (map fst schemas) ->
  w_db_up w0 = true ->
  lookup_job run1 (w_jobs w0) = Some job1 ->
  latest_run (job_team_id job1) (job_pipeline_id job1) (w_jobs w0) = None ->
  lookup_job run2 jobs' = Some job2 ->
  latest_run (job_team_id job2) (job_pipeline_id job2) jobs' = Some job1 ->
  job_team_id job1 = team -> job_team_id job2 = team ->
  recorded team (w_schemas w0) schemas ->
  readable camel url job1 (w_storage w0) schemas ->
  readable camel url job2 (w_storage w0) schemas ->
  let x1 :=
    validate_schema_and_update_table Store.env KEY SECRET lower camel url
      run1 team schemas w0 in
  let x2 :=
    validate_schema_and_update_table Store.env KEY SECRET lower camel url
      run2 team schemas (with_jobs (world x1) jobs') in
  let rows1 :=
    created_rows lower camel url job1 (credential_for team KEY SECRET w0) team
      (w_storage w0) (length (w_tables w0)) schemas in
  outcome x1 = Ok tt /\ outcome x2 = Ok tt /\
  w_tables (world x1) = w_tables w0 ++ rows1 /\
  w_tables (world x2)
    = w_tables w0 ++ updated_rows camel url job2 (w_storage w0) schemas rows1 /\
  count is_create (journal x2) = 0%nat /\
  length (w_tables (world x2)) = length (w_tables (world x1)) /\
  length (w_tables (world x2)) = (length (w_tables w0) + length schemas)%nat /\
  map tbl_pk (w_tables (world x2)) = map tbl_pk (w_tables (world x1)) /\
  map tbl_name (w_tables (world x2)) = map tbl_name (w_tables (world x1)) /\
  map tbl_url_pattern (w_tables (world x1))
    = map tbl_url_pattern (w_tables w0)
        ++ map (fun sch : string * string => url job1 (camel (snd sch))) schemas /\
  map tbl_url_pattern (w_tables (world x2))
    = map tbl_url_pattern (w_tables w0)
        ++ map (fun sch : string * string => url job2 (camel (snd sch))) schemas.
Proof.
  intros Hnd Hdb Hj1 Hl1 Hj2 Hl2 Ht1 Ht2 Hrec Hr1 Hr2 x1 x2 rows1.
  (* first run *)
  destruct (store_setup run1 team w0 job1 Hj1)
    as (wa & tra & Ea & Hta & Hsa & Hsta & Hdba).
  rewrite Hl1, Ht1 in Ea.
  destruct (store_loop_create job1 (credential_for team KEY SECRET w0) team schemas
              (eq_sym Ht1) Hnd wa)
    as (wb & trb & Eb & Htb & Hlb & _ & Hstb & Hdbb).
  { rewrite Hdba. exact Hdb. }
  { rewrite Hsa. exact Hrec. }
  { rewrite Hsta. exact Hr1. }
  assert (E1 : x1 = (Ok tt, wb, (tra ++ trb) ++ [])).
  { subst x1. rewrite (main_run_loop_ok Store.env KEY SECRET lower camel url _ _ _ _ _ _ _ _ _
                         _ _ Ea Eb).
    reflexivity. }
  rewrite Hta, Hsta in Htb. fold rows1 in Htb.
  (* second run *)
  destruct (store_setup run2 team (with_jobs wb jobs') job2 Hj2)
    as (wc & trc & Ec & Htc & Hsc & Hstc & Hdbc).
  cbn [w_jobs with_jobs] in Ec. rewrite Hl2 in Ec.
  cbn [w_tables w_schemas w_storage w_db_up with_jobs] in Htc, Hsc, Hstc, Hdbc.
  destruct (store_loop_update job2 job1
              (credential_for (job_team_id job2) KEY SECRET (with_jobs wb jobs'))
              team schemas (eq_sym Ht2) Hnd wc (w_tables w0) rows1 [])
    as (wd & trd & Ed & Htd & Hstd & Hdbd & Hcd).
  { rewrite Hdbc. exact Hdbb. }
  { rewrite Htc, Htb, app_nil_r. reflexivity. }
  { apply length_created_rows. }
  { apply keyed_created_rows. }
  { rewrite Hsc. rewrite Hta in Hlb. exact Hlb. }
  { rewrite Hstc, Hstb, Hsta. exact Hr2. }
  destruct (store_reap (Some job1) wd) as (we & tre & Ee & Hte & Hce).
  assert (E2 : x2 = (Ok tt, we, (trc ++ trd) ++ tre)).
  { subst x2. rewrite E1. cbn [world fst snd].
    rewrite (main_run_loop_ok Store.env KEY SECRET lower camel url _ _ _ _ _ _ _ _ _
               _ _ Ec Ed).
    rewrite Ee. reflexivity. }
  rewrite Hstc, Hstb, Hsta, app_nil_r in Htd.
  destruct (updated_rows_fields job2 (w_storage w0) schemas rows1
              (length_created_rows _ _ _ _ _ _)) as (Hu & Hp & Hn).
  rewrite E1, E2. unfold outcome, world, journal. cbn [fst snd].
  rewrite Hte, Htd, Htb.
  repeat split.
  - rewrite !count_app, Hcd, Hce.
    rewrite (setup_journal Store.env KEY SECRET _ _ _ _ _ _ _ _ Ec). reflexivity.
  - rewrite !length_app, length_updated_rows; [|apply length_created_rows].
    unfold rows1. rewrite length_created_rows. reflexivity.
  - rewrite length_app, length_updated_rows; [reflexivity|].
    apply length_created_rows.
  - rewrite !map_app, Hp. reflexivity.
  - rewrite !map_app, Hn. reflexivity.
  - rewrite map_app. unfold rows1. rewrite created_rows_urls. reflexivity.
  - rewrite map_app, Hu. reflexivity.
Qed.
Lemma kept_refl rows : kept rows rows.
Proof. intros k row H. exists row. repeat split. exact H. Qed.

Lemma kept_trans a b c : kept a b -> kept b c -> kept a c.
Proof.
  intros Hab Hbc k row H. destruct (Hab k row H) as (r1 & H1 & P1 & N1).
  destruct (Hbc k r1 H1) as (r2 & H2 & P2 & N2). exists r2.
  split; [exact H2|]. split; congruence.
Qed.

Lemma kept_length a b : kept a b -> (length a <= length b)%nat.
Proof.
  intros H. destruct (decide (length a <= length b)%nat) as [|Hn]; [assumption|].
  exfalso. assert (Hl : (length b < length a)%nat) by lia.
  destruct (lookup_lt_is_Some_2 a (length b) Hl) as [row Hr].
  destruct (H _ _ Hr) as (row' & Hr' & _).
  apply lookup_lt_Some in Hr'. lia.
Qed.

Lemma kept_same_length a b :
  kept a b -> length b = length a ->
  map tbl_pk b = map tbl_pk a /\ map tbl_name b = map tbl_name a.
Proof.
  intros H Hl. split; apply list_eq; intros i; rewrite !list_lookup_fmap.
  - destruct (a !! i) as [row|] eqn:Ha.
    + destruct (H _ _ Ha) as (row' & -> & P & _). cbn. congruence.
    + apply lookup_ge_None in Ha. rewrite <- Hl in Ha.
      apply lookup_ge_None in Ha. rewrite Ha. reflexivity.
  - destruct (a !! i) as [row|] eqn:Ha.
    + destruct (H _ _ Ha) as (row' & -> & _ & N). cbn. congruence.
    + apply lookup_ge_None in Ha. rewrite <- Hl in Ha.
      apply lookup_ge_None in Ha. rewrite Ha. reflexivity.
Qed.

Lemma well_keyed_app rows row :
  well_keyed rows -> tbl_pk row = Some (length rows) -> well_keyed (rows ++ [row]).
Proof.
  intros H Hp k r Hk. apply lookup_app_Some in Hk as [Hk | [Hl Hk]].
  - exact (H _ _ Hk).
  - apply list_lookup_singleton_Some in Hk as [Hz ->].
    rewrite Hp. f_equal. lia.
Qed.

Lemma well_keyed_insert rows k row :
  well_keyed rows -> tbl_pk row = Some k -> well_keyed (<[k := row]> rows).
Proof.
  intros H Hp j r Hj. apply list_lookup_insert_Some in Hj as [(-> & -> & _) | [_ Hj]].
  - exact Hp.
  - exact (H _ _ Hj).
Qed.

Lemma kept_app rows row : kept rows (rows ++ [row]).
Proof.
  intros k r Hk. exists r. split; [|split; reflexivity].
  apply lookup_app_l_Some. exact Hk.
Qed.

Lemma kept_insert rows k old row :
  rows !! k = Some old -> tbl_pk row = tbl_pk old -> tbl_name row = tbl_name old ->
  kept rows (<[k := row]> rows).
Proof.
  intros Ho Hp Hn j r Hj. destruct (decide (j = k)) as [->|Hne].
  - exists row. rewrite list_lookup_insert_eq by (apply lookup_lt_Some in Ho; exact Ho).
    split; [reflexivity|]. split; congruence.
  - exists r. rewrite list_lookup_insert_ne by congruence.
    split; [exact Hj|]. split; reflexivity.
Qed.

(** One iteration over the stores, whatever the previous run: the Table
    of the schema is found and written in place, or created. *)
Lemma store_step job last cred team id nm w s cols :
  well_keyed (w_tables w) ->
  w_db_up w = true ->
  w_schemas w !! id = Some s -> sch_id s = id -> sch_team_id s = team ->
  team = job_team_id job ->
  w_storage w !! new_url_pattern_of camel url job nm = Some (Ok cols) ->
  exists w' tr row k,
    schema_step Store.env lower camel url job last cred team (id, nm) w
      = (Ok tt, w', tr) /\
    w_schemas w' = <[id := attach_table s row (job_created_at job)]> (w_schemas w) /\
    tbl_pk row = Some k /\
    tbl_url_pattern row = new_url_pattern_of camel url job nm /\
    w_storage w' = w_storage w /\ w_db_up w' = true /\
    ((count is_create tr = 1%nat /\ k = length (w_tables w) /\
      w_tables w' = w_tables w ++ [row]) \/
     (count is_create tr = 0%nat /\ last <> None /\
      w_tables w' = <[k := row]> (w_tables w) /\
      exists t old, sch_table s = Some t /\ tbl_pk t = Some k /\
                    w_tables w !! k = Some old /\ tbl_name row = tbl_name old)) /\
    (forall t k0, last <> None -> sch_table s = Some t -> tbl_pk t = Some k0 ->
       (k0 < length (w_tables w))%nat -> count is_create tr = 0%nat /\ k = k0).
Proof.
  intros Hwf Hdb Hs Hid Hteam Hjob Hst.
  rewrite (schema_step_probe_ok Store.env lower camel url job last cred team id nm w
             cols w (store_probe cred job team nm w cols Hst)).
  assert (Hfound : forall lj t k old,
            last = Some lj -> sch_table s = Some t -> tbl_pk t = Some k ->
            w_tables w !! k = Some old ->
            exists w' tr row,
              after_probe Store.env lower camel url job last cred team id nm w
                = (Ok tt, w', tr) /\
              w_schemas w' = <[id := attach_table s row (job_created_at job)]> (w_schemas w) /\
              tbl_pk row = Some k /\
              tbl_url_pattern row = new_url_pattern_of camel url job nm /\
              w_storage w' = w_storage w /\ w_db_up w' = true /\
              count is_create tr = 0%nat /\
              w_tables w' = <[k := row]> (w_tables w) /\
              tbl_name row = tbl_name old).
  { intros lj t k old -> Ht Hk Hrow.
    pose proof (Hwf _ _ Hrow) as Hpk.
    unfold_step. unfold_calls. cbn.
    unfold st_get_table_by_schema_id, find_schema. cbn.
    rewrite Hs, Hteam, Z.eqb_refl, Ht, Hk, Hrow. cbn.
    unfold st_asave_datawarehousetable. cbn. rewrite Hdb, Hpk. cbn.
    unfold st_get_columns. cbn. rewrite Hst. cbn. rewrite Hdb, Hpk. cbn.
    unfold st_aget_schema_by_id, find_schema. cbn.
    rewrite Hs, Hteam, <- Hjob, Z.eqb_refl. cbn.
    unfold st_asave_external_data_schema. cbn. rewrite Hdb. cbn.
    eexists _, _, _. split; [reflexivity|]. cbn. rewrite Hid.
    repeat split; try assumption.
    apply list_insert_insert_eq. }
  assert (Hnew : (forall lj t k old, last = Some lj -> sch_table s = Some t ->
                    tbl_pk t = Some k -> w_tables w !! k = Some old -> False) ->
            exists w' tr row,
              after_probe Store.env lower camel url job last cred team id nm w
                = (Ok tt, w', tr) /\
              w_schemas w' = <[id := attach_table s row (job_created_at job)]> (w_schemas w) /\
              tbl_pk row = Some (length (w_tables w)) /\
              tbl_url_pattern row = new_url_pattern_of camel url job nm /\
              w_storage w' = w_storage w /\ w_db_up w' = true /\
              count is_create tr = 1%nat /\
              w_tables w' = w_tables w ++ [row]).
  { intros Hno.
    assert (Hlook : last <> None -> st_get_table_by_schema_id id team w = (Ok None, w)).
    { destruct last as [lj|]; [intros _|congruence].
      unfold st_get_table_by_schema_id, find_schema.
      rewrite Hs, Hteam, Z.eqb_refl.
      destruct (sch_table s) as [t|] eqn:Ht; [|reflexivity].
      destruct (tbl_pk t) as [k|] eqn:Hk; [|reflexivity].
      destruct (w_tables w !! k) as [old|] eqn:Hrow; [|reflexivity].
      exfalso. exact (Hno lj t k old eq_refl eq_refl Hk Hrow). }
    unfold_step. unfold_calls. cbn.
    destruct last as [lj|].
    - rewrite Hlook by discriminate. cbn.
      unfold st_acreate_datawarehousetable. rewrite Hdb. cbn.
      unfold st_get_columns. cbn. rewrite Hst. cbn.
      unfold st_asave_datawarehousetable. cbn. rewrite Hdb. cbn.
      unfold st_aget_schema_by_id, find_schema. cbn.
      rewrite Hs, Hteam, <- Hjob, Z.eqb_refl. cbn.
      unfold st_asave_external_data_schema. cbn. rewrite Hdb. cbn.
      eexists _, _, _. split; [reflexivity|]. cbn. rewrite Hid.
      repeat split; try assumption.
      rewrite insert_app_r_alt by lia. rewrite Nat.sub_diag. reflexivity.
    - unfold st_acreate_datawarehousetable. rewrite Hdb. cbn.
      unfold st_get_columns. cbn. rewrite Hst. cbn.
      unfold st_asave_datawarehousetable. cbn. rewrite Hdb. cbn.
      unfold st_aget_schema_by_id, find_schema. cbn.
      rewrite Hs, Hteam, <- Hjob, Z.eqb_refl. cbn.
      unfold st_asave_external_data_schema. cbn. rewrite Hdb. cbn.
      eexists _, _, _. split; [reflexivity|]. cbn. rewrite Hid.
      repeat split; try assumption.
      rewrite insert_app_r_alt by lia. rewrite Nat.sub_diag. reflexivity. }
  assert (Hcases :
            (exists lj t k old, last = Some lj /\ sch_table s = Some t /\
                                tbl_pk t = Some k /\ w_tables w !! k = Some old) \/
            (forall lj t k old, last = Some lj -> sch_table s = Some t ->
               tbl_pk t = Some k -> w_tables w !! k = Some old -> False)).
  { destruct last as [lj|]; [|right; intros ? ? ? ? [=]].
    destruct (sch_table s) as [t|]; [|right; intros ? ? ? ? _ [=]].
    destruct (tbl_pk t) as [k|] eqn:Hk;
      [|right; intros ? ? ? ? _ [= <-]; congruence].
    destruct (w_tables w !! k) as [old|] eqn:Hrow.
    - left. exists lj, t, k, old. repeat split; assumption.
    - right. intros ? ? ? ? _ [= <-] Hk' Hrow'. congruence. }
  destruct Hcases as [(lj & t & k & old & Hl & Ht & Hk & Hrow) | Hno].
  - destruct (Hfound lj t k old Hl Ht Hk Hrow)
      as (w' & tr & row & E & A1 & A2 & A3 & A4 & A5 & A6 & A7 & A8).
    rewrite E. unfold after, outcome, world, journal. cbn [fst snd app].
    eexists _, _, row, k. split; [reflexivity|].
    change (count is_create (_ :: tr)) with (count is_create tr).
    split; [exact A1|]. split; [exact A2|]. split; [exact A3|].
    split; [exact A4|]. split; [exact A5|]. split.
    + right. split; [exact A6|]. split; [congruence|]. split; [exact A7|].
      exists t, old. repeat split; assumption.
    + intros t1 k0 _ Ht1 Hk0 _. split; [exact A6|]. congruence.
  - destruct (Hnew Hno) as (w' & tr & row & E & A1 & A2 & A3 & A4 & A5 & A6 & A7).
    rewrite E. unfold after, outcome, world, journal. cbn [fst snd app].
    eexists _, _, row, _. split; [reflexivity|].
    change (count is_create (_ :: tr)) with (count is_create tr).
    split; [exact A1|]. split; [exact A2|]. split; [exact A3|].
    split; [exact A4|]. split; [exact A5|]. split.
    + left. repeat split; assumption.
    + intros t1 k0 Hlast Ht1 Hk0 Hlt. exfalso.
      destruct last as [lj|]; [|congruence].
      destruct (lookup_lt_is_Some_2 _ _ Hlt) as [old Hold].
      exact (Hno lj t1 k0 old eq_refl Ht1 Hk0 Hold).
Qed.


Lemma schema_table_mono team ss ss' rows rows' id k u :
  ss' !! id = ss !! id -> (length rows <= length rows')%nat ->
  schema_table team ss rows id k u -> schema_table team ss' rows' id k u.
Proof.
  intros Hs Hl (s & t & A1 & A2 & A3 & A4 & A5 & A6 & A7).
  exists s, t. rewrite Hs. repeat split; try assumption. lia.
Qed.

(** The loop over the stores: every schema ends up with its record
    referring to a Table of the catalog that carries the URL pattern of
    the job; and with a previous run, schemas that had a Table keep it and
    nothing is created. *)
Lemma store_loop job last cred team l :
  team = job_team_id job ->
  NoDup (map fst l) ->
  forall w,
    well_keyed (w_tables w) ->
    w_db_up w = true ->
    recorded team (w_schemas w) l ->
    readable camel url job (w_storage w) l ->
    exists w' tr,
      for_each (schema_step Store.env lower camel url job last cred team) l w
        = (Ok tt, w', tr) /\
      well_keyed (w_tables w') /\ w_db_up w' = true /\
      w_storage w' = w_storage w /\
      kept (w_tables w) (w_tables w') /\
      length (w_tables w') = (length (w_tables w) + count is_create tr)%nat /\
      (count is_create tr <= length l)%nat /\
      (forall id, ~ In id (map fst l) -> w_schemas w' !! id = w_schemas w !! id) /\
      (forall id nm, In (id, nm) l ->
         exists k, schema_table team (w_schemas w') (w_tables w') id k
                     (url job (camel nm))) /\
      (last <> None ->
       (forall id nm, In (id, nm) l ->
          exists k u, schema_table team (w_schemas w) (w_tables w) id k u) ->
       count is_create tr = 0%nat /\
       forall id nm k u, In (id, nm) l ->
         schema_table team (w_schemas w) (w_tables w) id k u ->
         schema_table team (w_schemas w') (w_tables w') id k (url job (camel nm))).
Proof.
  intros Hteam. induction l as [|[id nm] l IH]; intros Hnd w Hwf Hdb Hrec Hread.
  - exists w, []. split; [reflexivity|]. cbn [count length].
    repeat split; trivial; try lia.
    + apply kept_refl.
    + intros id nm [].
    + intros id nm k u [].
  - cbn [map fst] in Hnd. apply NoDup_cons in Hnd as [Hni Hnd].
    rewrite list_elem_of_In in Hni.
    destruct (Hrec id nm (or_introl eq_refl)) as (s & Hs & Hid & Hst).
    destruct (Hread id nm (or_introl eq_refl)) as (cols & Hcols).
    destruct (store_step job last cred team id nm w s cols Hwf Hdb Hs Hid Hst Hteam Hcols)
      as (w1 & t1 & row & k & E1 & Hs1 & Hpk & Hurl & Hst1 & Hdb1 & Hcase & Hkeep).
    assert (Hwf1 : well_keyed (w_tables w1)).
    { destruct Hcase as [(_ & -> & ->) | (_ & _ & -> & _)].
      - apply well_keyed_app; assumption.
      - apply well_keyed_insert; assumption. }
    assert (Hk1 : kept (w_tables w) (w_tables w1)).
    { destruct Hcase as [(_ & _ & ->) | (_ & _ & -> & t & old & _ & Hkt & Hold & Hn)].
      - apply kept_app.
      - apply (kept_insert _ _ old); [exact Hold | | exact Hn].
        rewrite Hpk. symmetry. exact (Hwf _ _ Hold). }
    assert (Hlen1 : length (w_tables w1)
                    = (length (w_tables w) + count is_create t1)%nat).
    { destruct Hcase as [(-> & _ & ->) | (-> & _ & -> & _)].
      - rewrite length_app. reflexivity.
      - rewrite length_insert. lia. }
    assert (Hc1 : (count is_create t1 <= 1)%nat)
      by (destruct Hcase as [(-> & _) | (-> & _)]; lia).
    assert (Hklt : (k < length (w_tables w1))%nat).
    { destruct Hcase as [(_ & -> & ->) | (_ & _ & -> & t & old & _ & _ & Hold & _)].
      - rewrite length_app. cbn. lia.
      - rewrite length_insert. apply lookup_lt_Some in Hold. exact Hold. }
    assert (Hother : forall id', id' <> id -> w_schemas w1 !! id' = w_schemas w !! id').
    { intros id' Hne. rewrite Hs1. apply lookup_insert_ne. congruence. }
    destruct (IH Hnd w1 Hwf1 Hdb1)
      as (w' & t2 & E2 & Hwf2 & Hdb2 & Hst2 & Hk2 & Hlen2 & Hc2 & Hf2 & Hl2 & Hu2).
    { intros id' nm' Hin. destruct (Hrec id' nm' (or_intror Hin)) as (s' & Hs' & R).
      exists s'. split; [|exact R]. rewrite Hother; [exact Hs'|].
      intros ->. apply Hni. apply (in_map fst _ _ Hin). }
    { intros id' nm' Hin. rewrite Hst1. apply (Hread id' nm' (or_intror Hin)). }
    assert (Hhere : schema_table team (w_schemas w') (w_tables w') id k
                      (url job (camel nm))).
    { exists (attach_table s row (job_created_at job)), row.
      rewrite (Hf2 id Hni), Hs1, lookup_insert_eq. cbn.
      repeat split; try assumption.
      pose proof (kept_length _ _ Hk2). lia. }
    exists w', (t1 ++ t2).
    rewrite (for_each_cons _ _ _ _ _ _ E1), E2.
    split; [reflexivity|]. rewrite count_app.
    split; [exact Hwf2|]. split; [exact Hdb2|].
    split; [congruence|].
    split; [exact (kept_trans _ _ _ Hk1 Hk2)|].
    split; [lia|]. split; [cbn [length]; lia|].
    split; [|split].
    + intros id0 Hni0. rewrite Hf2, Hother.
      * reflexivity.
      * intros ->. apply Hni0. left; reflexivity.
      * intros Hin. apply Hni0. right; exact Hin.
    + intros id0 nm0 [[= <- <-] | Hin]; [exists k; exact Hhere | exact (Hl2 _ _ Hin)].
    + intros Hlast Hlinks.
      destruct (Hlinks id nm (or_introl eq_refl))
        as (k0 & u0 & s0 & t0 & B1 & B2 & B3 & B4 & B5 & B6 & B7).
      assert (s0 = s) by congruence. subst s0.
      destruct (Hkeep t0 k0 Hlast B4 B5 B7) as [Hz ->].
      assert (Hlinks1 : forall id' nm' k' u', In (id', nm') l ->
                schema_table team (w_schemas w) (w_tables w) id' k' u' ->
                schema_table team (w_schemas w1) (w_tables w1) id' k' u').
      { intros id' nm' k' u' Hin. apply schema_table_mono.
        - apply Hother. intros ->. apply Hni. apply (in_map fst _ _ Hin).
        - apply kept_length, Hk1. }
      destruct (Hu2 Hlast) as [Hz2 Hsame].
      { intros id' nm' Hin. destruct (Hlinks id' nm' (or_intror Hin)) as (k' & u' & L).
        exists k', u'. exact (Hlinks1 _ _ _ _ Hin L). }
      split; [lia|].
      intros id0 nm0 k1 u1 [[= <- <-] | Hin] L.
      * destruct L as (s1 & t1' & C1 & C2 & C3 & C4 & C5 & C6 & C7).
        assert (s1 = s) by congruence. subst s1.
        assert (k1 = k0) by congruence. subst k1. exact Hhere.
      * apply (Hsame id0 nm0 k1 u1 Hin). exact (Hlinks1 _ _ _ _ Hin L).
Qed.


Lemma store_reap_frame last w :
  exists w3 tr3,
    reap Store.env last w = (Ok tt, w3, tr3) /\
    w_tables w3 = w_tables w /\ w_schemas w3 = w_schemas w /\
    w_storage w3 = w_storage w /\ w_db_up w3 = w_db_up w /\
    count is_create tr3 = 0%nat.
Proof.
  destruct last as [lj|]; [|exists w, []; repeat split].
  unfold reap. unfold_calls. cbn. unfold st_delete_data_in_bucket.
  destruct (w_bucket_up w); cbn; eexists _, _; (split; [reflexivity|]); repeat split.
Qed.

Lemma store_run run_id team schemas w job :
  well_keyed (w_tables w) ->
  NoDup (map fst schemas) ->
  w_db_up w = true ->
  lookup_job run_id (w_jobs w) = Some job ->
  job_team_id job = team ->
  recorded team (w_schemas w) schemas ->
  readable camel url job (w_storage w) schemas ->
  let last := latest_run (job_team_id job) (job_pipeline_id job) (w_jobs w) in
  let x := validate_schema_and_update_table Store.env KEY SECRET lower camel url
             run_id team schemas w in
  outcome x = Ok tt /\
  well_keyed (w_tables (world x)) /\ w_db_up (world x) = true /\
  w_storage (world x) = w_storage w /\
  kept (w_tables w) (w_tables (world x)) /\
  length (w_tables (world x)) = (length (w_tables w) + count is_create (journal x))%nat /\
  (count is_create (journal x) <= length schemas)%nat /\
  (forall id nm, In (id, nm) schemas ->
     exists k, schema_table team (w_schemas (world x)) (w_tables (world x)) id k
                 (url job (camel nm))) /\
  (last <> None ->
   (forall id nm, In (id, nm) schemas ->
      exists k u, schema_table team (w_schemas w) (w_tables w) id k u) ->
   count is_create (journal x) = 0%nat /\
   forall id nm k u, In (id, nm) schemas ->
     schema_table team (w_schemas w) (w_tables w) id k u ->
     schema_table team (w_schemas (world x)) (w_tables (world x)) id k
       (url job (camel nm))).
Proof.
  intros Hwf Hnd Hdb Hj Ht Hrec Hread last x.
  destruct (store_setup run_id team w job Hj)
    as (wa & tra & Ea & Hta & Hsa & Hsta & Hdba).
  fold last in Ea.
  destruct (store_loop job last (credential_for (job_team_id job) KEY SECRET w)
              team schemas (eq_sym Ht) Hnd wa)
    as (wb & trb & Eb & Hwfb & Hdbb & Hstb & Hkb & Hlenb & Hcb & _ & Hlb & Hub).
  { rewrite Hta. exact Hwf. }
  { rewrite Hdba. exact Hdb. }
  { rewrite Hsa. exact Hrec. }
  { rewrite Hsta. exact Hread. }
  destruct (store_reap_frame last wb) as (we & tre & Ee & Hte & Hse & Hste & Hdbe & Hce).
  assert (E : x = (Ok tt, we, (tra ++ trb) ++ tre)).
  { subst x. rewrite (main_run_loop_ok Store.env KEY SECRET lower camel url
                        _ _ _ _ _ _ _ _ _ _ _ Ea Eb).
    rewrite Ee. reflexivity. }
  assert (Hca : count is_create tra = 0%nat).
  { rewrite (setup_journal Store.env KEY SECRET _ _ _ _ _ _ _ _ Ea). reflexivity. }
  rewrite E. unfold outcome, world, journal. cbn [fst snd].
  rewrite !count_app, Hca, Hce, Hte, Hse, Hste, Hdbe.
  rewrite Hta, Hsa in *. rewrite Hsta in Hstb.
  split; [reflexivity|]. split; [exact Hwfb|]. split; [exact Hdbb|].
  split; [exact Hstb|]. split; [exact Hkb|]. split; [lia|]. split; [lia|].
  split; [exact Hlb|].
  intros Hlast Hlinks. destruct (Hub Hlast Hlinks) as [Hz Hsame].
  split; [lia | exact Hsame].
Qed.

(** C3, as amended.  Over the stores of the design, for a catalog that
    keeps every Table under its primary key and is reachable, two jobs of
    the team of the call, distinct schema identifiers whose records exist
    for that team and data readable for both jobs: a first run followed,
    once it is the latest successful run, by a second run on the same
    schemas.  Both return.  The first creates at most one Table per
    schema (exactly one when it has no predecessor) and leaves the record
    of every schema referring to a Table of the catalog.  The second
    creates none and writes in place: the catalog has the same number of
    Tables, with the same primary keys and names, and the record of
    every schema refers to the Table with the same primary key as after
    the first run.  The Table a schema carries has the URL pattern its
    job gives for the schema: the first job's after the first run, the
    second job's after the second; so the pattern after the second run
    equals the first run's only when the two jobs give the same
    pattern. *)
Theorem two_runs_one_table_per_schema
    run1 run2 job1 job2 jobs' team schemas w0 :
  well_keyed (w_tables w0) ->
  NoDup (map fst schemas) ->
  w_db_up w0 = true ->
  lookup_job run1 (w_jobs w0) = Some job1 ->
  lookup_job run2 jobs' = Some job2 ->
  latest_run (job_team_id job2) (job_pipeline_id job2) jobs' = Some job1 ->
  job_team_id job1 = team -> job_team_id job2 = team ->
  recorded team (w_schemas w0) schemas ->
  readable camel url job1 (w_storage w0) schemas ->
  readable camel url job2 (w_storage w0) schemas ->
  let x1 :=
    validate_schema_and_update_table Store.env KEY SECRET lower camel url
      run1 team schemas w0 in
  let x2 :=
    validate_schema_and_update_table Store.env KEY SECRET lower camel url
      run2 team schemas (with_jobs (world x1) jobs') in
  outcome x1 = Ok tt /\ outcome x2 = Ok tt /\
  (count is_create (journal x1) <= length schemas)%nat /\
  length (w_tables (world x1))
    = (length (w_tables w0) + count is_create (journal x1))%nat /\
  count is_create (journal x2) = 0%nat /\
  length (w_tables (world x2)) = length (w_tables (world x1)) /\
  map tbl_pk (w_tables (world x2)) = map tbl_pk (w_tables (world x1)) /\
  map tbl_name (w_tables (world x2)) = map tbl_name (w_tables (world x1)) /\
  (forall id nm, In (id, nm) schemas ->
     exists k,
       schema_table team (w_schemas (world x1)) (w_tables (world x1)) id k
         (url job1 (camel nm)) /\
       schema_table team (w_schemas (world x2)) (w_tables (world x2)) id k
         (url job2 (camel nm))) /\
  (latest_run (job_team_id job1) (job_pipeline_id job1) (w_jobs w0) = None ->
   count is_create (journal x1) = length schemas /\
   map tbl_url_pattern (w_tables (world x1))
     = map tbl_url_pattern (w_tables w0)
         ++ map (fun sch : string * string => url job1 (camel (snd sch))) schemas /\
   map tbl_url_pattern (w_tables (world x2))
     = map tbl_url_pattern (w_tables w0)
         ++ map (fun sch : string * string => url job2 (camel (snd sch))) schemas).
Proof.
  intros Hwf Hnd Hdb Hj1 Hj2 Hl2 Ht1 Ht2 Hrec Hr1 Hr2 x1 x2.
  destruct (store_run run1 team schemas w0 job1 Hwf Hnd Hdb Hj1 Ht1 Hrec Hr1)
    as (Ho1 & Hwf1 & Hdb1 & Hst1 & Hk1 & Hlen1 & Hc1 & Hlk1 & _).
  fold x1 in Ho1, Hwf1, Hdb1, Hst1, Hk1, Hlen1, Hc1, Hlk1.
  assert (Hrec1 : recorded team (w_schemas (with_jobs (world x1) jobs')) schemas).
  { intros id nm Hin. destruct (Hlk1 id nm Hin) as (k & s & t & A1 & A2 & A3 & _).
    exists s. repeat split; assumption. }
  destruct (store_run run2 team schemas (with_jobs (world x1) jobs') job2)
    as (Ho2 & Hwf2 & Hdb2 & Hst2 & Hk2 & Hlen2 & Hc2 & Hlk2 & Hu2); try assumption.
  { cbn. rewrite Hst1. exact Hr2. }
  fold x2 in Ho2, Hwf2, Hdb2, Hst2, Hk2, Hlen2, Hc2, Hlk2, Hu2.
  cbn [w_jobs w_tables w_schemas with_jobs] in Hu2, Hlen2, Hk2.
  destruct Hu2 as [Hz2 Hsame].
  { rewrite Hl2. discriminate. }
  { intros id nm Hin. destruct (Hlk1 id nm Hin) as (k & L). eexists _, _. exact L. }
  assert (Hlen : length (w_tables (world x2)) = length (w_tables (world x1)))
    by lia.
  destruct (kept_same_length _ _ Hk2 Hlen) as [Hpk Hnm].
  split; [exact Ho1|]. split; [exact Ho2|]. split; [exact Hc1|].
  split; [exact Hlen1|]. split; [exact Hz2|]. split; [exact Hlen|].
  split; [exact Hpk|]. split; [exact Hnm|]. split.
  - intros id nm Hin. destruct (Hlk1 id nm Hin) as (k & L). exists k.
    split; [exact L | exact (Hsame id nm k _ Hin L)].
  - intros Hl1.
    pose proof (two_runs_closed_form run1 run2 job1 job2 jobs' team schemas w0
                  Hnd Hdb Hj1 Hl1 Hj2 Hl2 Ht1 Ht2 Hrec Hr1 Hr2) as T.
    cbv zeta in T. fold x1 in T. fold x2 in T.
    destruct T as (_ & _ & _ & _ & _ & _ & T7 & _ & _ & T10 & T11).
    split; [lia|]. split; [exact T10 | exact T11].
Qed.

End StoreFacts.

(** ** The scenario: instances and departures *)

Section ScenarioFacts.
Import Store Scenario.

(** The claim C1 as stated fails: with the job record present and the
    catalog database out of reach, the exception of
    [acreate_datawarehousetable], raised while the first schema is
    processed, leaves [validate_schema_and_update_table]. *)
Lemma create_failure_propagates :
  lookup_job "job-1" (w_jobs world0_db_down) = Some job1 /\
  outcome (run "job-1" schemas world0_db_down) = Raise db_down /\
  outcome (run "job-1" schemas world0_db_down) <> Ok tt /\
  List.last (journal (run "job-1" schemas world0_db_down))
    (Ev_logger_exception "" DoesNotExist)
    = Ev_acreate_datawarehousetable "src-1"
        (descriptor cred7 "acme_stripe_users"
           "https://bucket/dlt/job-1/users/*.parquet" 7)
        (Raise db_down).
Proof. vm_compute. repeat split. discriminate. Qed.

(** The claim C2 as stated fails: a probe that raises a ServerException
    with a code other than 636 is skipped without any log entry, and a
    probe that raises another exception is logged with the job id but
    without the schema name. *)
Lemma probe_failure_not_logged_with_schema_name :
  journal (step job1 None cred7 7 ("s4", "Payments") world0)
    = [Ev_get_columns (ptable cred7 job1 7 "Payments") (Some false)
         (Raise (ServerException 241))] /\
  count is_log (journal (step job1 None cred7 7 ("s4", "Payments") world0)) = 0%nat /\
  journal (step job1 None cred7 7 ("s5", "Refunds") world0)
    = [Ev_get_columns (ptable cred7 job1 7 "Refunds") (Some false)
         (Raise (OtherError "permission denied"));
       Ev_logger_exception
         "Data Warehouse: Could not validate schema for external data job job-1"
         (OtherError "permission denied")].
Proof. vm_compute. repeat split. Qed.

(** The claim C3 as stated fails.  After the second run there is still
    one Table per schema, but its URL pattern is the one of the second
    job, not the one the first run had stored.  Nor is there one Table per
    schema in every pair of runs: the second run creates a second Table
    for each schema when the call is made for another team than the one
    of the jobs and of the schema records, and when the record of the
    schema does not exist; a schema listed twice gets two Tables from a
    first run without predecessor; a schema without data gets none. *)
Lemma two_runs_claim_fails :
  (outcome (run "job-1" schemas world0) = Ok tt /\
   latest_run 7 "src-1" (w_jobs world1) = Some job1 /\
   outcome (run "job-2" schemas world1) = Ok tt /\
   length (w_tables (world (run "job-2" schemas world1))) = length schemas /\
   map tbl_url_pattern (w_tables world1)
     = ["https://bucket/dlt/job-1/users/*.parquet";
        "https://bucket/dlt/job-1/order_items/*.parquet"] /\
   map tbl_url_pattern (w_tables (world (run "job-2" schemas world1)))
     = ["https://bucket/dlt/job-2/users/*.parquet";
        "https://bucket/dlt/job-2/order_items/*.parquet"] /\
   map tbl_url_pattern (w_tables (world (run "job-2" schemas world1)))
     <> map tbl_url_pattern (w_tables world1)) /\
  (outcome (run_as 8 "job-1" schemas world0) = Ok tt /\
   outcome (run_as 8 "job-2" schemas
              (then_second (world (run_as 8 "job-1" schemas world0)))) = Ok tt /\
   count is_create
     (journal (run_as 8 "job-2" schemas
                 (then_second (world (run_as 8 "job-1" schemas world0))))) = 2%nat /\
   map tbl_name
     (w_tables (world (run_as 8 "job-2" schemas
                         (then_second (world (run_as 8 "job-1" schemas world0))))))
     = ["acme_stripe_users"; "acme_stripe_orderitems";
        "acme_stripe_users"; "acme_stripe_orderitems"]) /\
  (w_schemas world0_unrecorded !! "s1" = None /\
   outcome (run "job-1" [("s1", "Users")] world0_unrecorded) = Ok tt /\
   outcome (run "job-2" [("s1", "Users")]
              (then_second (world (run "job-1" [("s1", "Users")] world0_unrecorded))))
     = Ok tt /\
   count is_create
     (journal (run "job-2" [("s1", "Users")]
                 (then_second
                    (world (run "job-1" [("s1", "Users")] world0_unrecorded)))))
     = 1%nat /\
   map tbl_name
     (w_tables (world (run "job-2" [("s1", "Users")]
                         (then_second
                            (world (run "job-1" [("s1", "Users")]
                                      world0_unrecorded))))))
     = ["acme_stripe_users"; "acme_stripe_users"]) /\
  (outcome (run "job-1" users_twice world0) = Ok tt /\
   outcome (run "job-2" users_twice
              (then_second (world (run "job-1" users_twice world0)))) = Ok tt /\
   map tbl_name
     (w_tables (world (run "job-2" users_twice
                         (then_second (world (run "job-1" users_twice world0))))))
     = ["acme_stripe_users"; "acme_stripe_users"]) /\
  (outcome (run "job-1" schemas world0_no_data) = Ok tt /\
   outcome (run "job-2" schemas
              (then_second (world (run "job-1" schemas world0_no_data)))) = Ok tt /\
   w_tables (world (run "job-2" schemas
                      (then_second (world (run "job-1" schemas world0_no_data)))))
     = []).
Proof. vm_compute. repeat split. discriminate. Qed.

(** The claim C7 as stated fails: in the second run the previous
    successful run exists, yet with the catalog database out of reach the
    save of the Table of "Users" raises, the call fails with that
    exception and the deletion routine is not invoked. *)
Lemma aborted_run_deletes_nothing :
  setup Store.env key secret "job-2" 7 world1_db_down
    = (Ok (job2, Some job1, cred7), world1_db_down,
       journal (setup Store.env key secret "job-2" 7 world1_db_down)) /\
  outcome (run "job-2" schemas world1_db_down) = Raise db_down /\
  count is_delete (journal (run "job-2" schemas world1_db_down)) = 0%nat /\
  List.last (journal (run "job-2" schemas world1_db_down))
    (Ev_logger_exception "" DoesNotExist)
    = Ev_asave_datawarehousetable
        (set_url_pattern users_row "https://bucket/dlt/job-2/users/*.parquet")
        (Raise db_down).
Proof. vm_compute. repeat split. Qed.

(** The claim C10 as stated fails: with an empty list of schemas and no
    job record for the run id, the call raises after the lookup of the
    job, before any credential is fetched and without deleting the data
    of the previous successful run; and with the bucket out of reach the
    call returns, but the data of the previous run is not deleted. *)
Lemma empty_run_fails_without_job_record :
  latest_run 7 "src-1" (w_jobs world1) = Some job1 /\
  lookup_job "job-9" (w_jobs world1) = None /\
  run "job-9" [] world1
    = (Raise DoesNotExist, world1,
       [Ev_bind_temporal_worker_logger 7 (Ok tt);
        Ev_get_external_data_job "job-9" (Raise DoesNotExist)]) /\
  outcome (run "job-2" [] world1_bucket_down) = Ok tt /\
  w_deleted (world (run "job-2" [] world1_bucket_down)) = [] /\
  List.last (journal (run "job-2" [] world1_bucket_down))
    (Ev_logger_exception "" DoesNotExist)
    = Ev_logger_exception
        "Data Warehouse: Could not delete deprecated data source job-1" bucket_down.
Proof. vm_compute. repeat split. Qed.

(** The claim C8 as stated fails: the probe has read the columns of
    "Users", yet the Table the reconciler works on, created from the
    returned descriptor, carries no columns when the reconciler reads
    them again. *)
Lemma probe_columns_not_reused :
  ~ probe_columns_reused (journal (run "job-1" [("s1", "Users")] world0)).
Proof.
  intros H.
  assert (C : tbl_columns
                (new_row 0 "src-1"
                   (descriptor cred7 "acme_stripe_users"
                      "https://bucket/dlt/job-1/users/*.parquet" 7))
              = users_columns).
  { apply (H (ptable cred7 job1 7 "Users") users_columns)
      with (r := Ok users_columns); vm_compute; tauto. }
  discriminate C.
Qed.

(** An instance of C2: the probe of "Invoices" finds no data. *)
Lemma probe_failure_skips_schema_witness :
  env_get_columns Store.env (ptable cred7 job1 7 "Invoices") (Some false) world0
    = (Raise (ServerException 636), world0) /\
  outcome (step job1 None cred7 7 ("s6", "Invoices") world0) = Ok tt /\
  count is_store_call (journal (step job1 None cred7 7 ("s6", "Invoices") world0))
    = 0%nat.
Proof.
  assert (H : env_get_columns Store.env (ptable cred7 job1 7 "Invoices")
                (Some false) world0 = (Raise (ServerException 636), world0))
    by (vm_compute; reflexivity).
  split; [exact H|].
  pose proof (probe_failure_skips_schema Store.env lower_ascii snake_case url_of job1 None
                cred7 7 "s6" "Invoices" [] world0 _ _ H) as T.
  cbv zeta in T. destruct T as (T1 & _ & T3 & _). split; [exact T1 | exact T3].
Defined.

(** An instance of C4: the first run creates the Table of "Users". *)
Lemma create_iff_no_existing_table_witness :
  env_get_columns Store.env (ptable cred7 job1 7 "Users") (Some false) world0
    = (Ok users_columns, world0) /\
  count is_create (journal (step job1 None cred7 7 ("s1", "Users") world0)) = 1%nat /\
  w_tables (world (step job1 None cred7 7 ("s1", "Users") world0)) = [users_row].
Proof.
  assert (H : env_get_columns Store.env (ptable cred7 job1 7 "Users")
                (Some false) world0 = (Ok users_columns, world0))
    by (vm_compute; reflexivity).
  split; [exact H|].
  pose proof (create_iff_no_existing_table Store.env lower_ascii snake_case url_of
                job1 None cred7 7 "s1" "Users" world0 _ _ H) as T.
  cbv zeta in T. destruct T as (T1 & T2).
  split; [exact T1|].
  destruct (T2 eq_refl) as [_ T3]. unfold step. rewrite T3.
  vm_compute. reflexivity.
Defined.


(** An instance of C6: the record of "Users" is there after the Table
    was created, and is stamped with the creation time of the job. *)
Lemma schema_metadata_updated_or_skipped_witness :
  (env_get_columns Store.env (ptable cred7 job1 7 "Users") (Some false) world0
     = (Ok users_columns, world0) /\
   reconcile Store.env job1 None "s1" 7 (new_url_pattern_of snake_case url_of job1 "Users")
     (descriptor cred7 (table_name_of lower_ascii job1 "Users")
        (new_url_pattern_of snake_case url_of job1 "Users") 7) world0
     = (Ok users_row,
        with_tables world0 [users_row],
        journal (reconcile Store.env job1 None "s1" 7
                   (new_url_pattern_of snake_case url_of job1 "Users")
                   (descriptor cred7 (table_name_of lower_ascii job1 "Users")
                      (new_url_pattern_of snake_case url_of job1 "Users") 7) world0))) /\
  outcome (step job1 None cred7 7 ("s1", "Users") world0) = Ok tt /\
  sch_last_synced_at
    (attach_table (blank_schema "s1" "Users") users_row (job_created_at job1))
    = Some 1000.
Proof.
  assert (H : env_get_columns Store.env (ptable cred7 job1 7 "Users")
                (Some false) world0 = (Ok users_columns, world0))
    by (vm_compute; reflexivity).
  assert (R : reconcile Store.env job1 None "s1" 7
                (new_url_pattern_of snake_case url_of job1 "Users")
                (descriptor cred7 (table_name_of lower_ascii job1 "Users")
                   (new_url_pattern_of snake_case url_of job1 "Users") 7) world0
              = (Ok users_row,
                 with_tables world0 [users_row],
                 journal (reconcile Store.env job1 None "s1" 7
                            (new_url_pattern_of snake_case url_of job1 "Users")
                            (descriptor cred7 (table_name_of lower_ascii job1 "Users")
                               (new_url_pattern_of snake_case url_of job1 "Users") 7)
                            world0)))
    by (vm_compute; reflexivity).
  split; [split; [exact H | exact R]|].
  pose proof (schema_metadata_updated_or_skipped Store.env lower_ascii snake_case url_of job1 None
                cred7 7 "s1" "Users" world0 _ _ _ _ _ H R) as T.
  cbv zeta in T.
  change (env_aget_schema_by_id Store.env "s1" (job_team_id job1)
            (with_tables world0 [users_row]))
    with (Ok (Some (blank_schema "s1" "Users")), with_tables world0 [users_row]) in T.
  cbv beta iota in T. destruct T as (_ & T2 & _ & _ & _ & T6).
  split; [unfold step; rewrite T6; reflexivity | exact T2].
Defined.

(** An instance of C7: a second run in which the probe of "Invoices"
    finds no data and the bucket is out of reach. *)
Lemma reap_once_after_all_schemas_witness :
  setup Store.env key secret "job-2" 7 world1_bucket_down
    = (Ok (job2, Some job1, cred7), world1_bucket_down,
       journal (setup Store.env key secret "job-2" 7 world1_bucket_down)) /\
  count is_delete
    (journal (run "job-2" [("s6", "Invoices"); ("s1", "Users")] world1_bucket_down))
    = 1%nat.
Proof.
  assert (H : setup Store.env key secret "job-2" 7 world1_bucket_down
              = (Ok (job2, Some job1, cred7), world1_bucket_down,
                 journal (setup Store.env key secret "job-2" 7 world1_bucket_down)))
    by (vm_compute; reflexivity).
  split; [exact H|].
  pose proof (reap_once_after_all_schemas Store.env key secret lower_ascii
                snake_case url_of "job-2" 7 [("s6", "Invoices"); ("s1", "Users")]
                world1_bucket_down _ _ _ _ _ H) as T.
  cbv zeta in T. destruct T as (_ & _ & T3 & _).
  apply T3. split; [discriminate | vm_compute; reflexivity].
Defined.

(** An instance of C8: the probe of "Users" in the first run. *)
Lemma probe_returns_descriptor_only_witness :
  env_get_columns Store.env (ptable cred7 job1 7 "Users") (Some false) world0
    = (Ok users_columns, world0) /\
  outcome (validate_schema Store.env cred7 (table_name_of lower_ascii job1 "Users")
             (new_url_pattern_of snake_case url_of job1 "Users") 7 world0)
    = Ok {| p_credential := cred7; p_name := "acme_stripe_users";
            p_format := "Parquet";
            p_url_pattern := "https://bucket/dlt/job-1/users/*.parquet";
            p_team_id := 7 |}.
Proof.
  assert (H : env_get_columns Store.env (ptable cred7 job1 7 "Users")
                (Some false) world0 = (Ok users_columns, world0))
    by (vm_compute; reflexivity).
  split; [exact H|].
  pose proof (probe_returns_descriptor_only Store.env lower_ascii snake_case url_of job1 None
                cred7 7 "s1" "Users" world0 _ _ H) as T.
  cbv zeta in T. destruct T as (T1 & _). rewrite T1. reflexivity.
Defined.

(** An instance of C9: the two probes of the first run. *)
Lemma probes_use_prefixed_lowercase_name_witness :
  setup Store.env key secret "job-1" 7 world0
    = (Ok (job1, None, cred7),
       world (setup Store.env key secret "job-1" 7 world0),
       journal (setup Store.env key secret "job-1" 7 world0)) /\
  exists n,
    probe_calls (journal (run "job-1" schemas world0))
      = take n [("acme_stripe_users", "https://bucket/dlt/job-1/users/*.parquet");
                ("acme_stripe_orderitems",
                 "https://bucket/dlt/job-1/order_items/*.parquet")] /\
    (outcome (run "job-1" schemas world0) = Ok tt -> n = 2%nat).
Proof.
  assert (H : setup Store.env key secret "job-1" 7 world0
              = (Ok (job1, None, cred7),
                 world (setup Store.env key secret "job-1" 7 world0),
                 journal (setup Store.env key secret "job-1" 7 world0)))
    by (vm_compute; reflexivity).
  split; [exact H|].
  exact (probes_use_prefixed_lowercase_name Store.env key secret lower_ascii snake_case url_of
           "job-1" 7 schemas world0 _ _ _ _ _ H).
Defined.

(** An instance of C10: a second run without schemas still deletes the
    data of the first. *)
Lemma empty_schemas_still_reaps_witness :
  setup Store.env key secret "job-2" 7 world1
    = (Ok (job2, Some job1, cred7), world1,
       journal (setup Store.env key secret "job-2" 7 world1)) /\
  outcome (run "job-2" [] world1) = Ok tt /\
  count is_delete (journal (run "job-2" [] world1)) = 1%nat /\
  w_deleted (world (run "job-2" [] world1)) = ["job-1"].
Proof.
  assert (H : setup Store.env key secret "job-2" 7 world1
              = (Ok (job2, Some job1, cred7), world1,
                 journal (setup Store.env key secret "job-2" 7 world1)))
    by (vm_compute; reflexivity).
  split; [exact H|].
  pose proof (empty_schemas_still_reaps Store.env key secret lower_ascii
                snake_case url_of "job-2" 7 world1 _ _ _ _ _ H) as T.
  cbv beta iota zeta in T. destruct T as (T1 & T2 & _ & _ & T5).
  split; [exact T2|]. split; [apply T5; discriminate|].
  unfold run. rewrite T1. vm_compute. reflexivity.
Defined.

Lemma scenario_recorded : TwoRuns.recorded 7 (w_schemas world0) schemas.
Proof.
  intros id nm [[= <- <-]|[[= <- <-]|[]]]; eexists; (split; [reflexivity|]);
    split; reflexivity.
Qed.

Lemma scenario_readable job :
  job = job1 \/ job = job2 ->
  TwoRuns.readable snake_case url_of job (w_storage world0) schemas.
Proof.
  intros [-> | ->] id nm [[= <- <-]|[[= <- <-]|[]]]; eexists; vm_compute; reflexivity.
Qed.

(** An instance of C3 as amended: the two runs of the scenario. *)
Lemma two_runs_one_table_per_schema_witness :
  (TwoRuns.well_keyed (w_tables world0) /\
   NoDup (map fst schemas) /\
   w_db_up world0 = true /\
   lookup_job "job-1" (w_jobs world0) = Some job1 /\
   lookup_job "job-2" [(job1, true); (job2, false)] = Some job2 /\
   latest_run (job_team_id job2) (job_pipeline_id job2) [(job1, true); (job2, false)]
     = Some job1 /\
   job_team_id job1 = 7 /\ job_team_id job2 = 7 /\
   TwoRuns.recorded 7 (w_schemas world0) schemas /\
   TwoRuns.readable snake_case url_of job1 (w_storage world0) schemas /\
   TwoRuns.readable snake_case url_of job2 (w_storage world0) schemas) /\
  count is_create (journal (run "job-2" schemas world1)) = 0%nat /\
  length (w_tables (world (run "job-2" schemas world1))) = 2%nat /\
  map tbl_url_pattern (w_tables (world (run "job-2" schemas world1)))
    = map (fun sch : string * string => url_of job2 (snake_case (snd sch))) schemas.
Proof.
  assert (Hwf : TwoRuns.well_keyed (w_tables world0))
    by (intros k row Hk; discriminate Hk).
  assert (Hnd : NoDup (map fst schemas)) by compute_done.
  pose proof scenario_recorded as Hrec.
  pose proof (scenario_readable job1 (or_introl eq_refl)) as Hr1.
  pose proof (scenario_readable job2 (or_intror eq_refl)) as Hr2.
  split; [repeat split; try reflexivity; assumption|].
  pose proof (two_runs_one_table_per_schema key secret lower_ascii snake_case url_of
                "job-1" "job-2" job1 job2 [(job1, true); (job2, false)] 7 schemas
                world0 Hwf Hnd eq_refl eq_refl eq_refl eq_refl eq_refl eq_refl
                Hrec Hr1 Hr2) as T.
  cbv zeta in T. destruct T as (_ & _ & _ & T4 & T5 & T6 & _ & _ & _ & T10).
  destruct (T10 eq_refl) as (T11 & _ & T13).
  split; [exact T5|]. split; [|exact T13].
  change (length (w_tables (world (run "job-2" schemas world1))) = 2%nat).
  unfold run, world1, run in *. rewrite T6, T4, T11. reflexivity.
Defined.

End ScenarioFacts.

(** ** More on [validate_schema_and_update_table] *)

Section MoreFacts.
Context {W : Type} (env : Env W).
Context (KEY SECRET : string).
Context (lower camel : string -> string) (url : ExternalDataJob -> string -> string).

(** A property of journals that holds of the empty journal, of the journal
    of every iteration, and of concatenations, holds of the loop. *)
Lemma for_each_journal_ind {A : Type} (P : list Event -> Prop)
    (body : A -> M W unit) :
  P [] -> (forall a b, P a -> P b -> P (a ++ b)) ->
  (forall x w, P (journal (body x w))) ->
  forall l w, P (journal (for_each body l w)).
Proof.
  intros Hnil Happ Hb. induction l as [|x l IH]; intros w; [exact Hnil|].
  specialize (Hb x w). destruct (body x w) as [[[[]|e] w1] t1] eqn:E.
  - rewrite (for_each_cons _ _ _ _ _ _ E). unfold after, journal in *.
    cbn [snd] in *. apply Happ; [exact Hb | apply IH].
  - rewrite (for_each_cons_raise _ _ _ _ _ _ _ E). exact Hb.
Qed.

(** The same for a whole run whose setup returned. *)
Lemma main_journal_ind (P : list Event -> Prop)
    run_id team schemas w job last cred w1 tr1 :
  setup env KEY SECRET run_id team w = (Ok (job, last, cred), w1, tr1) ->
  P [] -> (forall a b, P a -> P b -> P (a ++ b)) ->
  P tr1 ->
  (forall sch w', P (journal (schema_step env lower camel url job last cred team sch w'))) ->
  (forall w', P (journal (reap env last w'))) ->
  P (journal (validate_schema_and_update_table env KEY SECRET lower camel url
                run_id team schemas w)).
Proof.
  intros H Hnil Happ Hs Hstep Hreap.
  rewrite (main_run env KEY SECRET lower camel url _ _ _ _ _ _ _ _ _ H).
  pose proof (for_each_journal_ind P
                (schema_step env lower camel url job last cred team)
                Hnil Happ Hstep schemas w1) as Hl.
  destruct (for_each (schema_step env lower camel url job last cred team) schemas w1)
    as [[[[]|e] w2] t2] eqn:L.
  - rewrite (bind_ok (for_each (schema_step env lower camel url job last cred team) schemas)
               (fun _ => reap env last) w1 tt w2 t2 L).
    specialize (Hreap w2). destruct (reap env last w2) as [[r3 w3] t3].
    unfold after, journal in *. cbn [fst snd] in *.
    apply Happ; [exact Hs | apply Happ; assumption].
  - rewrite (bind_raise (for_each (schema_step env lower camel url job last cred team) schemas)
               (fun _ => reap env last) w1 e w2 t2 L).
    unfold after, journal in *. cbn [fst snd] in *.
    apply Happ; [exact Hs | exact Hl].
Qed.

(** The same for every run, whatever the setup does. *)
Lemma main_journal_always (P : list Event -> Prop) run_id team schemas w :
  P [] -> (forall a b, P a -> P b -> P (a ++ b)) ->
  P (journal (setup env KEY SECRET run_id team w)) ->
  (forall job last cred sch w',
     P (journal (schema_step env lower camel url job last cred team sch w'))) ->
  (forall last w', P (journal (reap env last w'))) ->
  P (journal (validate_schema_and_update_table env KEY SECRET lower camel url
                run_id team schemas w)).
Proof.
  intros Hnil Happ Hs Hstep Hreap.
  destruct (setup env KEY SECRET run_id team w) as [[[[[job last] cred]|e] w1] tr1] eqn:H.
  - apply (main_journal_ind P _ _ _ _ _ _ _ _ _ H Hnil Happ Hs); auto.
  - unfold validate_schema_and_update_table.
    rewrite (bind_raise (setup env KEY SECRET run_id team) _ w e w1 tr1 H). exact Hs.
Qed.

Lemma step_probes_at_most_once job last cred team sch w :
  (count is_probe (journal (schema_step env lower camel url job last cred team sch w))
     <= 1)%nat.
Proof.
  destruct sch as [id nm]. destruct last as [lj|]; run_step; cbn; lia.
Qed.

Lemma loop_probes_at_most_length job last cred team l w :
  (count is_probe
     (journal (for_each (schema_step env lower camel url job last cred team) l w))
   <= length l)%nat.
Proof.
  revert w. induction l as [|sch l IH]; intros w; [cbn; lia|].
  pose proof (step_probes_at_most_once job last cred team sch w) as Hp.
  destruct (schema_step env lower camel url job last cred team sch w)
    as [[[[]|e] w1] t1] eqn:E.
  - rewrite (for_each_cons _ _ _ _ _ _ E). specialize (IH w1).
    unfold after, journal in *. cbn [fst snd length] in *.
    rewrite count_app. lia.
  - rewrite (for_each_cons_raise _ _ _ _ _ _ _ E).
    unfold journal in *. cbn [fst snd length] in *. lia.
Qed.

(** X1.  In every run, catalog and schema store calls only follow probes
    that returned: at most five store calls and at most one creation per
    such probe (so none at all when no probe returned), and at most one
    probe per schema of the input. *)
Theorem store_calls_follow_successful_probes run_id team schemas w :
  let tr := journal (validate_schema_and_update_table env KEY SECRET lower camel url
                       run_id team schemas w) in
  (count is_store_call tr <= 5 * count is_ok_probe tr)%nat /\
  (count is_create tr <= count is_ok_probe tr)%nat /\
  (count is_ok_probe tr <= count is_probe tr)%nat /\
  (count is_probe tr <= length schemas)%nat.
Proof.
  intros tr.
  assert (H3 : (count is_store_call tr <= 5 * count is_ok_probe tr)%nat /\
               (count is_create tr <= count is_ok_probe tr)%nat /\
               (count is_ok_probe tr <= count is_probe tr)%nat).
  { subst tr.
    apply (main_journal_always
             (fun tr => (count is_store_call tr <= 5 * count is_ok_probe tr)%nat /\
                        (count is_create tr <= count is_ok_probe tr)%nat /\
                        (count is_ok_probe tr <= count is_probe tr)%nat)).
    - cbn. lia.
    - intros a b Ha Hb. rewrite !count_app. lia.
    - unfold journal, setup. unfold_calls. repeat run_call; cbn; lia.
    - intros job last cred [id nm] w'. destruct last as [lj|]; run_step; cbn; lia.
    - intros [lj|] w'; unfold journal, reap; unfold_calls; repeat run_call; cbn; lia. }
  destruct H3 as (H1 & H2 & H3). repeat split; try assumption.
  subst tr.
  destruct (setup env KEY SECRET run_id team w) as [[[[[job last] cred]|e] w1] tr1] eqn:H.
  - rewrite (main_run env KEY SECRET lower camel url _ _ _ _ _ _ _ _ _ H).
    rewrite (setup_journal env KEY SECRET _ _ _ _ _ _ _ _ H).
    pose proof (loop_probes_at_most_length job last cred team schemas w1) as Hl.
    destruct (for_each (schema_step env lower camel url job last cred team) schemas w1)
      as [[[[]|e] w2] t2] eqn:L.
    + rewrite (bind_ok (for_each (schema_step env lower camel url job last cred team) schemas)
                 (fun _ => reap env last) w1 tt w2 t2 L).
      destruct (reap_run env last w2) as [_ Hj].
      destruct (reap env last w2) as [[r3 w3] t3].
      unfold after, journal in *. cbn [fst snd] in *.
      rewrite !count_app.
      assert (count is_probe t3 = 0%nat)
        by (destruct last; [destruct Hj as [-> | [e0 ->]] | rewrite Hj]; reflexivity).
      cbn. lia.
    + rewrite (bind_raise (for_each (schema_step env lower camel url job last cred team) schemas)
                 (fun _ => reap env last) w1 e w2 t2 L).
      unfold after, journal in *. cbn [fst snd] in *.
      rewrite !count_app. cbn. lia.
  - unfold validate_schema_and_update_table.
    rewrite (bind_raise (setup env KEY SECRET run_id team) _ w e w1 tr1 H).
    revert H. unfold setup. unfold_calls. repeat run_call; intros [= <- <- <-];
      cbn; lia.
Qed.

(** X2.  In a run without previous successful run, no existing Table is
    looked up and nothing is deleted, and a Table is created for every
    schema whose probe returned. *)
Theorem first_run_creates_for_every_probed_schema
    run_id team schemas w job cred w1 tr1 :
  setup env KEY SECRET run_id team w = (Ok (job, None, cred), w1, tr1) ->
  let tr := journal (validate_schema_and_update_table env KEY SECRET lower camel url
                       run_id team schemas w) in
  count is_lookup tr = 0%nat /\
  count is_delete tr = 0%nat /\
  count is_create tr = count is_ok_probe tr.
Proof.
  intros H tr. subst tr.
  apply (main_journal_ind
           (fun tr => count is_lookup tr = 0%nat /\ count is_delete tr = 0%nat /\
                      count is_create tr = count is_ok_probe tr)
           _ _ _ _ _ _ _ _ _ H).
  - repeat split.
  - intros a b Ha Hb. rewrite !count_app. lia.
  - rewrite (setup_journal env KEY SECRET _ _ _ _ _ _ _ _ H). repeat split.
  - intros [id nm] w'. run_step; repeat split.
  - intros w'. repeat split.
Qed.

(** X3.  In a run whose setup returned, every Table creation is linked to
    the external data source of the job, has format "Parquet", the team of
    the call and the credential of the run. *)
Theorem creations_are_parquet_tables_of_the_source
    run_id team schemas w job last cred w1 tr1 :
  setup env KEY SECRET run_id team w = (Ok (job, last, cred), w1, tr1) ->
  Forall (create_as_expected job cred team)
    (journal (validate_schema_and_update_table env KEY SECRET lower camel url
                run_id team schemas w)).
Proof.
  intros H.
  apply (main_journal_ind (Forall (create_as_expected job cred team))
           _ _ _ _ _ _ _ _ _ H).
  - constructor.
  - intros a b Ha Hb. apply Forall_app; split; assumption.
  - rewrite (setup_journal env KEY SECRET _ _ _ _ _ _ _ _ H). repeat constructor.
  - intros [id nm] w'. destruct last as [lj|]; run_step; repeat constructor.
  - intros w'. destruct last as [lj|]; unfold journal, reap; unfold_calls;
      repeat run_call; repeat constructor.
Qed.



(** X5.  In a run whose setup returned, the lookup of an existing Table is
    scoped to the team_id argument of the call, while the latest-run
    lookup, the credential and the fetch of the schema record are scoped to
    the team of the job record. *)
Theorem store_calls_team_scope run_id team schemas w job last cred w1 tr1 :
  setup env KEY SECRET run_id team w = (Ok (job, last, cred), w1, tr1) ->
  Forall (scoped_as_expected job team)
    (journal (validate_schema_and_update_table env KEY SECRET lower camel url
                run_id team schemas w)).
Proof.
  intros H.
  apply (main_journal_ind (Forall (scoped_as_expected job team))
           _ _ _ _ _ _ _ _ _ H).
  - constructor.
  - intros a b Ha Hb. apply Forall_app; split; assumption.
  - rewrite (setup_journal env KEY SECRET _ _ _ _ _ _ _ _ H).
    repeat constructor.
  - intros [id nm] w'. destruct last as [lj|]; run_step; repeat constructor.
  - intros w'. destruct last as [lj|]; unfold journal, reap; unfold_calls;
      repeat run_call; repeat constructor.
Qed.

(** X6.  In a run whose setup returned, the data of a run is deleted at most
    once, only for the previous successful run the setup found, and only in
    a run that returns without error: a run aborted by a failure deletes
    nothing. *)
Theorem deletion_only_in_completed_runs
    run_id team schemas w job last cred w1 tr1 :
  setup env KEY SECRET run_id team w = (Ok (job, last, cred), w1, tr1) ->
  let x := validate_schema_and_update_table env KEY SECRET lower camel url
             run_id team schemas w in
  (count is_delete (journal x) <= 1)%nat /\
  Forall (delete_as_expected last) (journal x) /\
  (forall e, outcome x = Raise e -> count is_delete (journal x) = 0%nat).
Proof.
  intros H x. subst x. split; [|split].
  - rewrite (main_run env KEY SECRET lower camel url _ _ _ _ _ _ _ _ _ H).
    rewrite (setup_journal env KEY SECRET _ _ _ _ _ _ _ _ H).
    pose proof (count_for_each_zero is_delete
                  (schema_step env lower camel url job last cred team)
                  (step_never_deletes env lower camel url job last cred team) schemas w1)
      as Hz.
    destruct (for_each (schema_step env lower camel url job last cred team) schemas w1)
      as [[[[]|e] w2] t2] eqn:L.
    + rewrite (bind_ok (for_each (schema_step env lower camel url job last cred team) schemas)
                 (fun _ => reap env last) w1 tt w2 t2 L).
      destruct (reap_run env last w2) as [_ Hj].
      pose proof (reap_journal_deletes _ _ Hj) as Hd.
      destruct (reap env last w2) as [[r3 w3] t3].
      unfold after, journal in *. cbn [fst snd] in *.
      rewrite !count_app, Hz, Hd. cbn. destruct last; lia.
    + rewrite (bind_raise (for_each (schema_step env lower camel url job last cred team) schemas)
                 (fun _ => reap env last) w1 e w2 t2 L).
      unfold after, journal in *. cbn [fst snd] in *.
      rewrite !count_app, Hz. cbn. lia.
  - apply (main_journal_ind (Forall (delete_as_expected last))
             _ _ _ _ _ _ _ _ _ H).
    + constructor.
    + intros a b Ha Hb. apply Forall_app; split; assumption.
    + rewrite (setup_journal env KEY SECRET _ _ _ _ _ _ _ _ H). repeat constructor.
    + intros [id nm] w'. destruct last as [lj|]; run_step; repeat constructor.
    + intros w'. destruct last as [lj|]; unfold journal, reap; unfold_calls;
        repeat run_call; repeat constructor.
  - intros e He.
    rewrite (main_run env KEY SECRET lower camel url _ _ _ _ _ _ _ _ _ H) in *.
    rewrite (setup_journal env KEY SECRET _ _ _ _ _ _ _ _ H) in *.
    pose proof (count_for_each_zero is_delete
                  (schema_step env lower camel url job last cred team)
                  (step_never_deletes env lower camel url job last cred team) schemas w1)
      as Hz.
    destruct (for_each (schema_step env lower camel url job last cred team) schemas w1)
      as [[[[]|e'] w2] t2] eqn:L.
    + rewrite (bind_ok (for_each (schema_step env lower camel url job last cred team) schemas)
                 (fun _ => reap env last) w1 tt w2 t2 L) in *.
      destruct (reap_run env last w2) as [Ho _].
      destruct (reap env last w2) as [[r3 w3] t3].
      unfold after, outcome, journal in *. cbn [fst snd] in *. congruence.
    + rewrite (bind_raise (for_each (schema_step env lower camel url job last cred team) schemas)
                 (fun _ => reap env last) w1 e' w2 t2 L) in *.
      unfold after, journal in *. cbn [fst snd] in *.
      rewrite !count_app, Hz. reflexivity.
Qed.

(** X7.  In every run, a log entry is written only for a probe that raised
    or for a deletion that raised: there are at most as many log entries
    as such failures. *)
Theorem logs_only_for_failures run_id team schemas w :
  let tr := journal (validate_schema_and_update_table env KEY SECRET lower camel url
                       run_id team schemas w) in
  (count is_log tr <= count is_failed_probe tr + count is_failed_delete tr)%nat.
Proof.
  intros tr. subst tr.
  apply (main_journal_always
           (fun tr => (count is_log tr
                       <= count is_failed_probe tr + count is_failed_delete tr)%nat)).
  - cbn. lia.
  - intros a b Ha Hb. rewrite !count_app. lia.
  - unfold journal, setup. unfold_calls. repeat run_call; cbn; lia.
  - intros job last cred [id nm] w'. destruct last as [lj|]; run_step; cbn; lia.
  - intros [lj|] w'; unfold journal, reap; unfold_calls; repeat run_call; cbn; lia.
Qed.

End MoreFacts.

(** ** Instances of the further properties on the scenario *)

Section MoreScenarioFacts.
Import Store Scenario.

(** An instance of X2: the first run of the scenario. *)
Lemma first_run_creates_for_every_probed_schema_witness :
  setup Store.env key secret "job-1" 7 world0
    = (Ok (job1, None, cred7),
       world (setup Store.env key secret "job-1" 7 world0),
       journal (setup Store.env key secret "job-1" 7 world0)) /\
  count is_lookup (journal (run "job-1" schemas world0)) = 0%nat /\
  count is_delete (journal (run "job-1" schemas world0)) = 0%nat /\
  count is_create (journal (run "job-1" schemas world0))
    = count is_ok_probe (journal (run "job-1" schemas world0)).
Proof.
  assert (H : setup Store.env key secret "job-1" 7 world0
              = (Ok (job1, None, cred7),
                 world (setup Store.env key secret "job-1" 7 world0),
                 journal (setup Store.env key secret "job-1" 7 world0)))
    by (vm_compute; reflexivity).
  split; [exact H|].
  exact (first_run_creates_for_every_probed_schema Store.env key secret lower_ascii snake_case
           url_of "job-1" 7 schemas world0 _ _ _ _ H).
Defined.

(** An instance of X3: the creations of the first run. *)
Lemma creations_are_parquet_tables_of_the_source_witness :
  setup Store.env key secret "job-1" 7 world0
    = (Ok (job1, None, cred7),
       world (setup Store.env key secret "job-1" 7 world0),
       journal (setup Store.env key secret "job-1" 7 world0)) /\
  Forall (create_as_expected job1 cred7 7) (journal (run "job-1" schemas world0)).
Proof.
  assert (H : setup Store.env key secret "job-1" 7 world0
              = (Ok (job1, None, cred7),
                 world (setup Store.env key secret "job-1" 7 world0),
                 journal (setup Store.env key secret "job-1" 7 world0)))
    by (vm_compute; reflexivity).
  split; [exact H|].
  exact (creations_are_parquet_tables_of_the_source Store.env key secret lower_ascii snake_case
           url_of "job-1" 7 schemas world0 _ _ _ _ _ H).
Defined.


(** An instance of X5: the store calls of the second run. *)
Lemma store_calls_team_scope_witness :
  setup Store.env key secret "job-2" 7 world1
    = (Ok (job2, Some job1, cred7), world1,
       journal (setup Store.env key secret "job-2" 7 world1)) /\
  Forall (scoped_as_expected job2 7) (journal (run "job-2" schemas world1)).
Proof.
  assert (H : setup Store.env key secret "job-2" 7 world1
              = (Ok (job2, Some job1, cred7), world1,
                 journal (setup Store.env key secret "job-2" 7 world1)))
    by (vm_compute; reflexivity).
  split; [exact H|].
  exact (store_calls_team_scope Store.env key secret lower_ascii snake_case
           url_of "job-2" 7 schemas world1 _ _ _ _ _ H).
Defined.

(** An instance of X6: the second run of the scenario. *)
Lemma deletion_only_in_completed_runs_witness :
  setup Store.env key secret "job-2" 7 world1
    = (Ok (job2, Some job1, cred7), world1,
       journal (setup Store.env key secret "job-2" 7 world1)) /\
  (count is_delete (journal (run "job-2" schemas world1)) <= 1)%nat /\
  Forall (delete_as_expected (Some job1)) (journal (run "job-2" schemas world1)).
Proof.
  assert (H : setup Store.env key secret "job-2" 7 world1
              = (Ok (job2, Some job1, cred7), world1,
                 journal (setup Store.env key secret "job-2" 7 world1)))
    by (vm_compute; reflexivity).
  split; [exact H|].
  pose proof (deletion_only_in_completed_runs Store.env key secret lower_ascii snake_case
                url_of "job-2" 7 schemas world1 _ _ _ _ _ H) as T.
  cbv zeta in T. destruct T as (T1 & T2 & _).
  split; [exact T1 | exact T2].
Defined.

End MoreScenarioFacts.

(** ** The Experiment serializer *)

Section ExperimentFacts.
Import Experiments.

Lemma py_eq_str s k : py_eq (JStr s) k = true -> k = JStr s.
Proof.
  destruct k; cbn; try discriminate. intros H.
  apply String.eqb_eq in H. subst. reflexivity.
Qed.

Lemma py_eq_str_refl s : py_eq (JStr s) (JStr s) = true.
Proof. cbn. apply String.eqb_refl. Qed.

Lemma res_map_exists {A : Type} (f : A -> Res Json) l keys s :
  res_map f l = Good keys ->
  existsb (py_eq (JStr s)) keys = true ->
  Exists (fun x => f x = Good (JStr s)) l.
Proof.
  revert keys. induction l as [|x l IH]; intros keys; cbn.
  - intros [= <-]. discriminate.
  - destruct (f x) as [y|e] eqn:Ex; cbn; [|discriminate].
    destruct (res_map f l) as [ys|e]; cbn; [|discriminate].
    intros [= <-]. cbn. intros H. apply orb_true_iff in H as [H|H].
    + apply Exists_cons_hd. apply py_eq_str in H. subst. exact Ex.
    + apply Exists_cons_tl. apply (IH ys); [reflexivity | exact H].
Qed.

Lemma res_map_good {A : Type} (f : A -> Res Json) l :
  Forall (fun x => exists k, f x = Good k) l ->
  exists keys, res_map f l = Good keys /\
    forall s, Exists (fun x => f x = Good (JStr s)) l ->
              existsb (py_eq (JStr s)) keys = true.
Proof.
  induction l as [|x l IH]; intros H.
  - exists []. split; [reflexivity|]. intros s Hex. inversion Hex.
  - apply Forall_cons in H as [[k Hk] Hl]. destruct (IH Hl) as (keys & Hm & He).
    exists (k :: keys). cbn. rewrite Hk. cbn. rewrite Hm. cbn.
    split; [reflexivity|]. intros s Hex.
    change (existsb (py_eq (JStr s)) (k :: keys))
      with (py_eq (JStr s) k || existsb (py_eq (JStr s)) keys).
    apply Exists_cons in Hex as [Hx|Hx].
    + rewrite Hk in Hx. injection Hx as Hx. subst k.
      apply orb_true_iff. left. apply py_eq_str_refl.
    + apply orb_true_iff. right. exact (He s Hx).
Qed.

(** X8.  When [validate_parameters] returns, it returns its argument
    unchanged; and when the argument is truthy with a list under
    "feature_flag_variants", that list has at most four variants and is
    either empty or has a variant whose key is "control". *)
Theorem validate_parameters_accepts value v :
  validate_parameters value = Good v ->
  v = value /\
  forall vs,
    truthy value = true ->
    get_method value "feature_flag_variants" (JList []) = Good (JList vs) ->
    (length vs <= 4)%nat /\
    (vs = [] \/ Exists (fun x => getitem x "key" = Good (JStr "control")) vs).
Proof.
  unfold validate_parameters. destruct (truthy value) eqn:Ht; cbn [negb].
  - destruct (get_method value "feature_flag_variants" (JList [])) as [variants|e];
      cbn [res_bind]; [|discriminate].
    destruct (py_len variants) as [n|e] eqn:Hn; cbn [res_bind]; [|discriminate].
    destruct (4 <? n)%nat eqn:H4; [discriminate|].
    apply Nat.ltb_ge in H4.
    destruct (0 <? n)%nat eqn:H0.
    + destruct (py_iter variants) as [elems|e] eqn:Hi; cbn [res_bind]; [|discriminate].
      destruct (res_map _ elems) as [keys|e] eqn:Hk; cbn [res_bind]; [|discriminate].
      destruct (existsb _ keys) eqn:Hc; cbn [negb]; [|discriminate].
      intros [= <-]. split; [reflexivity|]. intros vs _ [= ->].
      cbn in Hn, Hi. injection Hn as <-. injection Hi as <-.
      split; [exact H4|]. right. exact (res_map_exists _ _ _ _ Hk Hc).
    + intros [= <-]. split; [reflexivity|]. intros vs _ [= ->].
      cbn in Hn. injection Hn as <-. apply Nat.ltb_ge in H0.
      split; [lia|]. left. destruct vs; [reflexivity | cbn in H0; lia].
  - intros [= <-]. split; [reflexivity|]. intros vs [=].
Qed.

(** X9.  [validate_parameters] accepts a dictionary whose
    "feature_flag_variants" is a list of at most four dictionaries with a
    "key" each, provided the list is empty or one of the keys is
    "control". *)
Theorem validate_parameters_accepts_well_formed d vs :
  dict_lookup "feature_flag_variants" d = Some (JList vs) ->
  (length vs <= 4)%nat ->
  Forall (fun x => exists k, getitem x "key" = Good k) vs ->
  vs = [] \/ Exists (fun x => getitem x "key" = Good (JStr "control")) vs ->
  validate_parameters (JDict d) = Good (JDict d).
Proof.
  intros Hd Hlen Hwf Hc. unfold validate_parameters.
  assert (Ht : truthy (JDict d) = true) by (destruct d; [discriminate | reflexivity]).
  rewrite Ht. cbn [negb get_method]. rewrite Hd. cbn [res_bind py_len py_iter].
  destruct (4 <? length vs)%nat eqn:H4; [apply Nat.ltb_lt in H4; lia|].
  destruct (0 <? length vs)%nat eqn:H0; [|reflexivity].
  destruct Hc as [-> | Hc]; [discriminate|].
  destruct (res_map_good _ vs Hwf) as (keys & Hk & He).
  rewrite Hk. cbn [res_bind]. rewrite (He "control" Hc). reflexivity.
Qed.

(** X10.  [validate_parameters] rejects a dictionary with more than four
    variants with the message "Feature flag variants must be less than 5",
    whatever the variants are; and it rejects one to four well-formed
    variants none of which has the key "control" with the message "Feature
    flag variants must contain a control variant". *)
Theorem validate_parameters_rejections d vs :
  dict_lookup "feature_flag_variants" d = Some (JList vs) ->
  ((4 < length vs)%nat ->
   validate_parameters (JDict d)
     = Bad (ValidationError "Feature flag variants must be less than 5")) /\
  ((0 < length vs <= 4)%nat ->
   Forall (fun x => exists k, getitem x "key" = Good k /\ k <> JStr "control") vs ->
   validate_parameters (JDict d)
     = Bad (ValidationError "Feature flag variants must contain a control variant")).
Proof.
  intros Hd. unfold validate_parameters.
  assert (Ht : truthy (JDict d) = true) by (destruct d; [discriminate | reflexivity]).
  rewrite Ht. cbn [negb get_method]. rewrite Hd. cbn [res_bind py_len py_iter]. split.
  - intros H4. apply Nat.ltb_lt in H4. rewrite H4. reflexivity.
  - intros [H0 H4] Hwf.
    destruct (4 <? length vs)%nat eqn:E4; [apply Nat.ltb_lt in E4; lia|].
    apply Nat.ltb_lt in H0. rewrite H0. clear H0 H4 E4 Hd Ht.
    assert (H : exists keys,
               res_map (fun variant => getitem variant "key") vs = Good keys /\
               existsb (py_eq (JStr "control")) keys = false).
    { induction vs as [|x vs IH].
      - exists []. split; reflexivity.
      - apply Forall_cons in Hwf as [(k & Hk & Hne) Hl].
        destruct (IH Hl) as (keys & Hm & He). exists (k :: keys).
        cbn [res_map]. rewrite Hk. cbn [res_bind]. rewrite Hm. cbn [res_bind].
        split; [reflexivity|].
        change (existsb (py_eq (JStr "control")) (k :: keys))
          with (py_eq (JStr "control") k || existsb (py_eq (JStr "control")) keys).
        rewrite He, orb_false_r.
        destruct (py_eq (JStr "control") k) eqn:E; [|reflexivity].
        apply py_eq_str in E. contradiction. }
    destruct H as (keys & Hk & He). rewrite Hk. cbn [res_bind]. rewrite He. reflexivity.
Qed.

Section Serializer.
Context {W : Type} (env : Env W) (py_str : Val -> string).

(** X11.  [create] raises before calling anything when the data are
    incomplete: a ValidationError when "filters" is absent or falsy, and a
    KeyError when "filters" is there but the key "parameters" is not. *)
Theorem create_rejects_incomplete_data validated_data context w :
  no_filters validated_data = true \/ validated_data !! "parameters" = None ->
  exists e,
    create env py_str validated_data context w = (Bad e, w, []) /\
    (no_filters validated_data = true ->
     e = ValidationError "Filters are required to create an Experiment") /\
    (no_filters validated_data = false -> e = KeyError "parameters").
Proof.
  intros H. unfold create. destruct (no_filters validated_data) eqn:Hf.
  - eexists. split; [reflexivity|]. split; [reflexivity | discriminate].
  - destruct H as [H|H]; [discriminate|].
    unfold_ecalls. unfold data_getitem. rewrite H.
    eexists. split; [reflexivity|]. split; [discriminate | reflexivity].
Qed.

(** Setting "created_by" and popping the flag key do not touch the start
    date. *)
Lemma is_draft_data_kept (validated_data : gmap string Val) u :
  is_draft_data (delete "get_feature_flag_key" (<["created_by" := u]> validated_data))
  = is_draft_data validated_data.
Proof.
  unfold is_draft_data.
  rewrite lookup_delete_ne by discriminate. rewrite lookup_insert_ne by discriminate.
  reflexivity.
Qed.

(** X12.  Whenever [create] calls [Experiment.objects.create], the journal
    is exactly: the team fetched, the flag data validated, the flag saved,
    the experiment created with that team and that flag; the keyword
    arguments are the validated data with "created_by" set to the user of
    the request and without "get_feature_flag_key"; and the outcome of
    [create] is the outcome of that call. *)
Theorem create_writes_in_order validated_data context w team feature_flag kwargs r :
  In (C_Experiment_objects_create team feature_flag kwargs r)
     (calls (create env py_str validated_data context w)) ->
  exists data,
    calls (create env py_str validated_data context w)
    = [C_Team_objects_get (ctx_team_id context) (Good team);
       C_flag_is_valid data context (Good tt);
       C_flag_serializer_save data context (Good feature_flag);
       C_Experiment_objects_create team feature_flag kwargs r] /\
    kwargs = delete "get_feature_flag_key"
               (<["created_by" := VUser (ctx_request_user context)]> validated_data) /\
    result (create env py_str validated_data context w) = r.
Proof.
  run_create is_draft_data_kept; cbn [In]; intros H; try (exfalso; intuition discriminate).
  all: destruct H as [H|[H|[H|[H|[]]]]]; try discriminate; inversion H; subst;
    eexists; split; [reflexivity|]; split; reflexivity.
Qed.


(** X14.  When the validation of the flag data raises, [create] raises the
    same exception and has written nothing: neither flag nor experiment. *)
Theorem create_invalid_flag_writes_nothing validated_data context w data c e :
  In (C_flag_is_valid data c (Bad e))
     (calls (create env py_str validated_data context w)) ->
  result (create env py_str validated_data context w) = Bad e /\
  Forall (fun c => is_writing c = false)
         (calls (create env py_str validated_data context w)).
Proof.
  run_create is_draft_data_kept; cbn [In]; intros H; try (exfalso; intuition discriminate).
  all: journal_members.
  all: inversion H; subst.
  all: split; [reflexivity|]; repeat constructor.
Qed.

(** X15.  An update that carries "start_date" for an experiment that is no
    longer a draft always raises, before any call; when the keys and the
    variants pass their checks the error is the ValidationError on the
    start date. *)
Theorem update_start_date_locked instance validated_data w :
  exp_is_draft instance = false ->
  is_Some (validated_data !! "start_date") ->
  exists e,
    update env instance validated_data w = (Bad e, w, []) /\
    (extra_keys_of (exp_feature_flag instance) validated_data = ∅ ->
     validate_variants (exp_feature_flag instance) validated_data = Good tt ->
     e = ValidationError
           "Can't change experiment start date after experiment has begun").
Proof.
  intros Hd Hs. unfold update. rewrite Hd. rewrite (bool_decide_eq_true_2 _ Hs).
  cbn [andb].
  destruct (bool_decide (extra_keys_of (exp_feature_flag instance) validated_data = ∅))
    eqn:Hx; cbn [negb].
  - unfold_ecalls.
    destruct (validate_variants (exp_feature_flag instance) validated_data) as [[]|e'].
    + eexists. split; [reflexivity|]. reflexivity.
    + eexists. split; [reflexivity|]. discriminate.
  - eexists. split; [reflexivity|]. intros He. apply bool_decide_eq_false_1 in Hx.
    contradiction.
Qed.

(** X16.  The calls of [update] are, in every run: none, with an
    exception; the framework's update alone, on the instance and the data
    as given, only without "start_date"; or the save of the flag set
    active, only for a draft with "start_date", followed when it returns by
    the framework's update on the instance with that flag. *)
Theorem update_journal_shapes instance validated_data w :
  update_shape instance validated_data
    (result (update env instance validated_data w),
     calls (update env instance validated_data w)).
Proof.
  unfold update_shape, result, calls, update. cbn [fst snd].
  destruct (bool_decide (extra_keys_of (exp_feature_flag instance) validated_data = ∅));
    cbn [negb]; [|cbn; eauto].
  unfold_ecalls.
  destruct (validate_variants (exp_feature_flag instance) validated_data) as [[]|e'];
    [|cbn; eauto].
  destruct (exp_is_draft instance) eqn:Hd; cbn [andb].
  - destruct (bool_decide (is_Some (validated_data !! "start_date"))) eqn:Hs.
    + apply bool_decide_eq_true_1 in Hs.
      repeat run_ecall; cbn; auto 10.
    + apply bool_decide_eq_false_1 in Hs. repeat run_ecall; cbn; auto.
  - destruct (bool_decide (is_Some (validated_data !! "start_date"))) eqn:Hs.
    + cbn; eauto.
    + apply bool_decide_eq_false_1 in Hs. repeat run_ecall; cbn; auto.
Qed.


Lemma check_variants_good feature_flag given :
  check_variants feature_flag given = Good tt ->
  Forall (has_one_counterpart feature_flag) given.
Proof.
  induction given as [|variant given IH]; intros H; [constructor|].
  cbn [check_variants] in H.
  destruct (res_filter (same_variant variant) (ff_variants feature_flag))
    as [matching|e] eqn:Hm; cbn [res_bind] in H; [|discriminate].
  destruct (Nat.eqb (length matching) 1) eqn:Hl; cbn [negb] in H; [|discriminate].
  constructor; [|exact (IH H)].
  exists matching. split; [exact Hm|]. apply Nat.eqb_eq. exact Hl.
Qed.

(** X17.  When [update] gets as far as calling the store and the data
    carry a list of flag variants, that list is as long as the variants of
    the flag and each of its variants has exactly one counterpart, with the
    same key and rollout percentage, among them. *)
Theorem update_variants_frozen instance validated_data w d given :
  calls (update env instance validated_data w) <> [] ->
  validated_data !! "parameters" = Some (VJson (JDict d)) ->
  dict_lookup "feature_flag_variants" d = Some (JList given) ->
  length given = length (ff_variants (exp_feature_flag instance)) /\
  Forall (has_one_counterpart (exp_feature_flag instance)) given.
Proof.
  intros Hc Hp Hv. unfold calls, update in Hc.
  destruct (bool_decide (extra_keys_of (exp_feature_flag instance) validated_data = ∅));
    cbn [negb] in Hc; [|cbn in Hc; congruence].
  unfold ebind at 1, lift in Hc.
  destruct (validate_variants (exp_feature_flag instance) validated_data)
    as [[]|e] eqn:Hvv; [|cbn in Hc; congruence].
  clear Hc. unfold validate_variants, data_getitem in Hvv. rewrite Hp in Hvv.
  cbn [val_contains contains res_bind val_getitem getitem] in Hvv.
  rewrite Hv in Hvv. cbn [res_bind py_len py_iter] in Hvv.
  destruct (Nat.eqb (length given) (length (ff_variants (exp_feature_flag instance))))
    eqn:Hl; cbn [negb] in Hvv; [|discriminate].
  split; [apply Nat.eqb_eq; exact Hl | apply check_variants_good; exact Hvv].
Qed.

(** X18.  A key of the data outside the six updatable ones makes [update]
    raise a ValidationError before any call, unless it is
    "get_feature_flag_key" with the key of the flag; when it is the only
    such key the message names it. *)
Theorem update_rejects_unexpected_keys instance validated_data w k :
  is_Some (validated_data !! k) ->
  k ∉ expected_keys ->
  (k = "get_feature_flag_key" ->
   same_flag_key (exp_feature_flag instance) validated_data = false) ->
  exists msg,
    update env instance validated_data w = (Bad (ValidationError msg), w, []) /\
    (extra_keys_of (exp_feature_flag instance) validated_data = {[k]} ->
     msg = "Can't update keys: " +:+ k +:+ " on Experiment").
Proof.
  intros Hk He Hf.
  assert (Hx : extra_keys_of (exp_feature_flag instance) validated_data <> ∅).
  { apply elem_of_dom in Hk. unfold extra_keys_of.
    destruct (same_flag_key (exp_feature_flag instance) validated_data).
    - assert (k <> "get_feature_flag_key") by (intros ->; specialize (Hf eq_refl); discriminate).
      set_solver.
    - set_solver. }
  unfold update. rewrite (bool_decide_eq_false_2 _ Hx). cbn [negb].
  eexists. split; [reflexivity|].
  intros ->. rewrite elements_singleton. cbn. reflexivity.
Qed.

(** X19.  Data with updatable keys only, without "parameters" and without
    "start_date", go to the framework's update unchanged, as the only
    call, whose outcome is the outcome of [update]. *)
Theorem update_plain_fields_pass_through instance validated_data w :
  dom validated_data ⊆ expected_keys ->
  validated_data !! "parameters" = None ->
  validated_data !! "start_date" = None ->
  update env instance validated_data w
  = (let (r, w1) := env_super_update env instance validated_data w in
     (r, w1, [C_super_update instance validated_data r])).
Proof.
  intros Hd Hp Hs.
  assert (Hx : extra_keys_of (exp_feature_flag instance) validated_data = ∅).
  { assert (Hx : dom validated_data ∖ expected_keys = ∅).
    { apply leibniz_equiv, elem_of_equiv_empty. intros x Hx.
      apply elem_of_difference in Hx as [H1 H2]. exact (H2 (Hd x H1)). }
    unfold extra_keys_of. rewrite Hx.
    destruct (same_flag_key (exp_feature_flag instance) validated_data);
      [|reflexivity].
    apply leibniz_equiv, elem_of_equiv_empty. intros x Hx'.
    apply elem_of_difference in Hx' as [H1 _]. exact (not_elem_of_empty x H1). }
  unfold update. rewrite (bool_decide_eq_true_2 _ Hx). cbn [negb].
  unfold validate_variants. rewrite Hp, Hs.
  assert (Hn : bool_decide (is_Some (@None Val)) = false)
    by (apply bool_decide_eq_false_2; intros [? ?]; discriminate).
  rewrite Hn, andb_false_r.
  unfold_ecalls. cbn.
  destruct (env_super_update env instance validated_data w) as [r w1]. reflexivity.
Qed.

End Serializer.

(** ** Instances on the examples *)

Section SerializerExamples.
Import ExperimentScenario.

(** An instance of X8: three variants, the first of which is the
    control. *)
Lemma validate_parameters_accepts_witness :
  validate_parameters (JDict [("feature_flag_variants", JList three_variants)])
    = Good (JDict [("feature_flag_variants", JList three_variants)]) /\
  (length three_variants <= 4)%nat /\
  (three_variants = [] \/
   Exists (fun x => getitem x "key" = Good (JStr "control")) three_variants).
Proof.
  assert (H : validate_parameters
                (JDict [("feature_flag_variants", JList three_variants)])
              = Good (JDict [("feature_flag_variants", JList three_variants)]))
    by (vm_compute; reflexivity).
  split; [exact H|].
  destruct (validate_parameters_accepts _ _ H) as [_ T].
  apply T; reflexivity.
Defined.

(** An instance of X9: the same parameters. *)
Lemma validate_parameters_accepts_well_formed_witness :
  (dict_lookup "feature_flag_variants"
     [("feature_flag_variants", JList three_variants)] = Some (JList three_variants) /\
   (length three_variants <= 4)%nat /\
   Forall (fun x => exists k, getitem x "key" = Good k) three_variants /\
   (three_variants = [] \/
    Exists (fun x => getitem x "key" = Good (JStr "control")) three_variants)) /\
  validate_parameters (JDict [("feature_flag_variants", JList three_variants)])
    = Good (JDict [("feature_flag_variants", JList three_variants)]).
Proof.
  assert (H1 : dict_lookup "feature_flag_variants"
                 [("feature_flag_variants", JList three_variants)]
               = Some (JList three_variants)) by reflexivity.
  assert (H2 : (length three_variants <= 4)%nat) by (vm_compute; lia).
  assert (H3 : Forall (fun x => exists k, getitem x "key" = Good k) three_variants)
    by (repeat (apply Forall_cons_2; [eexists; reflexivity|]); apply Forall_nil_2).
  assert (H4 : three_variants = [] \/
               Exists (fun x => getitem x "key" = Good (JStr "control")) three_variants)
    by (right; apply Exists_cons_hd; reflexivity).
  split; [repeat split; assumption|].
  exact (validate_parameters_accepts_well_formed _ _ H1 H2 H3 H4).
Defined.

(** An instance of X10: five variants, control among them. *)
Lemma validate_parameters_rejections_witness :
  dict_lookup "feature_flag_variants"
    [("feature_flag_variants", JList five_variants)] = Some (JList five_variants) /\
  validate_parameters (JDict [("feature_flag_variants", JList five_variants)])
    = Bad (ValidationError "Feature flag variants must be less than 5").
Proof.
  assert (H : dict_lookup "feature_flag_variants"
                [("feature_flag_variants", JList five_variants)]
              = Some (JList five_variants)) by reflexivity.
  split; [exact H|].
  destruct (validate_parameters_rejections _ _ H) as [T _].
  apply T. vm_compute. lia.
Defined.

(** An instance of X11: the new experiment without its filters. *)
Lemma create_rejects_incomplete_data_witness :
  (no_filters (delete "filters" new_experiment) = true \/
   delete "filters" new_experiment !! "parameters" = None) /\
  create env py_str (delete "filters" new_experiment) request 0%nat
    = (Bad (ValidationError "Filters are required to create an Experiment"),
       0%nat, []).
Proof.
  assert (H : no_filters (delete "filters" new_experiment) = true)
    by (vm_compute; reflexivity).
  split; [left; exact H|].
  destruct (create_rejects_incomplete_data env py_str
              (delete "filters" new_experiment) request 0%nat (or_introl H))
    as (e & T1 & T2 & _).
  rewrite T1, (T2 H). reflexivity.
Defined.

(** An instance of X12: the creation of the new experiment. *)
Lemma create_writes_in_order_witness :
  In (C_Experiment_objects_create {| team_pk := 2 |} pricing_flag pricing_kwargs
        (Good pricing_draft))
     (calls (create env py_str new_experiment request 0%nat)) /\
  result (create env py_str new_experiment request 0%nat) = Good pricing_draft /\
  length (calls (create env py_str new_experiment request 0%nat)) = 4%nat.
Proof.
  assert (H : In (C_Experiment_objects_create {| team_pk := 2 |} pricing_flag
                    pricing_kwargs (Good pricing_draft))
                 (calls (create env py_str new_experiment request 0%nat)))
    by (vm_compute; tauto).
  split; [exact H|].
  destruct (create_writes_in_order env py_str _ _ _ _ _ _ _ H) as (data & T1 & _ & T3).
  split; [exact T3 | rewrite T1; reflexivity].
Defined.


(** An instance of X14: the new experiment with [None] as flag key. *)
Lemma create_invalid_flag_writes_nothing_witness :
  In (C_flag_is_valid unkeyed_flag_data request
        (Bad (ValidationError "Not a valid string.")))
     (calls (create env py_str unkeyed_experiment request 0%nat)) /\
  result (create env py_str unkeyed_experiment request 0%nat)
    = Bad (ValidationError "Not a valid string.") /\
  Forall (fun c => is_writing c = false)
    (calls (create env py_str unkeyed_experiment request 0%nat)).
Proof.
  assert (H : In (C_flag_is_valid unkeyed_flag_data request
                    (Bad (ValidationError "Not a valid string.")))
                 (calls (create env py_str unkeyed_experiment request 0%nat)))
    by (vm_compute; tauto).
  split; [exact H|].
  exact (create_invalid_flag_writes_nothing env py_str _ _ _ _ _ _ H).
Defined.

(** An instance of X15: a start date for the running experiment. *)
Lemma update_start_date_locked_witness :
  (exp_is_draft pricing_running = false /\ is_Some (start_data !! "start_date")) /\
  update env pricing_running start_data 0%nat
    = (Bad (ValidationError
              "Can't change experiment start date after experiment has begun"),
       0%nat, []).
Proof.
  assert (H1 : exp_is_draft pricing_running = false) by reflexivity.
  assert (H2 : is_Some (start_data !! "start_date"))
    by (eexists; vm_compute; reflexivity).
  split; [split; assumption|].
  destruct (update_start_date_locked env pricing_running start_data 0%nat H1 H2)
    as (e & T1 & T2).
  rewrite T1, T2; [reflexivity | vm_compute; reflexivity | vm_compute; reflexivity].
Defined.

(** An instance of X17: the draft updated with its three variants in
    another order. *)
Lemma update_variants_frozen_witness :
  (calls (update env pricing_draft reordered_data 0%nat) <> [] /\
   reordered_data !! "parameters"
     = Some (VJson (JDict [("feature_flag_variants", JList reordered_variants)])) /\
   dict_lookup "feature_flag_variants"
     [("feature_flag_variants", JList reordered_variants)]
     = Some (JList reordered_variants)) /\
  length reordered_variants = length (ff_variants (exp_feature_flag pricing_draft)) /\
  Forall (has_one_counterpart (exp_feature_flag pricing_draft)) reordered_variants.
Proof.
  assert (H1 : calls (update env pricing_draft reordered_data 0%nat) <> [])
    by (vm_compute; discriminate).
  assert (H2 : reordered_data !! "parameters"
               = Some (VJson (JDict [("feature_flag_variants",
                                      JList reordered_variants)])))
    by (vm_compute; reflexivity).
  assert (H3 : dict_lookup "feature_flag_variants"
                 [("feature_flag_variants", JList reordered_variants)]
               = Some (JList reordered_variants)) by reflexivity.
  split; [repeat split; assumption|].
  exact (update_variants_frozen env pricing_draft reordered_data 0%nat _ _ H1 H2 H3).
Defined.

(** An instance of X18: an update of the author of the draft. *)
Lemma update_rejects_unexpected_keys_witness :
  (is_Some (author_data !! "created_by") /\
   ("created_by" ∉ expected_keys) /\
   ("created_by" = "get_feature_flag_key" ->
    same_flag_key (exp_feature_flag pricing_draft) author_data = false)) /\
  update env pricing_draft author_data 0%nat
    = (Bad (ValidationError "Can't update keys: created_by on Experiment"),
       0%nat, []).
Proof.
  assert (H1 : is_Some (author_data !! "created_by"))
    by (eexists; vm_compute; reflexivity).
  assert (H2 : "created_by" ∉ expected_keys) by compute_done.
  assert (H3 : "created_by" = "get_feature_flag_key" ->
               same_flag_key (exp_feature_flag pricing_draft) author_data = false)
    by discriminate.
  split; [repeat split; assumption|].
  destruct (update_rejects_unexpected_keys env pricing_draft author_data 0%nat
              "created_by" H1 H2 H3) as (msg & T1 & T2).
  rewrite T1, T2; [reflexivity | vm_compute; reflexivity].
Defined.

(** An instance of X19: the draft renamed. *)
Lemma update_plain_fields_pass_through_witness :
  ((dom rename_data ⊆ expected_keys) /\
   rename_data !! "parameters" = None /\
   rename_data !! "start_date" = None) /\
  update env pricing_draft rename_data 0%nat
    = (Good pricing_draft, 1%nat, [C_super_update pricing_draft rename_data
                                     (Good pricing_draft)]).
Proof.
  assert (H1 : dom rename_data ⊆ expected_keys) by compute_done.
  assert (H2 : rename_data !! "parameters" = None) by (vm_compute; reflexivity).
  assert (H3 : rename_data !! "start_date" = None) by (vm_compute; reflexivity).
  split; [repeat split; assumption|].
  rewrite (update_plain_fields_pass_through env pricing_draft rename_data 0%nat
             H1 H2 H3).
  reflexivity.
Defined.

End SerializerExamples.

End ExperimentFacts.
